(** * codex-fcm: the FCM web-push test page and its service worker

    A shallow embedding of [src/App.tsx] (the React component with its
    handlers) and of [firebase-messaging-sw.js] (the service worker),
    with the properties the specification states about them.

    The browser and the vendored Firebase SDK are not part of the
    repository.  Every call into them is recorded in a trace, and the value
    the call produces is read from an explicit environment, so each theorem
    quantifies over whatever the platform answers. *)

From Stdlib Require Import Ascii String ZArith.
From stdpp Require Import gmap strings list pretty.

Open Scope string_scope.
Open Scope list_scope.
Set Warnings "-register-all".
Set Default Proof Using "Type".

(** ** JavaScript values

    Payloads, messages and parsed JSON are untyped at run time.  Numbers are
    kept integral: no arithmetic is done on them by the code. *)

Inductive jsval : Type :=
| JUndefined
| JNull
| JBool (b : bool)
| JNum (n : Z)
| JStr (s : string)
| JArr (items : list jsval)
| JObj (fields : list (string * jsval)).

(** A thrown value.  What the code reads of it is [message] only;
    [None] stands for a thrown value without one. *)
Record exn : Type := Exn { message : option string }.

Definition Error (msg : string) : exn := Exn (Some msg).

Definition TypeError : exn := Error "Cannot read properties of null or undefined".
Definition SyntaxError : exn := Error "Unexpected token in JSON".

(** Own property of an object literal, [undefined] when absent. *)
Fixpoint get_field (name : string) (fields : list (string * jsval)) : jsval :=
  match fields with
  | [] => JUndefined
  | (k, v) :: rest => if String.eqb k name then v else get_field name rest
  end.

(** [v.name].  Reading a property of [null] or [undefined] throws; the names
    read by this program ([notification], [title], [body], [icon], [data],
    [type], [config]) exist on no primitive and on no array. *)
Definition member (v : jsval) (name : string) : option jsval :=
  match v with
  | JUndefined | JNull => None
  | JObj fields => Some (get_field name fields)
  | _ => Some JUndefined
  end.

(** [v?.name] *)
Definition opt_member (v : jsval) (name : string) : jsval :=
  match member v name with
  | Some x => x
  | None => JUndefined
  end.

(** [v ?? d] *)
Definition nullish (v d : jsval) : jsval :=
  match v with
  | JUndefined | JNull => d
  | _ => v
  end.

(** [!!v] *)
Definition truthy (v : jsval) : bool :=
  match v with
  | JUndefined | JNull => false
  | JBool b => b
  | JNum n => negb (Z.eqb n 0)
  | JStr s => negb (String.eqb s "")
  | JArr _ | JObj _ => true
  end.

(** [typeof v === 'object'] *)
Definition typeof_object (v : jsval) : bool :=
  match v with
  | JNull | JArr _ | JObj _ => true
  | _ => false
  end.

(** [v === 'lit'] *)
Definition strict_eq_str (v : jsval) (lit : string) : bool :=
  match v with
  | JStr s => String.eqb s lit
  | _ => false
  end.

(** ** Effects

    A computation runs from a store, leaves a trace of the platform calls it
    made, and either returns, throws, or never settles (a promise nobody
    resolves). *)

Inductive result (A : Type) : Type :=
| Done (a : A)
| Threw (e : exn)
| Hung.
Arguments Done {A} a.
Arguments Threw {A} e.
Arguments Hung {A}.

Record reply (St Ev A : Type) : Type :=
  Reply { trace : list Ev; final : St; outcome : result A }.
Arguments Reply {St Ev A} trace final outcome.
Arguments trace {St Ev A} r.
Arguments final {St Ev A} r.
Arguments outcome {St Ev A} r.

Definition Eff (St Ev A : Type) : Type := St -> reply St Ev A.

Section Eff.
Context {St Ev : Type}.

Definition ret {A} (a : A) : Eff St Ev A :=
  fun s => Reply [] s (Done a).

Definition bind {A B} (m : Eff St Ev A) (k : A -> Eff St Ev B) : Eff St Ev B :=
  fun s =>
    match m s with
    | Reply t s' (Done a) =>
        match k a s' with
        | Reply t' s'' o => Reply (t ++ t') s'' o
        end
    | Reply t s' (Threw e) => Reply t s' (Threw e)
    | Reply t s' Hung => Reply t s' Hung
    end.

(** [throw e] *)
Definition throw {A} (e : exn) : Eff St Ev A :=
  fun s => Reply [] s (Threw e).

(** Waiting on a promise that nothing resolves. *)
Definition never {A} : Eff St Ev A :=
  fun s => Reply [] s Hung.

(** A platform call: logged, answered by the environment. *)
Definition call {A} (ev : Ev) (answer : result A) : Eff St Ev A :=
  fun s => Reply [ev] s answer.

(** A platform call that returns nothing and cannot fail. *)
Definition emit (ev : Ev) : Eff St Ev unit :=
  call ev (Done tt).

Definition get : Eff St Ev St :=
  fun s => Reply [] s (Done s).

Definition put (s' : St) : Eff St Ev unit :=
  fun _ => Reply [] s' (Done tt).

(** [try { body } catch (e) { handler e }] *)
Definition try_catch {A} (body : Eff St Ev A) (handler : exn -> Eff St Ev A)
  : Eff St Ev A :=
  fun s =>
    match body s with
    | Reply t s' (Threw e) =>
        match handler e s' with
        | Reply t' s'' o => Reply (t ++ t') s'' o
        end
    | r => r
    end.

(** [try { body } finally { fin }]: [fin] runs after a return and after a
    throw, and does not run while [body] never settles.  What [fin] throws
    replaces the outcome of [body]. *)
Definition try_finally {A} (body : Eff St Ev A) (fin : Eff St Ev unit)
  : Eff St Ev A :=
  fun s =>
    match body s with
    | Reply t s' Hung => Reply t s' Hung
    | Reply t s' o =>
        match fin s' with
        | Reply t' s'' (Done _) => Reply (t ++ t') s'' o
        | Reply t' s'' (Threw e) => Reply (t ++ t') s'' (Threw e)
        | Reply t' s'' Hung => Reply (t ++ t') s'' Hung
        end
    end.
End Eff.

Declare Scope eff_scope.
Delimit Scope eff_scope with eff.
Notation "x <- m ;; k" := (bind m (fun x => k))
  (at level 100, m at next level, right associativity) : eff_scope.
Notation "m ;; k" := (bind m (fun _ => k))
  (at level 100, right associativity) : eff_scope.
Open Scope eff_scope.

(** *** What a trace may look like *)

Section Traces.
Context {St Ev : Type}.

(** No event of the kind [P] in the trace. *)
Definition none (P : Ev -> bool) (t : list Ev) : bool :=
  forallb (fun ev => negb (P ev)) t.

(** Every [Q] event has a [P] event before it and none after it. *)
Definition precedes (P Q : Ev -> bool) (t : list Ev) : Prop :=
  forall pre q post,
    t = pre ++ q :: post -> Q q = true ->
    existsb P pre = true /\ none P post = true.

(** The same, of whatever a computation does from any store. *)
Definition quiet {A} (P : Ev -> bool) (m : Eff St Ev A) : Prop :=
  forall st, none P (trace (m st)) = true.

End Traces.

(** ** The service worker, [firebase-messaging-sw.js] *)

Module MessagingSw.

(** A messaging service of the compat SDK, identified by the options of
    the app it belongs to. *)
Inductive Messaging : Type := MessagingOf (app : jsval).

(** The module-level variables and the SDK's registry of apps. *)
Record state : Type := State {
  firebase_apps : list jsval;
  messagingInstance : option Messaging;
  backgroundHandlerRegistered : bool
}.

(** The worker script has just been evaluated. *)
Definition initial : state :=
  {| firebase_apps := [];
     messagingInstance := None;
     backgroundHandlerRegistered := false |}.

Inductive effect : Type :=
| InitializeApp (config : jsval)
| IsSupported
| GetMessaging
| OnBackgroundMessage
| ShowNotification (title options : jsval)
| WaitUntil
| ConsoleError.

(** What the SDK answers during one event: whether messaging is supported
    here, and whether [firebase.messaging()] returns for an app with the
    given options (it validates them and throws otherwise). *)
Record sdk : Type := Sdk {
  isSupported : bool;
  messaging_accepts : jsval -> bool
}.

Definition W := Eff state effect.

(** [firebase.initializeApp(config)]: the app joins [firebase.apps].  An
    app is recorded by the config it was created from; the SDK keeps a
    copy of it as the app's options. *)
Definition firebase_initializeApp (config : jsval) : W unit :=
  emit (InitializeApp config);;
  s <- get;;
  put {| firebase_apps := firebase_apps s ++ [config];
         messagingInstance := messagingInstance s;
         backgroundHandlerRegistered := backgroundHandlerRegistered s |}.

(** [firebase.messaging()]: the service of the default app. *)
Definition firebase_messaging (k : sdk) : W Messaging :=
  s <- get;;
  call GetMessaging
    match firebase_apps s with
    | [] => Threw (Error "No Firebase App '[DEFAULT]' has been created")
    | app :: _ =>
        if messaging_accepts k app then Done (MessagingOf app)
        else Threw (Error "Missing App configuration value")
    end.

Definition set_messagingInstance (m : Messaging) : W unit :=
  s <- get;;
  put {| firebase_apps := firebase_apps s;
         messagingInstance := Some m;
         backgroundHandlerRegistered := backgroundHandlerRegistered s |}.

Definition set_backgroundHandlerRegistered (b : bool) : W unit :=
  s <- get;;
  put {| firebase_apps := firebase_apps s;
         messagingInstance := messagingInstance s;
         backgroundHandlerRegistered := b |}.

(** The callback given to [onBackgroundMessage], lines 21-30. *)
Definition backgroundMessageHandler (payload : jsval) : W unit :=
  match member payload "notification" with
  | None => throw TypeError
  | Some notification =>
      let notificationTitle :=
        nullish (opt_member notification "title") (JStr "백그라운드 메시지") in
      let notificationOptions :=
        JObj [("body", nullish (opt_member notification "body") (JStr ""));
              ("icon", nullish (opt_member notification "icon") (JStr "/vite.svg"));
              ("data", nullish (opt_member payload "data") (JObj []))] in
      emit (ShowNotification notificationTitle notificationOptions)
  end.

(** [initializeMessaging], lines 8-35. *)
Definition initializeMessaging (k : sdk) (config : jsval) : W unit :=
  if negb (truthy config) || negb (typeof_object config) then ret tt
  else
    s <- get;;
    (if Nat.eqb (length (firebase_apps s)) 0
     then firebase_initializeApp config
     else ret tt);;
    supported <- call IsSupported (Done (isSupported k));;
    if supported : bool then
      m <- firebase_messaging k;;
      set_messagingInstance m;;
      s' <- get;;
      if negb (backgroundHandlerRegistered s') then
        emit OnBackgroundMessage;;
        set_backgroundHandlerRegistered true
      else ret tt
    else ret tt.

(** The ['message'] listener, lines 37-41. *)
Definition onMessage (k : sdk) (data : jsval) : W unit :=
  if strict_eq_str (opt_member data "type") "INIT_FIREBASE" then
    match member data "config" with
    | Some config => initializeMessaging k config
    | None => throw TypeError
    end
  else ret tt.

(** The body of a push message: [None] when [json()] throws. *)
Record PushMessageData : Type := PushData { json : option jsval }.

(** The ['push'] listener, lines 43-64. *)
Definition onPush (data : option PushMessageData) : W unit :=
  s <- get;;
  match messagingInstance s with
  | Some _ => ret tt
  | None =>
      match data with
      | None => ret tt
      | Some d =>
          try_catch
            (payload <- match json d with
                        | Some v => ret v
                        | None => throw SyntaxError
                        end;;
             match member payload "notification" with
             | None => throw TypeError
             | Some notification =>
                 let notificationTitle :=
                   nullish (opt_member notification "title") (JStr "푸시 알림") in
                 let notificationOptions :=
                   JObj [("body", nullish (opt_member notification "body") (JStr ""));
                         ("icon", nullish (opt_member notification "icon")
                                    (JStr "/vite.svg"))] in
                 emit (ShowNotification notificationTitle notificationOptions);;
                 emit WaitUntil
             end)
            (fun _ => emit ConsoleError)
      end
  end.

(** What reaches the worker. *)
Inductive event : Type :=
| MessageEvent (data : jsval)
| PushEvent (data : option PushMessageData)
| BackgroundMessage (payload : jsval).

(** One event, dispatched to its listener.  The SDK calls the background
    callback only once one has been registered. *)
Definition dispatch (k : sdk) (e : event) : W unit :=
  match e with
  | MessageEvent data => onMessage k data
  | PushEvent data => onPush data
  | BackgroundMessage payload =>
      s <- get;;
      if backgroundHandlerRegistered s then backgroundMessageHandler payload
      else ret tt
  end.

(** A run of the worker: the events in order, each with what the SDK
    answers during it.  An exception ends its own listener only. *)
Fixpoint run (evs : list (sdk * event)) (s : state) : list effect * state :=
  match evs with
  | [] => ([], s)
  | (k, e) :: rest =>
      let r := dispatch k e s in
      let '(t, s') := run rest (final r) in
      (trace r ++ t, s')
  end.

(** *** Vocabulary of the properties *)

(** An object in the sense of the guard of [initializeMessaging]: truthy
    and of type ['object']. *)
Definition is_object (v : jsval) : bool :=
  match v with
  | JArr _ | JObj _ => true
  | _ => false
  end.

(** A message that asks for initialisation, and the config it carries. *)
Definition init_request (data config : jsval) : Prop :=
  opt_member data "type" = JStr "INIT_FIREBASE" /\
  member data "config" = Some config /\
  is_object config = true.

Definition is_initializeApp (e : effect) : bool :=
  match e with InitializeApp _ => true | _ => false end.

Definition is_registration (e : effect) : bool :=
  match e with OnBackgroundMessage => true | _ => false end.

(** How many times [onBackgroundMessage] was called. *)
Definition registrations (t : list effect) : nat :=
  length (List.filter is_registration t).

Definition is_notification (e : effect) : bool :=
  match e with ShowNotification _ _ => true | _ => false end.

(** The notifications shown, in order. *)
Definition shown (t : list effect) : list effect :=
  List.filter is_notification t.

(** [payload.notification.<field>] when it is there and not null, else
    the fallback. *)
Definition notification_field (payload : jsval) (field fallback : string) : jsval :=
  match payload with
  | JObj fields =>
      match get_field "notification" fields with
      | JObj inner =>
          match get_field field inner with
          | JUndefined | JNull => JStr fallback
          | v => v
          end
      | _ => JStr fallback
      end
  | _ => JStr fallback
  end.

(** [payload.data] when it is there and not null, else an empty object. *)
Definition data_field (payload : jsval) : jsval :=
  match payload with
  | JObj fields =>
      match get_field "data" fields with
      | JUndefined | JNull => JObj []
      | v => v
      end
  | _ => JObj []
  end.

(** An SDK that supports messaging and accepts every app. *)
Definition full_sdk : sdk := Sdk true (fun _ => true).

End MessagingSw.

(** ** The platform's string and JSON primitives

    [String.prototype.trim], [JSON.parse] ([None] when it throws) and
    [JSON.stringify] belong to the JavaScript engine.  The page is modelled
    over any implementation of them. *)

Class Platform : Type := {
  trim : string -> string;
  JSON_parse : string -> option jsval;
  JSON_stringify : jsval -> string
}.

(** *** A reference implementation

    Used to run the model on concrete inputs: ASCII white space, and JSON
    with integers, strings of bytes, arrays and objects.  It reads less
    than the engine does (no fractions, no exponents, no white space
    beyond ASCII) and stands for it on such inputs only. *)

Module Reference.

Definition dquote : ascii := Eval cbv in ascii_of_nat 34.
Definition backslash : ascii := Eval cbv in ascii_of_nat 92.

Definition is_space (c : ascii) : bool :=
  let n := nat_of_ascii c in
  Nat.eqb n 32 || (Nat.leb 9 n && Nat.leb n 13).

Fixpoint trim_start (s : string) : string :=
  match s with
  | String c rest => if is_space c then trim_start rest else s
  | EmptyString => EmptyString
  end.

Fixpoint trim_end (s : string) : string :=
  match s with
  | String c rest =>
      match trim_end rest with
      | EmptyString => if is_space c then EmptyString else String c EmptyString
      | rest' => String c rest'
      end
  | EmptyString => EmptyString
  end.

Definition trim_ascii (s : string) : string := trim_end (trim_start s).

(** **** Printing *)

Definition hex_digit (n : nat) : ascii :=
  ascii_of_nat (if Nat.ltb n 10 then 48 + n else 87 + n).

Definition hex_value (c : ascii) : option nat :=
  let n := nat_of_ascii c in
  if Nat.leb 48 n && Nat.leb n 57 then Some (n - 48)
  else if Nat.leb 97 n && Nat.leb n 102 then Some (n - 87)
  else if Nat.leb 65 n && Nat.leb n 70 then Some (n - 55)
  else None.

(** The two-character escapes where JSON has one, [\u00XX] for the other
    control characters. *)
Definition escape (c : ascii) : string :=
  let n := nat_of_ascii c in
  if Nat.eqb n 34 then String backslash (String dquote EmptyString)
  else if Nat.eqb n 92 then String backslash (String backslash EmptyString)
  else if Nat.eqb n 8 then String backslash "b"
  else if Nat.eqb n 9 then String backslash "t"
  else if Nat.eqb n 10 then String backslash "n"
  else if Nat.eqb n 12 then String backslash "f"
  else if Nat.eqb n 13 then String backslash "r"
  else if Nat.ltb n 32 then
    String backslash
      (String "u" (String "0" (String "0"
         (String (hex_digit (n / 16)) (String (hex_digit (n mod 16)) EmptyString)))))
  else String c EmptyString.

Fixpoint escape_all (s : string) : string :=
  match s with
  | String c rest => (escape c +:+ escape_all rest)%string
  | EmptyString => EmptyString
  end.

Definition quote (s : string) : string :=
  String dquote (escape_all s +:+ String dquote EmptyString).

Definition join (parts : list string) : string :=
  match parts with
  | [] => EmptyString
  | p :: ps => fold_left (fun acc q => (acc +:+ "," +:+ q)%string) ps p
  end.

(** A property whose value is [undefined] is left out of an object; in an
    array it prints as [null]. *)
Fixpoint stringify (v : jsval) : string :=
  match v with
  | JUndefined => "undefined"
  | JNull => "null"
  | JBool true => "true"
  | JBool false => "false"
  | JNum n => pretty n
  | JStr s => quote s
  | JArr items =>
      ("[" +:+ join (map (fun x => match x with
                                   | JUndefined => "null"
                                   | _ => stringify x
                                   end) items) +:+ "]")%string
  | JObj fields =>
      ("{" +:+ join (omap (fun '(k, x) => match x with
                                         | JUndefined => None
                                         | _ => Some (quote k +:+ ":" +:+ stringify x)%string
                                         end) fields) +:+ "}")%string
  end.

(** **** Parsing *)

Fixpoint skip_ws (s : string) : string :=
  match s with
  | String c rest => if is_space c then skip_ws rest else s
  | EmptyString => EmptyString
  end.

Definition unescape (c : ascii) : option ascii :=
  let n := nat_of_ascii c in
  if Nat.eqb n 34 then Some dquote
  else if Nat.eqb n 92 then Some backslash
  else if Nat.eqb n 47 then Some c
  else if Nat.eqb n 98 then Some (ascii_of_nat 8)
  else if Nat.eqb n 116 then Some (ascii_of_nat 9)
  else if Nat.eqb n 110 then Some (ascii_of_nat 10)
  else if Nat.eqb n 102 then Some (ascii_of_nat 12)
  else if Nat.eqb n 114 then Some (ascii_of_nat 13)
  else None.

(** The characters after an opening quote, up to the closing one.  A
    [\uXXXX] escape is read when it names a single byte. *)
Fixpoint parse_chars (s : string) : option (string * string) :=
  match s with
  | EmptyString => None
  | String c rest =>
      let n := nat_of_ascii c in
      if Nat.eqb n 34 then Some (EmptyString, rest)
      else if Nat.eqb n 92 then
        match rest with
        | String e rest' =>
            if Nat.eqb (nat_of_ascii e) 117 then
              match rest' with
              | String h1 (String h2 (String h3 (String h4 rest''))) =>
                  match hex_value h1, hex_value h2, hex_value h3, hex_value h4 with
                  | Some d1, Some d2, Some d3, Some d4 =>
                      let code := ((d1 * 16 + d2) * 16 + d3) * 16 + d4 in
                      if Nat.ltb code 256 then
                        match parse_chars rest'' with
                        | Some (body, tail) =>
                            Some (String (ascii_of_nat code) body, tail)
                        | None => None
                        end
                      else None
                  | _, _, _, _ => None
                  end
              | _ => None
              end
            else
              match unescape e, parse_chars rest' with
              | Some c', Some (body, tail) => Some (String c' body, tail)
              | _, _ => None
              end
        | EmptyString => None
        end
      else if Nat.ltb n 32 then None
      else
        match parse_chars rest with
        | Some (body, tail) => Some (String c body, tail)
        | None => None
        end
  end.

Definition digit (c : ascii) : option Z :=
  let n := nat_of_ascii c in
  if Nat.leb 48 n && Nat.leb n 57 then Some (Z.of_nat (n - 48)) else None.

Fixpoint parse_digits (acc : Z) (s : string) : Z * string :=
  match s with
  | String c rest =>
      match digit c with
      | Some d => parse_digits (10 * acc + d)%Z rest
      | None => (acc, s)
      end
  | EmptyString => (acc, s)
  end.

Definition parse_number (s : string) : option (Z * string) :=
  match s with
  | String c rest =>
      if Nat.eqb (nat_of_ascii c) 45 then
        match rest with
        | String d _ =>
            match digit d with
            | Some _ => let '(n, tail) := parse_digits 0 rest in Some (Z.opp n, tail)
            | None => None
            end
        | EmptyString => None
        end
      else
        match digit c with
        | Some _ => Some (parse_digits 0 s)
        | None => None
        end
  | EmptyString => None
  end.

Definition expect (word : string) (v : jsval) (s : string)
  : option (jsval * string) :=
  if String.prefix word s
  then Some (v, String.substring (String.length word)
                                 (String.length s - String.length word) s)
  else None.

Fixpoint parse_value (fuel : nat) (s : string) : option (jsval * string) :=
  match fuel with
  | O => None
  | S fuel' =>
      match skip_ws s with
      | EmptyString => None
      | String c rest as s' =>
          let n := nat_of_ascii c in
          if Nat.eqb n 34 then
            match parse_chars rest with
            | Some (body, tail) => Some (JStr body, tail)
            | None => None
            end
          else if Nat.eqb n 123 then
            match skip_ws rest with
            | String c' rest' =>
                if Nat.eqb (nat_of_ascii c') 125 then Some (JObj [], rest')
                else parse_members fuel' [] rest
            | EmptyString => None
            end
          else if Nat.eqb n 91 then
            match skip_ws rest with
            | String c' rest' =>
                if Nat.eqb (nat_of_ascii c') 93 then Some (JArr [], rest')
                else parse_elements fuel' [] rest
            | EmptyString => None
            end
          else if Nat.eqb n 110 then expect "null" JNull s'
          else if Nat.eqb n 116 then expect "true" (JBool true) s'
          else if Nat.eqb n 102 then expect "false" (JBool false) s'
          else
            match parse_number s' with
            | Some (k, tail) => Some (JNum k, tail)
            | None => None
            end
      end
  end
with parse_members (fuel : nat) (acc : list (string * jsval)) (s : string)
  : option (jsval * string) :=
  match fuel with
  | O => None
  | S fuel' =>
      match skip_ws s with
      | String q rest =>
          if Nat.eqb (nat_of_ascii q) 34 then
            match parse_chars rest with
            | Some (key, tail) =>
                match skip_ws tail with
                | String colon tail' =>
                    if Nat.eqb (nat_of_ascii colon) 58 then
                      match parse_value fuel' tail' with
                      | Some (v, tail'') =>
                          match skip_ws tail'' with
                          | String sep more =>
                              if Nat.eqb (nat_of_ascii sep) 44
                              then parse_members fuel' (acc ++ [(key, v)]) more
                              else if Nat.eqb (nat_of_ascii sep) 125
                              then Some (JObj (acc ++ [(key, v)]), more)
                              else None
                          | EmptyString => None
                          end
                      | None => None
                      end
                    else None
                | EmptyString => None
                end
            | None => None
            end
          else None
      | EmptyString => None
      end
  end
with parse_elements (fuel : nat) (acc : list jsval) (s : string)
  : option (jsval * string) :=
  match fuel with
  | O => None
  | S fuel' =>
      match parse_value fuel' s with
      | Some (v, tail) =>
          match skip_ws tail with
          | String sep more =>
              if Nat.eqb (nat_of_ascii sep) 44
              then parse_elements fuel' (acc ++ [v]) more
              else if Nat.eqb (nat_of_ascii sep) 93
              then Some (JArr (acc ++ [v]), more)
              else None
          | EmptyString => None
          end
      | None => None
      end
  end.

(** The whole text is one value, white space around it allowed.  Every
    recursive call consumes a character, so the length of the text is
    fuel enough. *)
Definition parse (s : string) : option jsval :=
  match parse_value (S (String.length s)) s with
  | Some (v, tail) =>
      match skip_ws tail with
      | EmptyString => Some v
      | _ => None
      end
  | None => None
  end.

(** **** Objects whose values are all strings *)

(** The text of one member. *)
Definition member_text (kv : string * string) : string :=
  quote (fst kv) +:+ ":" +:+ quote (snd kv).

Definition string_fields (fields : list (string * string)) : list (string * jsval) :=
  map (fun kv => (fst kv, JStr (snd kv))) fields.

#[export] Instance platform : Platform :=
  {| trim := trim_ascii; JSON_parse := parse; JSON_stringify := stringify |}.

End Reference.

(** ** The page, [src/App.tsx] *)

Module App.

(** *** Data *)

Record FirebaseConfig : Type := {
  apiKey : string;
  authDomain : string;
  projectId : string;
  storageBucket : string;
  messagingSenderId : string;
  appId : string
}.

Record PushMessagePayload : Type := {
  title : string;
  body : string;
  imageUrl : string;
  data : string
}.

Definition LOCAL_STORAGE_KEY : string := "fcm-webpush-settings".

Definition defaultConfig : FirebaseConfig :=
  {| apiKey := ""; authDomain := ""; projectId := ""; storageBucket := "";
     messagingSenderId := ""; appId := "" |}.

Inductive StatusType : Type := info | success | error.

Record StatusMessage : Type := {
  type : StatusType;
  text : string;
  timestamp : Z
}.

Definition initialPushPayload : PushMessagePayload :=
  {| title := "웹 푸시 테스트";
     body := "FCM에서 전송한 알림입니다.";
     imageUrl := "";
     data := "{" +:+ String Reference.dquote "foo"
               +:+ String Reference.dquote ":"
               +:+ String Reference.dquote "bar"
               +:+ String Reference.dquote "}" |}.

(** Handles of the SDK and of the browser. *)
Record FirebaseApp : Type := { options : FirebaseConfig }.
Record Messaging : Type := { app : FirebaseApp }.
Record ServiceWorker : Type := { worker_id : nat }.

Inductive ServiceWorkerState : Type :=
| parsed | installing_state | installed | activating | activated | redundant.

(** A registration is one live object; its three slots change as its
    workers move through their life cycle. *)
Record Slots : Type := {
  installing : option ServiceWorker;
  waiting : option ServiceWorker;
  active : option ServiceWorker
}.

Record ServiceWorkerRegistration : Type := {
  registration_id : nat;
  slots : Slots
}.

Record FetchRequest : Type := {
  url : string;
  method : string;
  headers : list (string * string);
  request_body : string
}.

(** A platform promise settles, one way or the other. *)
Inductive answer (A : Type) : Type :=
| Returns (a : A)
| Raises (e : exn).
Arguments Returns {A} a.
Arguments Raises {A} e.

Definition settle {A} (a : answer A) : result A :=
  match a with
  | Returns x => Done x
  | Raises e => Threw e
  end.

Record Response : Type := {
  ok : bool;
  status : N;
  response_text : answer string
}.

(** The component's state, one field per [useState], each at its declared
    type.  The mount effect passes stored values to three of the setters
    unchecked ([Rest.mountEffect]); a page on which [firebaseConfig],
    [vapidKey] or [serverKey] holds a value of another type is not a value
    of this record. *)
Record State : Type := {
  firebaseConfig : FirebaseConfig;
  vapidKey : string;
  serverKey : string;
  firebaseApp : option FirebaseApp;
  messaging : option Messaging;
  isInitializing : bool;
  token : string;
  statusMessages : list StatusMessage;
  pushPayload : PushMessagePayload;
  targetToken : string;
  sending : bool;
  sendResult : string;
  foregroundMessages : list (jsval * Z)
}.

Definition initialState : State :=
  {| firebaseConfig := defaultConfig; vapidKey := ""; serverKey := "";
     firebaseApp := None; messaging := None; isInitializing := false;
     token := ""; statusMessages := []; pushPayload := initialPushPayload;
     targetToken := ""; sending := false; sendResult := "";
     foregroundMessages := [] |}.

Inductive ConfigKey : Type :=
| key_apiKey | key_authDomain | key_projectId
| key_storageBucket | key_messagingSenderId | key_appId.

(** [{ ...prev, [key]: value }] *)
Definition with_key (k : ConfigKey) (v : string) (c : FirebaseConfig)
  : FirebaseConfig :=
  match k with
  | key_apiKey =>
      {| apiKey := v; authDomain := authDomain c; projectId := projectId c;
         storageBucket := storageBucket c;
         messagingSenderId := messagingSenderId c; appId := appId c |}
  | key_authDomain =>
      {| apiKey := apiKey c; authDomain := v; projectId := projectId c;
         storageBucket := storageBucket c;
         messagingSenderId := messagingSenderId c; appId := appId c |}
  | key_projectId =>
      {| apiKey := apiKey c; authDomain := authDomain c; projectId := v;
         storageBucket := storageBucket c;
         messagingSenderId := messagingSenderId c; appId := appId c |}
  | key_storageBucket =>
      {| apiKey := apiKey c; authDomain := authDomain c; projectId := projectId c;
         storageBucket := v;
         messagingSenderId := messagingSenderId c; appId := appId c |}
  | key_messagingSenderId =>
      {| apiKey := apiKey c; authDomain := authDomain c; projectId := projectId c;
         storageBucket := storageBucket c;
         messagingSenderId := v; appId := appId c |}
  | key_appId =>
      {| apiKey := apiKey c; authDomain := authDomain c; projectId := projectId c;
         storageBucket := storageBucket c;
         messagingSenderId := messagingSenderId c; appId := v |}
  end.

(** The calls to the state setters made by the handlers and the inputs
    modelled here. *)
Inductive update : Type :=
| SetFirebaseConfig (c : FirebaseConfig)
| SetConfigKey (k : ConfigKey) (v : string)
| SetVapidKey (v : string)
| SetServerKey (v : string)
| SetFirebaseApp (a : option FirebaseApp)
| SetMessaging (m : option Messaging)
| SetIsInitializing (b : bool)
| SetToken (v : string)
| AppendStatus (ty : StatusType) (txt : string)
| SetPushPayload (p : PushMessagePayload)
| SetTargetToken (v : string)
| SetSending (b : bool)
| SetSendResult (v : string).

(** The state after a setter has run; [now] is what [Date.now()] gives
    when React runs the updater of [appendStatus]. *)
Definition apply_update (now : Z) (u : update) (s : State) : State :=
  let 'Build_State cfg vk sk fa ms ii tk log pp tg sd sr fm := s in
  match u with
  | SetFirebaseConfig c => Build_State c vk sk fa ms ii tk log pp tg sd sr fm
  | SetConfigKey k v =>
      Build_State (with_key k v cfg) vk sk fa ms ii tk log pp tg sd sr fm
  | SetVapidKey v => Build_State cfg v sk fa ms ii tk log pp tg sd sr fm
  | SetServerKey v => Build_State cfg vk v fa ms ii tk log pp tg sd sr fm
  | SetFirebaseApp a => Build_State cfg vk sk a ms ii tk log pp tg sd sr fm
  | SetMessaging m => Build_State cfg vk sk fa m ii tk log pp tg sd sr fm
  | SetIsInitializing b => Build_State cfg vk sk fa ms b tk log pp tg sd sr fm
  | SetToken v => Build_State cfg vk sk fa ms ii v log pp tg sd sr fm
  | AppendStatus ty txt =>
      Build_State cfg vk sk fa ms ii tk
        ({| type := ty; text := txt; timestamp := now |} :: log) pp tg sd sr fm
  | SetPushPayload p => Build_State cfg vk sk fa ms ii tk log p tg sd sr fm
  | SetTargetToken v => Build_State cfg vk sk fa ms ii tk log pp v sd sr fm
  | SetSending b => Build_State cfg vk sk fa ms ii tk log pp tg b sr fm
  | SetSendResult v => Build_State cfg vk sk fa ms ii tk log pp tg sd v fm
  end.

(** Every call the page makes outside of itself. *)
Inductive effect : Type :=
| IsSupported
| GetApps
| DeleteApp (a : FirebaseApp)
| InitializeApp (c : FirebaseConfig)
| GetMessaging (a : FirebaseApp)
| GetRegistration (scriptURL : string)
| Register (scriptURL : string)
| AddStatechangeListener (w : ServiceWorker)
| PostMessage (w : ServiceWorker) (msg : jsval)
| RequestPermission
| GetToken (m : Messaging) (vapid : string) (r : ServiceWorkerRegistration)
| Fetch (req : FetchRequest)
| ResponseText
| GetItem (key : string)
| SetItem (key value : string)
| ConsoleError
| FocusVapidKeyInput
| SetState (u : update).

(** [localStorage]: what it holds, whether the page may touch it at all,
    and which writes it takes (a refused write throws). *)
Record Storage : Type := {
  items : gmap string string;
  available : bool;
  accepts : string -> string -> bool
}.

(** What the browser and the SDK answer during one handler. *)
Record env : Type := {
  has_serviceWorker : bool;
  getRegistration : answer (option ServiceWorkerRegistration);
  register : answer ServiceWorkerRegistration;
  statechanges : list (ServiceWorkerState * Slots);
  isSupported : answer bool;
  getApps : list FirebaseApp;
  deleteApp : FirebaseApp -> answer unit;
  initializeApp : FirebaseConfig -> answer FirebaseApp;
  getMessaging : FirebaseApp -> answer Messaging;
  has_Notification : bool;
  requestPermission : answer string;
  getToken : answer string;
  fetch : FetchRequest -> answer Response
}.

Definition P := Eff Storage effect.

Definition await {A} (ev : effect) (a : answer A) : P A := call ev (settle a).

Definition set (u : update) : P unit := emit (SetState u).

(** [appendStatus], lines 133-135. *)
Definition appendStatus (ty : StatusType) (txt : string) : P unit :=
  set (AppendStatus ty txt).

(** [e?.message ?? fallback] *)
Definition message_or (fallback : string) (e : exn) : string :=
  match message e with
  | Some m => m
  | None => fallback
  end.

(** [a || b] on two object-or-null slots. *)
Definition or_else {A} (a b : option A) : option A :=
  match a with
  | Some _ => a
  | None => b
  end.

(** *** Local storage *)

Definition localStorage_getItem (key : string) : P (option string) :=
  st <- get;;
  call (GetItem key)
    (if available st then Done (items st !! key)
     else Threw (Error "SecurityError")).

Definition localStorage_setItem (key value : string) : P unit :=
  st <- get;;
  if available st && accepts st key value then
    emit (SetItem key value);;
    put {| items := <[key := value]> (items st);
           available := available st;
           accepts := accepts st |}
  else call (SetItem key value) (Threw (Error "QuotaExceededError")).

Definition config_value (c : FirebaseConfig) : jsval :=
  JObj [("apiKey", JStr (apiKey c));
        ("authDomain", JStr (authDomain c));
        ("projectId", JStr (projectId c));
        ("storageBucket", JStr (storageBucket c));
        ("messagingSenderId", JStr (messagingSenderId c));
        ("appId", JStr (appId c))].

(** The object literal [{ config, vapidKey, serverKey }]. *)
Definition settings_value (c : FirebaseConfig) (vapid server : string) : jsval :=
  JObj [("config", config_value c);
        ("vapidKey", JStr vapid);
        ("serverKey", JStr server)].

Section WithPlatform.
Context `{Platform}.

(** [!s.trim()] *)
Definition blank (s : string) : bool := String.eqb (trim s) "".

(** [loadSavedSettings], lines 51-64.  The result is the parsed value,
    [null] included. *)
Definition loadSavedSettings : P jsval :=
  try_catch
    (raw <- localStorage_getItem LOCAL_STORAGE_KEY;;
     match raw with
     | None => ret JNull
     | Some text =>
         if String.eqb text "" then ret JNull
         else
           match JSON_parse text with
           | Some v => ret v
           | None => throw SyntaxError
           end
     end)
    (fun _ => emit ConsoleError;; ret JNull).

(** [saveSettings], lines 66-71. *)
Definition saveSettings (c : FirebaseConfig) (vapid server : string) : P unit :=
  localStorage_setItem LOCAL_STORAGE_KEY
    (JSON_stringify (settings_value c vapid server)).

(** [parseDataPayload], lines 73-80. *)
Definition parseDataPayload (d : string) : P jsval :=
  if blank d then ret JUndefined
  else
    match JSON_parse d with
    | Some v => ret v
    | None => throw (Error "데이터(JSON) 형식이 올바르지 않습니다.")
    end.

(** *** Service-worker registration *)

Definition INIT_FIREBASE (c : FirebaseConfig) : jsval :=
  JObj [("type", JStr "INIT_FIREBASE"); ("config", config_value c)].

(** The promise of lines 159-176 once a listener is installed: it is
    resolved by the first [statechange] event at which the worker's
    state reads ['activated'], and by nothing else. *)
Fixpoint first_activated (changes : list (ServiceWorkerState * Slots))
  : option Slots :=
  match changes with
  | [] => None
  | (activated, now) :: _ => Some now
  | _ :: later => first_activated later
  end.

Definition wait_for_activation (e : env) (registration : ServiceWorkerRegistration)
  : P ServiceWorkerRegistration :=
  match active (slots registration) with
  | Some _ => ret registration
  | None =>
      match or_else (installing (slots registration))
                    (waiting (slots registration)) with
      | None => ret registration
      | Some serviceWorker =>
          emit (AddStatechangeListener serviceWorker);;
          match first_activated (statechanges e) with
          | Some now =>
              ret {| registration_id := registration_id registration;
                     slots := now |}
          | None => never
          end
      end
  end.

(** [worker?.postMessage({ type: 'INIT_FIREBASE', config })] *)
Definition post_init (worker : option ServiceWorker) (c : FirebaseConfig) : P unit :=
  match worker with
  | Some w => emit (PostMessage w (INIT_FIREBASE c))
  | None => ret tt
  end.

(** [ensureServiceWorkerRegistration], lines 141-185. *)
Definition ensureServiceWorkerRegistration (e : env) (s : State)
  : P ServiceWorkerRegistration :=
  if negb (has_serviceWorker e)
  then throw (Error "서비스 워커를 지원하지 않는 환경입니다.")
  else
    existingRegistration <-
      await (GetRegistration "/firebase-messaging-sw.js") (getRegistration e);;
    match existingRegistration with
    | Some existing =>
        let worker := or_else (active (slots existing)) (waiting (slots existing)) in
        post_init worker (firebaseConfig s);;
        ret existing
    | None =>
        registration <-
          await (Register "/firebase-messaging-sw.js") (register e);;
        registrationReady <- wait_for_activation e registration;;
        let worker := or_else (active (slots registrationReady))
                              (waiting (slots registrationReady)) in
        post_init worker (firebaseConfig s);;
        ret registrationReady
    end.

(** *** The three handlers *)

(** [Promise.all(apps.map((app) => deleteApp(app)))]: every deletion is
    started, and one that fails rejects the whole.  When several fail the
    one that fails first in time is reported; the order of the list stands
    for that order here. *)
Fixpoint first_failure (e : env) (apps : list FirebaseApp) : result unit :=
  match apps with
  | [] => Done tt
  | a :: rest =>
      match deleteApp e a with
      | Raises err => Threw err
      | Returns _ => first_failure e rest
      end
  end.

Definition deleteAll (e : env) (apps : list FirebaseApp) : P unit :=
  fun st => Reply (map DeleteApp apps) st (first_failure e apps).

(** [handleInitializeFirebase], lines 187-219. *)
Definition handleInitializeFirebase (e : env) (s : State) : P unit :=
  set (SetIsInitializing true);;
  set (SetSendResult "");;
  try_finally
    (try_catch
       (supported <- await IsSupported (isSupported e);;
        if negb supported then
          appendStatus error "이 브라우저에서는 FCM 웹 푸시를 지원하지 않습니다."
        else
          saveSettings (firebaseConfig s) (vapidKey s) (serverKey s);;
          apps <- call GetApps (Done (getApps e));;
          (if Nat.ltb 0 (length apps) then
             deleteAll e apps;;
             appendStatus info "기존 Firebase 앱 구성을 초기화했습니다."
           else ret tt);;
          app <- await (InitializeApp (firebaseConfig s))
                   (initializeApp e (firebaseConfig s));;
          messagingInstance <- await (GetMessaging app) (getMessaging e app);;
          ensureServiceWorkerRegistration e s;;
          set (SetFirebaseApp (Some app));;
          set (SetMessaging (Some messagingInstance));;
          appendStatus success "Firebase 초기화 및 서비스 워커 구성이 완료되었습니다.")
       (fun err =>
          emit ConsoleError;;
          appendStatus error (message_or "Firebase 초기화에 실패했습니다." err)))
    (set (SetIsInitializing false)).

(** [handleRequestPermissionAndToken], lines 221-263. *)
Definition handleRequestPermissionAndToken (e : env) (s : State) : P unit :=
  match messaging s with
  | None =>
      appendStatus error
        "Firebase 메시징이 초기화되지 않았습니다. 먼저 초기화를 진행해주세요."
  | Some m =>
      if blank (vapidKey s) then
        appendStatus error "VAPID 키를 입력해주세요.";;
        emit FocusVapidKeyInput
      else
        try_catch
          (if negb (has_Notification e) then
             appendStatus error "이 브라우저에서는 알림 API를 지원하지 않습니다."
           else
             permission <- await RequestPermission (requestPermission e);;
             if negb (String.eqb permission "granted") then
               appendStatus error
                 "알림 권한을 허용하지 않아 토큰을 발급할 수 없습니다."
             else
               registration <- ensureServiceWorkerRegistration e s;;
               currentToken <-
                 await (GetToken m (trim (vapidKey s)) registration) (getToken e);;
               if String.eqb currentToken "" then
                 appendStatus error "토큰 발급에 실패했습니다."
               else
                 set (SetToken currentToken);;
                 set (SetTargetToken currentToken);;
                 appendStatus success "FCM 등록 토큰을 발급했습니다.")
          (fun err =>
             emit ConsoleError;;
             appendStatus error (message_or "토큰 발급 중 오류가 발생했습니다." err))
  end.

Definition FCM_SEND_URL : string := "https://fcm.googleapis.com/fcm/send".

Definition CORS_MESSAGE : string :=
  "푸시 전송 요청 중 오류가 발생했습니다. 브라우저에서 CORS로 인해 실패할 수 있으며, 이 경우 서버 사이드 프록시를 이용해야 합니다.".

(** The object built at lines 295-306. *)
Definition push_body (s : State) (dataPayload : jsval) : jsval :=
  JObj ([("to", JStr (trim (targetToken s)));
         ("notification",
           JObj [("title", JStr (title (pushPayload s)));
                 ("body", JStr (body (pushPayload s)));
                 ("image", if String.eqb (imageUrl (pushPayload s)) ""
                           then JUndefined
                           else JStr (imageUrl (pushPayload s)))])]
        ++ (if truthy dataPayload then [("data", dataPayload)] else [])).

(** The request of lines 310-317. *)
Definition push_request (s : State) (dataPayload : jsval) : FetchRequest :=
  {| url := FCM_SEND_URL;
     method := "POST";
     headers := [("Content-Type", "application/json");
                 ("Authorization", ("key=" +:+ trim (serverKey s))%string)];
     request_body := JSON_stringify (push_body s dataPayload) |}.

(** [handleSendPush], lines 275-336. *)
Definition handleSendPush (e : env) (s : State) : P unit :=
  set (SetSendResult "");;
  if blank (serverKey s) then
    appendStatus error "서버 키(legacy key)를 입력해주세요."
  else if blank (targetToken s) then
    appendStatus error "전송할 대상 토큰을 입력해주세요."
  else
    parsed <- try_catch
                (v <- parseDataPayload (data (pushPayload s));; ret (Some v))
                (fun err => appendStatus error (message_or "" err);; ret None);;
    match parsed with
    | None => ret tt
    | Some dataPayload =>
        set (SetSending true);;
        try_finally
          (try_catch
             (response <- await (Fetch (push_request s dataPayload))
                            (fetch e (push_request s dataPayload));;
              resultText <- await ResponseText (response_text response);;
              if negb (ok response) then
                throw (Error ("FCM 전송 실패 (" +:+ pretty (status response)
                              +:+ "): " +:+ resultText)%string)
              else
                set (SetSendResult resultText);;
                appendStatus success "푸시 메시지 전송 요청을 완료했습니다.")
             (fun err =>
                emit ConsoleError;;
                appendStatus error CORS_MESSAGE;;
                set (SetSendResult (message_or "오류가 발생했습니다." err))))
          (set (SetSending false))
    end.

End WithPlatform.

(** *** The page as the user drives it *)

(** What the user can do on the rendered page: type into an input, press
    one of the three numbered buttons. *)
Inductive action : Type :=
| ChangeConfig (k : ConfigKey) (v : string)
| ChangeVapidKey (v : string)
| ChangeServerKey (v : string)
| ChangeTargetToken (v : string)
| ClickInitialize
| ClickRequestToken
| ClickSend.

(** The setter calls among the effects of a handler. *)
Definition updates_of (t : list effect) : list update :=
  omap (fun ev => match ev with SetState u => Some u | _ => None end) t.

(** The state once React has run a handler's updates, in order, all within
    the same millisecond [now]. *)
Definition apply_updates (now : Z) (us : list update) (s : State) : State :=
  fold_left (fun acc u => apply_update now u acc) us s.

Section Page.
Context `{Platform}.

(** [configIsComplete], lines 354-357. *)
Definition configIsComplete (s : State) : bool :=
  let c := firebaseConfig s in
  forallb (fun v => negb (blank v))
    [apiKey c; authDomain c; projectId c; storageBucket c;
     messagingSenderId c; appId c].

(** The listener behind each control; a disabled button has none. *)
Definition perform (a : action) (e : env) (s : State) : P unit :=
  match a with
  | ChangeConfig k v => set (SetConfigKey k v)
  | ChangeVapidKey v => set (SetVapidKey v)
  | ChangeServerKey v => set (SetServerKey v)
  | ChangeTargetToken v => set (SetTargetToken v)
  | ClickInitialize =>
      if negb (configIsComplete s) || isInitializing s then ret tt
      else handleInitializeFirebase e s
  | ClickRequestToken => handleRequestPermissionAndToken e s
  | ClickSend =>
      if sending s then ret tt else handleSendPush e s
  end.

End Page.

(** *** Vocabulary of the properties *)

Definition is_initializeApp (ev : effect) : bool :=
  match ev with InitializeApp _ => true | _ => false end.

Definition is_getMessaging (ev : effect) : bool :=
  match ev with GetMessaging _ => true | _ => false end.

(** The calls [ensureServiceWorkerRegistration] makes. *)
Definition is_registration_step (ev : effect) : bool :=
  match ev with
  | GetRegistration _ | Register _ | AddStatechangeListener _ | PostMessage _ _ => true
  | _ => false
  end.

Definition is_requestPermission (ev : effect) : bool :=
  match ev with RequestPermission => true | _ => false end.

Definition is_getToken (ev : effect) : bool :=
  match ev with GetToken _ _ _ => true | _ => false end.

Definition is_fetch (ev : effect) : bool :=
  match ev with Fetch _ => true | _ => false end.

Definition is_register (ev : effect) : bool :=
  match ev with Register _ => true | _ => false end.

Definition is_post (ev : effect) : bool :=
  match ev with PostMessage _ _ => true | _ => false end.

(** The SDK and service-worker steps that come before a send in the
    described life cycle. *)
Definition is_lifecycle (ev : effect) : bool :=
  is_initializeApp ev || is_getMessaging ev || is_registration_step ev
  || is_requestPermission ev || is_getToken ev.

(** The messages posted to workers, in order. *)
Definition posts (t : list effect) : list effect := List.filter is_post t.

Definition SW_URL : string := "/firebase-messaging-sw.js".

(** The worker a registration offers for a message: [active || waiting]. *)
Definition worker_of (sl : Slots) : option ServiceWorker :=
  or_else (active sl) (waiting sl).

(** The worker whose activation a fresh registration makes the page wait
    for: none when a worker is active already. *)
Definition awaited_worker (sl : Slots) : option ServiceWorker :=
  match active sl with
  | Some _ => None
  | None => or_else (installing sl) (waiting sl)
  end.

(** The [INIT_FIREBASE] message to a worker, if there is a worker. *)
Definition init_posts (w : option ServiceWorker) (c : FirebaseConfig) : list effect :=
  match w with
  | Some w => [PostMessage w (INIT_FIREBASE c)]
  | None => []
  end.

(** Why a send fails, if it does: the rejection of [fetch] or of
    [text()], or the error thrown on a response that is not ok. *)
Definition send_failure (a : answer Response) : option exn :=
  match a with
  | Raises err => Some err
  | Returns response =>
      match response_text response with
      | Raises err => Some err
      | Returns resultText =>
          if ok response then None
          else Some (Error ("FCM 전송 실패 (" +:+ pretty (status response)
                            +:+ "): " +:+ resultText)%string)
      end
  end.

(** The inputs of a send pass its checks, [v] being what the data field
    parses to ([undefined] for a blank one). *)
Definition validated `{Platform} (s : State) (v : jsval) : Prop :=
  blank (serverKey s) = false /\
  blank (targetToken s) = false /\
  (if blank (data (pushPayload s)) then v = JUndefined
   else JSON_parse (data (pushPayload s)) = Some v).


End App.

(** ** Concrete inputs *)

Module Examples.
Import App.

Definition worker1 : ServiceWorker := {| worker_id := 1 |}.

Definition only_installing : Slots :=
  {| installing := Some worker1; waiting := None; active := None |}.
Definition only_waiting : Slots :=
  {| installing := None; waiting := Some worker1; active := None |}.
Definition only_active : Slots :=
  {| installing := None; waiting := None; active := Some worker1 |}.

Definition registration7 (sl : Slots) : ServiceWorkerRegistration :=
  {| registration_id := 7; slots := sl |}.

Definition storage0 : Storage :=
  {| items := ∅; available := true; accepts := fun _ _ => true |}.

(** A browser with everything in place: no registration yet, a worker
    that installs and activates, permission granted, a server that
    answers 200. *)
Definition env0 : env :=
  {| has_serviceWorker := true;
     getRegistration := Returns None;
     register := Returns (registration7 only_installing);
     statechanges := [(installed, only_waiting);
                      (activating, only_active);
                      (activated, only_active)];
     isSupported := Returns true;
     getApps := [];
     deleteApp := fun _ => Returns tt;
     initializeApp := fun c => Returns {| options := c |};
     getMessaging := fun a => Returns {| app := a |};
     has_Notification := true;
     requestPermission := Returns "granted";
     getToken := Returns "token-1";
     fetch := fun _ => Returns {| ok := true; status := 200%N;
                                  response_text := Returns "sent" |} |}.

Definition with_registration (r : answer (option ServiceWorkerRegistration))
  (e : env) : env :=
  {| has_serviceWorker := has_serviceWorker e;
     getRegistration := r;
     register := register e;
     statechanges := statechanges e;
     isSupported := isSupported e;
     getApps := getApps e;
     deleteApp := deleteApp e;
     initializeApp := initializeApp e;
     getMessaging := getMessaging e;
     has_Notification := has_Notification e;
     requestPermission := requestPermission e;
     getToken := getToken e;
     fetch := fetch e |}.

Definition with_permission (p : answer string) (e : env) : env :=
  {| has_serviceWorker := has_serviceWorker e;
     getRegistration := getRegistration e;
     register := register e;
     statechanges := statechanges e;
     isSupported := isSupported e;
     getApps := getApps e;
     deleteApp := deleteApp e;
     initializeApp := initializeApp e;
     getMessaging := getMessaging e;
     has_Notification := has_Notification e;
     requestPermission := p;
     getToken := getToken e;
     fetch := fetch e |}.

Definition with_fetch (f : FetchRequest -> answer Response) (e : env) : env :=
  {| has_serviceWorker := has_serviceWorker e;
     getRegistration := getRegistration e;
     register := register e;
     statechanges := statechanges e;
     isSupported := isSupported e;
     getApps := getApps e;
     deleteApp := deleteApp e;
     initializeApp := initializeApp e;
     getMessaging := getMessaging e;
     has_Notification := has_Notification e;
     requestPermission := requestPermission e;
     getToken := getToken e;
     fetch := f |}.

(** A registration found while its worker is still installing. *)
Definition env_installing : env :=
  with_registration (Returns (Some (registration7 only_installing))) env0.

Definition config1 : FirebaseConfig :=
  {| apiKey := "key"; authDomain := "demo.firebaseapp.com";
     projectId := "demo"; storageBucket := "demo.appspot.com";
     messagingSenderId := "1234567890"; appId := "1:1234567890:web:abc" |}.

(** The page after a successful initialisation with [config1]. *)
Definition initialised : State :=
  {| firebaseConfig := config1; vapidKey := "BBO-vapid"; serverKey := "";
     firebaseApp := Some {| options := config1 |};
     messaging := Some {| app := {| options := config1 |} |};
     isInitializing := false; token := ""; statusMessages := [];
     pushPayload := initialPushPayload; targetToken := "";
     sending := false; sendResult := ""; foregroundMessages := [] |}.

(** The page with the config and the VAPID key typed in, before any
    initialisation. *)
Definition configured : State :=
  {| firebaseConfig := config1; vapidKey := "BBO-vapid"; serverKey := "";
     firebaseApp := None; messaging := None;
     isInitializing := false; token := ""; statusMessages := [];
     pushPayload := initialPushPayload; targetToken := "";
     sending := false; sendResult := ""; foregroundMessages := [] |}.

(** The user initialises Firebase and then asks for a token. *)
Definition init_then_token : list (env * Z * action) :=
  [(env0, 1%Z, ClickInitialize);
   (env0, 2%Z, ClickRequestToken)].

(** The page with a server key and a target token typed in. *)
Definition ready_to_send : State :=
  {| firebaseConfig := defaultConfig; vapidKey := ""; serverKey := " AAAA-key ";
     firebaseApp := None; messaging := None;
     isInitializing := false; token := ""; statusMessages := [];
     pushPayload := initialPushPayload; targetToken := " device-token ";
     sending := false; sendResult := ""; foregroundMessages := [] |}.

(** The same with a data field that is not JSON. *)
Definition bad_data : State :=
  {| firebaseConfig := defaultConfig; vapidKey := ""; serverKey := " AAAA-key ";
     firebaseApp := None; messaging := None;
     isInitializing := false; token := ""; statusMessages := [];
     pushPayload := {| title := "t"; body := "b"; imageUrl := ""; data := "{foo" |};
     targetToken := " device-token ";
     sending := false; sendResult := ""; foregroundMessages := [] |}.

(** The same with [null] as data. *)
Definition null_data : State :=
  {| firebaseConfig := defaultConfig; vapidKey := ""; serverKey := " AAAA-key ";
     firebaseApp := None; messaging := None;
     isInitializing := false; token := ""; statusMessages := [];
     pushPayload := {| title := "t"; body := "b"; imageUrl := ""; data := "null" |};
     targetToken := " device-token ";
     sending := false; sendResult := ""; foregroundMessages := [] |}.


Import MessagingSw.

Definition init_message : jsval :=
  JObj [("type", JStr "INIT_FIREBASE"); ("config", config_value config1)].

Definition push_payload1 : jsval :=
  JObj [("notification", JObj [("title", JStr "Hello"); ("body", JStr "World")])].

(** The worker once the page has initialised it. *)
Definition worker_initialised : MessagingSw.state :=
  final (onMessage full_sdk init_message initial).

End Examples.


(** ** The rest of the page

    The mount effect, [handleCopyToken] and [resetFirebase] make calls the
    three handlers above do not make. *)

Module Rest.
Import App.

(** The four inputs of the push payload, lines 506-532. *)
Inductive PayloadField : Type :=
| field_title | field_body | field_imageUrl | field_data.

(** [{ ...prev, [field]: value }] *)
Definition with_field (f : PayloadField) (v : string) (p : PushMessagePayload)
  : PushMessagePayload :=
  match f with
  | field_title =>
      {| title := v; body := body p; imageUrl := imageUrl p; data := data p |}
  | field_body =>
      {| title := title p; body := v; imageUrl := imageUrl p; data := data p |}
  | field_imageUrl =>
      {| title := title p; body := body p; imageUrl := v; data := data p |}
  | field_data =>
      {| title := title p; body := body p; imageUrl := imageUrl p; data := v |}
  end.

Inductive page_effect : Type :=
| Core (ev : effect)
| SetPushPayloadField (f : PayloadField) (v : string)
| SetFirebaseConfigRaw (v : jsval)
| SetVapidKeyRaw (v : jsval)
| SetServerKeyRaw (v : jsval)
| SetForegroundMessages (l : list (jsval * Z))
| ClipboardWriteText (txt : string).

Definition Q := Eff Storage page_effect.

(** A computation of the handlers' kind, run among these. *)
Definition lift {A} (m : P A) : Q A :=
  fun st =>
    match m st with
    | Reply t st' o => Reply (map Core t) st' o
    end.

Definition set_state (u : update) : Q unit := emit (Core (SetState u)).

Definition append_status (ty : StatusType) (txt : string) : Q unit :=
  set_state (AppendStatus ty txt).

(** The mount effect, lines 114-121.  What [loadSavedSettings] returns is
    not checked against its declared type: the setters get whatever the
    stored object holds under the three names. *)
Definition mountEffect `{Platform} : Q unit :=
  saved <- lift loadSavedSettings;;
  if truthy saved then
    match member saved "config", member saved "vapidKey", member saved "serverKey" with
    | Some c, Some v, Some k =>
        emit (SetFirebaseConfigRaw c);;
        emit (SetVapidKeyRaw v);;
        emit (SetServerKeyRaw k)
    | _, _, _ => throw TypeError
    end
  else ret tt.

(** [handleCopyToken], lines 265-273; [writeText] is how
    [navigator.clipboard.writeText] settles. *)
Definition handleCopyToken (writeText : string -> answer unit) (s : State) : Q unit :=
  if String.eqb (token s) "" then ret tt
  else
    try_catch
      (call (ClipboardWriteText (token s)) (settle (writeText (token s)));;
       append_status success "토큰을 클립보드에 복사했습니다.")
      (fun _ => append_status error "토큰 복사에 실패했습니다.").

(** [resetFirebase], lines 338-352. *)
Definition resetFirebase (e : env) (s : State) : Q unit :=
  set_state (SetToken "");;
  emit (SetForegroundMessages []);;
  match firebaseApp s with
  | None => ret tt
  | Some a =>
      try_finally
        (try_catch
           (call (Core (DeleteApp a)) (settle (deleteApp e a));;
            append_status info "Firebase 앱 인스턴스를 해제했습니다.")
           (fun _ => emit (Core ConsoleError)))
        (set_state (SetFirebaseApp None);;
         set_state (SetMessaging None))
  end.

(** *** The state after these effects *)

(** A stored value read at the type the state declares for it. *)
Definition as_string (v : jsval) : option string :=
  match v with
  | JStr s => Some s
  | _ => None
  end.

Definition as_config (v : jsval) : option FirebaseConfig :=
  match v with
  | JObj fields =>
      match as_string (get_field "apiKey" fields),
            as_string (get_field "authDomain" fields),
            as_string (get_field "projectId" fields),
            as_string (get_field "storageBucket" fields),
            as_string (get_field "messagingSenderId" fields),
            as_string (get_field "appId" fields) with
      | Some a, Some d, Some p, Some b, Some m, Some i =>
          Some {| apiKey := a; authDomain := d; projectId := p;
                  storageBucket := b; messagingSenderId := m; appId := i |}
      | _, _, _, _, _, _ => None
      end
  | _ => None
  end.

Definition with_foregroundMessages (l : list (jsval * Z)) (s : State) : State :=
  let 'Build_State cfg vk sk fa ms ii tk log pp tg sd sr _ := s in
  Build_State cfg vk sk fa ms ii tk log pp tg sd sr l.

(** The state after one effect; [None] when a raw setter is given a value
    that is not of the declared type, which [State] cannot hold. *)
Definition apply_page_effect (now : Z) (ev : page_effect) (s : State) : option State :=
  match ev with
  | Core (SetState u) => Some (apply_update now u s)
  | SetFirebaseConfigRaw v =>
      match as_config v with
      | Some c => Some (apply_update now (SetFirebaseConfig c) s)
      | None => None
      end
  | SetVapidKeyRaw v =>
      match as_string v with
      | Some x => Some (apply_update now (SetVapidKey x) s)
      | None => None
      end
  | SetServerKeyRaw v =>
      match as_string v with
      | Some x => Some (apply_update now (SetServerKey x) s)
      | None => None
      end
  | SetForegroundMessages l => Some (with_foregroundMessages l s)
  | SetPushPayloadField f v =>
      Some (apply_update now (SetPushPayload (with_field f v (pushPayload s))) s)
  | _ => Some s
  end.

Fixpoint apply_page_effects (now : Z) (t : list page_effect) (s : State)
  : option State :=
  match t with
  | [] => Some s
  | ev :: rest =>
      match apply_page_effect now ev s with
      | Some s' => apply_page_effects now rest s'
      | None => None
      end
  end.

(** *** Every control of the page *)

(** The inputs and buttons of the rendered page, lines 358-540: those of
    [action], the four inputs of the push payload, the reset button and the
    copy button. *)
Inductive control : Type :=
| Handled (a : action)
| ChangePushPayload (f : PayloadField) (v : string)
| ClickReset
| ClickCopy.

(** The listener behind each control; [writeText] is how the clipboard
    answers.  The copy button is disabled while there is no token. *)
Definition operate `{Platform} (c : control) (e : env)
  (writeText : string -> answer unit) (s : State) : Q unit :=
  match c with
  | Handled a => lift (perform a e s)
  | ChangePushPayload f v => emit (SetPushPayloadField f v)
  | ClickReset => resetFirebase e s
  | ClickCopy =>
      if String.eqb (token s) "" then ret tt else handleCopyToken writeText s
  end.

(** A session on the whole page, every listener finishing before the next
    action: the calls made, in order, and the state and the storage left.
    [None] if a state arose that [State] cannot hold. *)
Fixpoint page_session `{Platform}
  (steps : list (env * (string -> answer unit) * Z * control))
  (s : State) (st : Storage) : option (list page_effect * State * Storage) :=
  match steps with
  | [] => Some ([], s, st)
  | (e, writeText, now, c) :: rest =>
      let r := operate c e writeText s st in
      match apply_page_effects now (trace r) s with
      | None => None
      | Some s' =>
          match page_session rest s' (final r) with
          | Some (t, s'', st'') => Some (trace r ++ t, s'', st'')
          | None => None
          end
      end
  end.

End Rest.

(** ** Vocabulary of further properties *)

Section Outcomes.
Context {St Ev : Type}.

(** The store the computation leaves is related by [R] to the one it found. *)
Definition keeps {A} (R : St -> St -> Prop) (m : Eff St Ev A) : Prop :=
  forall st, R st (final (m st)).

(** Every event of the trace satisfies [G]. *)
Definition only {A} (G : Ev -> bool) (m : Eff St Ev A) : Prop :=
  forall st, forallb G (trace (m st)) = true.
End Outcomes.

Module Vocabulary.
Import App.

Definition is_status (ev : effect) : bool :=
  match ev with SetState (AppendStatus _ _) => true | _ => false end.

(** How many status messages a handler appended. *)
Definition statuses (t : list effect) : nat := length (List.filter is_status t).

(** A status message of the [success] kind. *)
Definition is_success (ev : effect) : bool :=
  match ev with SetState (AppendStatus success _) => true | _ => false end.

Definition is_deleteApp (ev : effect) : bool :=
  match ev with DeleteApp _ => true | _ => false end.

Definition is_setItem (ev : effect) : bool :=
  match ev with SetItem _ _ => true | _ => false end.

Definition sets_sdk_handles (ev : effect) : bool :=
  match ev with
  | SetState (SetFirebaseApp _) | SetState (SetMessaging _) => true
  | _ => false
  end.

(** Every request goes to the FCM endpoint, by POST; every write to local
    storage goes under the settings key. *)
Definition stays_home (ev : effect) : bool :=
  match ev with
  | Fetch req => String.eqb (url req) FCM_SEND_URL && String.eqb (method req) "POST"
  | SetItem key _ => String.eqb key LOCAL_STORAGE_KEY
  | GetItem key => String.eqb key LOCAL_STORAGE_KEY
  | GetRegistration u | Register u => String.eqb u "/firebase-messaging-sw.js"
  | _ => true
  end.

(** Two storages that differ at most under the settings key. *)
Definition same_but_settings (st st' : Storage) : Prop :=
  available st' = available st /\
  accepts st' = accepts st /\
  forall key, key <> LOCAL_STORAGE_KEY -> items st' !! key = items st !! key.

(** The same, among all the calls of the page. *)
Definition page_stays_home (ev : Rest.page_effect) : bool :=
  match ev with
  | Rest.Core ev => stays_home ev
  | _ => true
  end.

(** What the calls of [setMessaging] in a trace were given, in order. *)
Definition stored_messaging (t : list Rest.page_effect) : list (option Messaging) :=
  omap (fun ev =>
          match ev with
          | Rest.Core (SetState (SetMessaging m)) => Some m
          | _ => None
          end) t.

(** The messaging instance the page holds once the calls of [t] have been
    made from the state [s]: what [setMessaging] was last given, or what
    [s] held. *)
Definition held_messaging (s : State) (t : list Rest.page_effect) : option Messaging :=
  match last (stored_messaging t) with
  | Some m => m
  | None => messaging s
  end.

End Vocabulary.

(** ** Vocabulary of the worker's further properties *)

Module Reachable.
Import MessagingSw.

(** The shape of the worker's variables in every state it can reach: at most
    one app; a messaging instance only together with the registered
    handler, and then it is the instance of that one app. *)
Definition coherent (s : state) : Prop :=
  match messagingInstance s with
  | Some (MessagingOf a) =>
      firebase_apps s = [a] /\ backgroundHandlerRegistered s = true
  | None =>
      length (firebase_apps s) <= 1 /\ backgroundHandlerRegistered s = false
  end.

Definition is_push (e : event) : bool :=
  match e with PushEvent _ => true | _ => false end.

Definition is_getMessaging (e : effect) : bool :=
  match e with GetMessaging => true | _ => false end.

(** How many times [firebase.initializeApp] was called. *)
Definition initializations (t : list effect) : nat :=
  length (List.filter is_initializeApp t).

End Reachable.

(** * Properties *)

(** ** Traces *)

Section TraceLemmas.
Context {St Ev : Type}.
Implicit Types (P Q R : Ev -> bool) (t : list Ev).

Lemma none_app P t1 t2 : none P (t1 ++ t2) = none P t1 && none P t2.
Proof. unfold none. apply forallb_app. Qed.

Lemma none_only P R t :
  (forall ev, R ev = true -> P ev = false) ->
  forallb R t = true -> none P t = true.
Proof.
  intros HR. unfold none. rewrite !forallb_forall.
  intros Ht ev Hin. by rewrite (HR ev (Ht ev Hin)).
Qed.

Lemma none_In P t ev : none P t = true -> In ev t -> P ev = false.
Proof.
  unfold none. rewrite forallb_forall. intros Ht Hin.
  specialize (Ht ev Hin). by destruct (P ev).
Qed.



Lemma precedes_skip P Q ev t :
  P ev = false -> Q ev = false -> precedes P Q t -> precedes P Q (ev :: t).
Proof.
  intros HP HQ Ht [|x pre] q post Heq Hq; injection Heq as <- Heq.
  - congruence.
  - simpl. rewrite HP. simpl. exact (Ht _ _ _ Heq Hq).
Qed.


Lemma precedes_from P Q ev t :
  P ev = true -> Q ev = false -> none P t = true -> precedes P Q (ev :: t).
Proof.
  intros HP HQ Ht [|x pre] q post Heq Hq; injection Heq as <- Heq.
  - congruence.
  - simpl. rewrite HP. simpl. split; [reflexivity|].
    subst t. rewrite none_app in Ht. apply andb_prop in Ht as [_ Ht].
    simpl in Ht. by apply andb_prop in Ht as [_ Ht].
Qed.


(** *** The same, through the combinators *)

Lemma trace_bind {A B} (m : Eff St Ev A) (k : A -> Eff St Ev B) st :
  trace (bind m k st)
  = trace (m st) ++ match outcome (m st) with
                    | Done a => trace (k a (final (m st)))
                    | _ => []
                    end.
Proof.
  unfold bind. destruct (m st) as [t s' [a|e|]]; simpl; rewrite ?app_nil_r; try done.
  by destruct (k a s').
Qed.

Lemma trace_try_catch {A} (m : Eff St Ev A) (h : exn -> Eff St Ev A) st :
  trace (try_catch m h st)
  = trace (m st) ++ match outcome (m st) with
                    | Threw e => trace (h e (final (m st)))
                    | _ => []
                    end.
Proof.
  unfold try_catch. destruct (m st) as [t s' [a|e|]]; simpl; rewrite ?app_nil_r; try done.
  by destruct (h e s').
Qed.

Lemma trace_try_finally {A} (m : Eff St Ev A) (fin : Eff St Ev unit) st :
  trace (try_finally m fin st)
  = trace (m st) ++ match outcome (m st) with
                    | Hung => []
                    | _ => trace (fin (final (m st)))
                    end.
Proof.
  unfold try_finally. destruct (m st) as [t s' [a|e|]]; simpl; rewrite ?app_nil_r; try done;
    by destruct (fin s') as [t' s'' [[]|e'|]].
Qed.

Lemma quiet_ret {A} P (a : A) : quiet P (ret a : Eff St Ev A).
Proof. intros st. reflexivity. Qed.

Lemma quiet_throw {A} P e : quiet P (throw e : Eff St Ev A).
Proof. intros st. reflexivity. Qed.

Lemma quiet_never {A} P : quiet P (never : Eff St Ev A).
Proof. intros st. reflexivity. Qed.

Lemma quiet_get P : quiet P (get : Eff St Ev St).
Proof. intros st. reflexivity. Qed.

Lemma quiet_put P s : quiet P (put s : Eff St Ev unit).
Proof. intros st. reflexivity. Qed.

Lemma quiet_call {A} P ev (ans : result A) :
  P ev = false -> quiet P (call ev ans : Eff St Ev A).
Proof. intros HP st. unfold call, none. simpl. by rewrite HP. Qed.

Lemma quiet_emit P ev : P ev = false -> quiet P (emit ev : Eff St Ev unit).
Proof. apply quiet_call. Qed.

Lemma quiet_bind {A B} P (m : Eff St Ev A) (k : A -> Eff St Ev B) :
  quiet P m -> (forall a, quiet P (k a)) -> quiet P (bind m k).
Proof.
  intros Hm Hk st. rewrite trace_bind, none_app, Hm.
  destruct (outcome (m st)); simpl; auto. apply Hk.
Qed.

Lemma quiet_try_catch {A} P (m : Eff St Ev A) h :
  quiet P m -> (forall e, quiet P (h e)) -> quiet P (try_catch m h).
Proof.
  intros Hm Hh st. rewrite trace_try_catch, none_app, Hm.
  destruct (outcome (m st)); simpl; auto. apply Hh.
Qed.

Lemma quiet_try_finally {A} P (m : Eff St Ev A) fin :
  quiet P m -> quiet P fin -> quiet P (try_finally m fin).
Proof.
  intros Hm Hf st. rewrite trace_try_finally, none_app, Hm.
  destruct (outcome (m st)); simpl; auto; apply Hf.
Qed.





End TraceLemmas.

(** ** The reference JSON reads back the settings it prints *)

Module ReferenceFacts.
Import Reference.

Lemma append_nil_l (s : string) : "" +:+ s = s.
Proof. reflexivity. Qed.

Lemma append_cons (c : ascii) (s1 s2 : string) : String c s1 +:+ s2 = String c (s1 +:+ s2).
Proof. reflexivity. Qed.

Lemma append_assoc (s1 s2 s3 : string) : (s1 +:+ s2) +:+ s3 = s1 +:+ s2 +:+ s3.
Proof. induction s1 as [|c s1 IH]; [reflexivity|]. by rewrite !append_cons, IH. Qed.

Lemma parse_chars_escape c s body tail :
  parse_chars s = Some (body, tail) ->
  parse_chars (escape c +:+ s) = Some (String c body, tail).
Proof.
  intros Hs.
  destruct c as [[] [] [] [] [] [] [] []]; unfold escape, hex_digit; simpl;
    rewrite ?append_nil_l, ?Hs; reflexivity.
Qed.

Lemma parse_chars_quoted s rest :
  parse_chars (escape_all s +:+ String dquote rest) = Some (s, rest).
Proof.
  induction s as [|c s IH]; [reflexivity|].
  cbn [escape_all]. rewrite append_assoc. by apply parse_chars_escape.
Qed.

Lemma skip_ws_cons c s : is_space c = false -> skip_ws (String c s) = String c s.
Proof. intros Hc. cbn. by rewrite Hc. Qed.

Lemma append_length (s1 s2 : string) :
  String.length (s1 +:+ s2) = String.length s1 + String.length s2.
Proof. induction s1 as [|c s1 IH]; [reflexivity|]. rewrite append_cons. cbn. by rewrite IH. Qed.

Lemma fold_join a b ps :
  fold_left (fun acc q => acc +:+ "," +:+ q) ps (a +:+ b)
  = a +:+ fold_left (fun acc q => acc +:+ "," +:+ q) ps b.
Proof.
  revert b. induction ps as [|r ps IH]; intros b; cbn [fold_left]; [reflexivity|].
  by rewrite append_assoc, IH.
Qed.

Lemma join_cons p q ps : join (p :: q :: ps) = p +:+ "," +:+ join (q :: ps).
Proof. unfold join. cbn [fold_left]. by rewrite fold_join, fold_join. Qed.

Lemma stringify_string_fields fields :
  stringify (JObj (string_fields fields))
  = "{" +:+ join (map member_text fields) +:+ "}".
Proof.
  change (stringify (JObj (string_fields fields)))
    with ("{" +:+ join (omap (fun '(k, x) => match x with
                                             | JUndefined => None
                                             | _ => Some (quote k +:+ ":" +:+ stringify x)
                                             end) (string_fields fields)) +:+ "}").
  f_equal. f_equal. f_equal.
  induction fields as [|[k v] fields IH]; [reflexivity|].
  cbn. by rewrite <- IH.
Qed.

Lemma parse_string_value f s rest :
  parse_value (S f) (quote s +:+ rest) = Some (JStr s, rest).
Proof.
  unfold quote. rewrite append_cons, append_assoc, append_cons, append_nil_l.
  simpl. by rewrite parse_chars_quoted.
Qed.

Ltac flatten :=
  repeat first [rewrite append_assoc | rewrite append_cons | rewrite append_nil_l].

Lemma parse_quoted_value f s rest :
  0 < f ->
  parse_value f (String dquote (escape_all s +:+ String dquote rest))
  = Some (JStr s, rest).
Proof.
  intros Hf. destruct f as [|f]; [lia|].
  simpl. by rewrite parse_chars_quoted.
Qed.

Lemma parse_string_members fields :
  forall f acc more,
    fields <> [] ->
    length fields < f ->
    parse_members f acc (join (map member_text fields) +:+ String "}" more)
    = Some (JObj (acc ++ string_fields fields), more).
Proof.
  induction fields as [|[k v] fields IH]; intros f acc more Hne Hf; [done|].
  destruct f as [|f]; cbn in Hf; [lia|].
  destruct fields as [|kv fields].
  - cbn [map join fold_left]. unfold member_text, quote. cbn [fst snd]. flatten.
    simpl. rewrite parse_chars_quoted. simpl.
    rewrite parse_quoted_value by lia. simpl.
    reflexivity.
  - cbn [map]. rewrite join_cons.
    change (join (member_text kv :: map member_text fields))
      with (join (map member_text (kv :: fields))).
    set (others := join (map member_text (kv :: fields))).
    unfold member_text, quote. cbn [fst snd]. flatten.
    simpl. rewrite parse_chars_quoted. simpl.
    rewrite parse_quoted_value by (cbn in Hf; lia). simpl.
    subst others. rewrite IH; [|done|cbn in *; lia].
    by rewrite <- app_assoc.
Qed.

Lemma settings_text c vapid server :
  stringify (App.settings_value c vapid server)
  = "{" +:+ quote "config" +:+ ":"
        +:+ stringify (JObj (string_fields
              [("apiKey", App.apiKey c); ("authDomain", App.authDomain c);
               ("projectId", App.projectId c); ("storageBucket", App.storageBucket c);
               ("messagingSenderId", App.messagingSenderId c); ("appId", App.appId c)]))
        +:+ ","
        +:+ join (map member_text [("vapidKey", vapid); ("serverKey", server)])
        +:+ "}".
Proof.
  change (stringify (App.settings_value c vapid server))
    with ("{" +:+ join [quote "config" +:+ ":" +:+ stringify (App.config_value c);
                        member_text ("vapidKey", vapid);
                        member_text ("serverKey", server)] +:+ "}").
  rewrite join_cons. by rewrite !append_assoc.
Qed.

Lemma parse_settings c vapid server :
  parse (stringify (App.settings_value c vapid server))
  = Some (App.settings_value c vapid server).
Proof.
  unfold parse.
  assert (Hlen : 10 <= String.length (stringify (App.settings_value c vapid server))).
  { rewrite settings_text, !append_length.
    change (String.length (quote "config")) with 8.
    change (String.length "{") with 1. change (String.length ":") with 1. lia. }
  remember (String.length (stringify (App.settings_value c vapid server))) as n eqn:Hn.
  clear Hn.
  rewrite settings_text, stringify_string_fields.
  set (inner := join (map member_text _)) at 1.
  set (outer := join (map member_text _)) at 1.
  unfold quote. flatten.
  destruct n as [|[|n]]; try lia.
  simpl.
  subst inner. rewrite parse_string_members; [|done|cbn; lia].
  simpl. subst outer. cbn [map join fold_left]. unfold member_text, quote.
  cbn [fst snd]. flatten.
  simpl. rewrite parse_quoted_value by lia.
  simpl. destruct n as [|n]; [lia|].
  simpl. rewrite parse_quoted_value by lia.
  reflexivity.
Qed.

Lemma stringify_settings_nonempty c vapid server :
  stringify (App.settings_value c vapid server) <> "".
Proof. rewrite settings_text. discriminate. Qed.

End ReferenceFacts.

(** ** The service worker *)

Module MessagingSwFacts.
Import MessagingSw.

Lemma is_object_guard v : negb (truthy v) || negb (typeof_object v) = negb (is_object v).
Proof. destruct v; simpl; try done; by rewrite orb_true_r. Qed.

Lemma nullish_field payload notification field fallback :
  member payload "notification" = Some notification ->
  nullish (opt_member notification field) (JStr fallback)
  = notification_field payload field fallback.
Proof.
  destruct payload; simpl; intros Hm; try discriminate; injection Hm as <-; try reflexivity.
  destruct (get_field "notification" fields); try reflexivity.
  unfold opt_member; simpl. by destruct (get_field field fields0).
Qed.


Lemma nullish_data payload :
  payload <> JNull -> payload <> JUndefined ->
  nullish (opt_member payload "data") (JObj []) = data_field payload.
Proof.
  intros Hn Hu. destruct payload; try congruence; try reflexivity.
  unfold opt_member; simpl. by destruct (get_field "data" fields).
Qed.

Lemma background_shows payload s :
  payload <> JNull -> payload <> JUndefined ->
  backgroundMessageHandler payload s
  = Reply [ShowNotification (notification_field payload "title" "백그라운드 메시지")
             (JObj [("body", notification_field payload "body" "");
                    ("icon", notification_field payload "icon" "/vite.svg");
                    ("data", data_field payload)])] s (Done tt).
Proof.
  intros Hn Hu. unfold backgroundMessageHandler.
  destruct (member payload "notification") as [n|] eqn:Hm.
  - rewrite !(nullish_field payload n) by done.
    rewrite nullish_data by done. reflexivity.
  - destruct payload; try discriminate; congruence.
Qed.

Lemma push_shows d payload s :
  messagingInstance s = None ->
  json d = Some payload ->
  payload <> JNull -> payload <> JUndefined ->
  onPush (Some d) s
  = Reply [ShowNotification (notification_field payload "title" "푸시 알림")
             (JObj [("body", notification_field payload "body" "");
                    ("icon", notification_field payload "icon" "/vite.svg")]);
           WaitUntil] s (Done tt).
Proof.
  intros Hm Hj Hn Hu. unfold onPush, bind, get; simpl. rewrite Hm, Hj.
  unfold try_catch, bind; simpl.
  destruct (member payload "notification") as [n|] eqn:Hmem.
  - simpl. rewrite !(nullish_field payload n) by done. reflexivity.
  - destruct payload; try discriminate; congruence.
Qed.

Lemma push_gated data s :
  messagingInstance s <> None -> onPush data s = Reply [] s (Done tt).
Proof.
  intros Hm. unfold onPush, bind, get; simpl.
  destruct (messagingInstance s); [reflexivity | congruence].
Qed.

Lemma push_without_payload data s :
  match data with
  | None => True
  | Some d => json d = None \/ json d = Some JNull \/ json d = Some JUndefined
  end ->
  shown (trace (onPush data s)) = [].
Proof.
  intros Hd. unfold onPush, bind, get; simpl.
  destruct (messagingInstance s); [reflexivity|].
  destruct data as [d|]; [|reflexivity].
  destruct Hd as [Hj|[Hj|Hj]]; rewrite Hj; reflexivity.
Qed.

Lemma strict_eq_str_true v lit : strict_eq_str v lit = true <-> v = JStr lit.
Proof.
  destruct v; simpl; split; try discriminate; try congruence.
  - intros ->%String.eqb_eq. reflexivity.
  - intros [= ->]. apply String.eqb_refl.
Qed.

Lemma onMessage_init k data config s :
  init_request data config ->
  onMessage k data s = initializeMessaging k config s.
Proof.
  intros (Ht & Hc & _). unfold onMessage.
  rewrite (proj2 (strict_eq_str_true _ _) Ht), Hc. reflexivity.
Qed.

Lemma onMessage_ignored k data s :
  (forall config, ~ init_request data config) ->
  onMessage k data s = Reply [] s (Done tt).
Proof.
  intros Hno. unfold onMessage.
  destruct (strict_eq_str _ _) eqn:Ht; [|reflexivity].
  apply strict_eq_str_true in Ht.
  destruct (member data "config") as [config|] eqn:Hc.
  - unfold initializeMessaging. rewrite is_object_guard.
    destruct (is_object config) eqn:Ho; [|reflexivity].
    exfalso. by apply (Hno config).
  - destruct data; simpl in *; discriminate.
Qed.

Lemma initializeMessaging_apps k config s :
  is_object config = true ->
  let r := initializeMessaging k config s in
  firebase_apps (final r)
  = match firebase_apps s with [] => [config] | apps => apps end
  /\ List.filter is_initializeApp (trace r)
     = match firebase_apps s with [] => [InitializeApp config] | _ => [] end.
Proof.
  intros Ho. unfold initializeMessaging. rewrite is_object_guard, Ho. simpl.
  destruct s as [apps mi flag].
  destruct apps as [|a apps]; destruct k as [[] acc]; simpl;
    unfold bind, firebase_messaging, bind, get, call; simpl.
  - destruct (acc config), flag; simpl; auto.
  - auto.
  - destruct (acc a), flag; simpl; auto.
  - auto.
Qed.

(* C10 *)
Lemma registrations_app t1 t2 : registrations (t1 ++ t2) = registrations t1 + registrations t2.
Proof. unfold registrations. by rewrite List.filter_app, length_app. Qed.

(** One call of [initializeMessaging]: it registers exactly when the flag
    goes from false to true. *)
Lemma initializeMessaging_flag k config s :
  let r := initializeMessaging k config s in
  registrations (trace r)
  = (if negb (backgroundHandlerRegistered s) && backgroundHandlerRegistered (final r)
     then 1 else 0)
  /\ (backgroundHandlerRegistered s = true -> backgroundHandlerRegistered (final r) = true).
Proof.
  unfold initializeMessaging.
  destruct (negb (truthy config) || negb (typeof_object config)).
  { simpl. destruct (backgroundHandlerRegistered s); auto. }
  destruct s as [apps mi flag].
  destruct apps as [|a apps]; destruct k as [[] acc]; simpl;
    unfold bind, firebase_messaging, bind, get, call; simpl.
  - destruct (acc config), flag; simpl; auto.
  - destruct flag; auto.
  - destruct (acc a), flag; simpl; auto.
  - destruct flag; auto.
Qed.

Lemma dispatch_flag k e s :
  let r := dispatch k e s in
  registrations (trace r)
  = (if negb (backgroundHandlerRegistered s) && backgroundHandlerRegistered (final r)
     then 1 else 0)
  /\ (backgroundHandlerRegistered s = true -> backgroundHandlerRegistered (final r) = true).
Proof.
  destruct e as [data|data|payload]; simpl.
  - unfold onMessage. destruct (strict_eq_str _ _).
    + destruct (member data "config").
      * apply initializeMessaging_flag.
      * simpl. destruct (backgroundHandlerRegistered s); auto.
    + simpl. destruct (backgroundHandlerRegistered s); auto.
  - unfold onPush, bind, get; simpl.
    destruct (messagingInstance s); simpl.
    { destruct (backgroundHandlerRegistered s); auto. }
    destruct data as [[[v|]]|]; unfold try_catch, bind; simpl;
      try destruct (member v "notification"); simpl;
      destruct (backgroundHandlerRegistered s); auto.
  - unfold bind, get; simpl.
    destruct (backgroundHandlerRegistered s) eqn:Hf; simpl.
    + unfold backgroundMessageHandler.
      destruct (member payload "notification"); simpl; rewrite Hf; auto.
    + rewrite Hf. split; [reflexivity | discriminate].
Qed.

Lemma run_registrations evs s :
  let '(t, s') := run evs s in
  registrations t
  = (if negb (backgroundHandlerRegistered s) && backgroundHandlerRegistered s'
     then 1 else 0)
  /\ (backgroundHandlerRegistered s = true -> backgroundHandlerRegistered s' = true).
Proof.
  revert s. induction evs as [|[k e] evs IH]; intros s; simpl.
  - destruct (backgroundHandlerRegistered s); auto.
  - specialize (IH (final (dispatch k e s))).
    destruct (run evs (final (dispatch k e s))) as [t s'].
    destruct (dispatch_flag k e s) as [Hd Hk]. destruct IH as [Hr Hk'].
    rewrite registrations_app, Hd, Hr.
    destruct (backgroundHandlerRegistered s), (backgroundHandlerRegistered (final (dispatch k e s))) eqn:E1,
      (backgroundHandlerRegistered s') eqn:E2; simpl; split; auto.
    all: try (specialize (Hk eq_refl); discriminate).
    all: try (specialize (Hk' eq_refl); discriminate).
Qed.

(** C3 (as amended).  The callback registered with [onBackgroundMessage]
    shows, for every payload it is given, exactly one notification whose
    title and body are the payload's [notification.title] and
    [notification.body], or the defaults when those are absent.  The
    ['push'] listener does the same with its own default title, but only
    while no messaging instance exists and only for an event whose data
    parses as JSON to a value other than null; otherwise it shows nothing. *)
Theorem notifications_for_background_and_push (s : state) :
  (forall payload,
      payload <> JNull -> payload <> JUndefined ->
      trace (backgroundMessageHandler payload s)
      = [ShowNotification (notification_field payload "title" "백그라운드 메시지")
           (JObj [("body", notification_field payload "body" "");
                  ("icon", notification_field payload "icon" "/vite.svg");
                  ("data", data_field payload)])])
  /\ (forall d payload,
        messagingInstance s = None -> json d = Some payload ->
        payload <> JNull -> payload <> JUndefined ->
        shown (trace (onPush (Some d) s))
        = [ShowNotification (notification_field payload "title" "푸시 알림")
             (JObj [("body", notification_field payload "body" "");
                    ("icon", notification_field payload "icon" "/vite.svg")])])
  /\ (forall data, messagingInstance s <> None -> trace (onPush data s) = [])
  /\ shown (trace (onPush None s)) = []
  /\ (forall d,
        json d = None \/ json d = Some JNull \/ json d = Some JUndefined ->
        shown (trace (onPush (Some d) s)) = []).
Proof.
  repeat split.
  - intros payload Hn Hu. by rewrite background_shows.
  - intros d payload Hm Hj Hn Hu. by rewrite (push_shows d payload).
  - intros data Hm. by rewrite push_gated.
  - by apply (push_without_payload None).
  - intros d Hd. by apply (push_without_payload (Some d)).
Qed.

Lemma notifications_for_background_and_push_witness :
  trace (backgroundMessageHandler Examples.push_payload1 initial)
  = [ShowNotification (JStr "Hello")
       (JObj [("body", JStr "World"); ("icon", JStr "/vite.svg"); ("data", JObj [])])]
  /\ shown (trace (onPush (Some (PushData (Some Examples.push_payload1))) initial))
     = [ShowNotification (JStr "Hello")
          (JObj [("body", JStr "World"); ("icon", JStr "/vite.svg")])].
Proof.
  destruct (notifications_for_background_and_push initial) as (Hb & Hp & _).
  split.
  - apply (Hb Examples.push_payload1); discriminate.
  - apply (Hp (PushData (Some Examples.push_payload1)) Examples.push_payload1);
      [reflexivity | reflexivity | discriminate | discriminate].
Defined.

(** C3, as stated, fails: a push whose body is not JSON shows no
    notification at all, and once the page has initialised the worker the
    ['push'] listener shows none for any event. *)
Lemma push_without_notification :
  shown (trace (dispatch full_sdk (PushEvent (Some (PushData None))) initial)) = []
  /\ messagingInstance Examples.worker_initialised <> None
  /\ trace (dispatch full_sdk
              (PushEvent (Some (PushData (Some Examples.push_payload1))))
              Examples.worker_initialised) = [].
Proof. split; [reflexivity | split; [discriminate | reflexivity]]. Qed.

(** One call of [initializeMessaging] with an object config, by what the
    SDK answers. *)
Lemma initializeMessaging_answers k config s :
  is_object config = true ->
  let r := initializeMessaging k config s in
  let app := hd config (firebase_apps s) in
  (isSupported k = true -> messaging_accepts k app = true ->
   In GetMessaging (trace r) /\
   head (firebase_apps (final r)) = Some app /\
   messagingInstance (final r) = Some (MessagingOf app) /\
   backgroundHandlerRegistered (final r) = true /\
   registrations (trace r) = (if backgroundHandlerRegistered s then 0 else 1) /\
   outcome r = Done tt)
  /\ (isSupported k = true -> messaging_accepts k app = false ->
      In GetMessaging (trace r) /\
      messagingInstance (final r) = messagingInstance s /\
      backgroundHandlerRegistered (final r) = backgroundHandlerRegistered s /\
      registrations (trace r) = 0 /\
      exists err, outcome r = Threw err)
  /\ (isSupported k = false ->
      ~ In GetMessaging (trace r) /\
      messagingInstance (final r) = messagingInstance s /\
      backgroundHandlerRegistered (final r) = backgroundHandlerRegistered s /\
      registrations (trace r) = 0 /\
      outcome r = Done tt).
Proof.
  intros Ho. unfold initializeMessaging. rewrite is_object_guard, Ho. simpl.
  destruct s as [apps mi flag]. destruct k as [sup acc].
  destruct apps as [|a apps]; destruct sup; simpl;
    unfold bind, firebase_messaging, bind, get, call; simpl;
    (split; [|split]); try discriminate.
  - intros _ Ha. rewrite Ha. destruct flag; simpl; auto 10.
  - intros _ Ha. rewrite Ha. simpl. split; [auto|]. eauto 10.
  - intros _. split; [intros [|[|[]]]; discriminate|]. auto.
  - intros _ Ha. rewrite Ha. destruct flag; simpl; auto 10.
  - intros _ Ha. rewrite Ha. simpl. split; [auto|]. eauto 10.
  - intros _. split; [intros [|[]]; discriminate|]. auto.
Qed.

(** C8 (as amended).  A ['message'] event of type ['INIT_FIREBASE'] with an
    object config calls [initializeApp], with that config, exactly when no
    app exists yet, after which there is one app; an existing registry is
    left as it is.  When messaging is supported and [firebase.messaging()]
    returns for the app, its messaging service is stored; when it throws,
    the listener ends in that exception and no instance is stored; when
    messaging is not supported, nothing is asked for.  Any other message
    leaves the worker as it was and calls nothing. *)
Theorem message_listener_initialises_on_demand (k : sdk) (data : jsval) (s : state) :
  (forall config,
      init_request data config ->
      let r := onMessage k data s in
      let app := hd config (firebase_apps s) in
      List.filter is_initializeApp (trace r)
      = match firebase_apps s with [] => [InitializeApp config] | _ => [] end
      /\ match firebase_apps s with
         | [] => length (firebase_apps (final r)) = 1
         | apps => firebase_apps (final r) = apps
         end
      /\ (isSupported k = true -> messaging_accepts k app = true ->
          In GetMessaging (trace r) /\
          head (firebase_apps (final r)) = Some app /\
          messagingInstance (final r) = Some (MessagingOf app) /\
          outcome r = Done tt)
      /\ (isSupported k = true -> messaging_accepts k app = false ->
          In GetMessaging (trace r) /\
          messagingInstance (final r) = messagingInstance s /\
          exists err, outcome r = Threw err)
      /\ (isSupported k = false ->
          ~ In GetMessaging (trace r) /\
          messagingInstance (final r) = messagingInstance s /\
          outcome r = Done tt))
  /\ ((forall config, ~ init_request data config) ->
      onMessage k data s = Reply [] s (Done tt)).
Proof.
  split.
  - intros config Hreq. rewrite (onMessage_init k data config s Hreq).
    destruct Hreq as (_ & _ & Ho).
    destruct (initializeMessaging_apps k config s Ho) as [Ha Hi].
    destruct (initializeMessaging_answers k config s Ho) as (Hyes & Hno & Hun).
    cbv zeta in *. split; [exact Hi|]. split.
    { rewrite Ha. by destruct (firebase_apps s). }
    split; [|split].
    + intros Hk Hacc. destruct (Hyes Hk Hacc) as (H1 & H2 & H3 & _ & _ & H6). auto.
    + intros Hk Hacc. destruct (Hno Hk Hacc) as (H1 & H2 & _ & _ & H5). auto.
    + intros Hk. destruct (Hun Hk) as (H1 & H2 & _ & _ & H5). auto.
  - apply onMessage_ignored.
Qed.

Lemma message_listener_initialises_on_demand_witness :
  firebase_apps Examples.worker_initialised = [App.config_value Examples.config1]
  /\ messagingInstance Examples.worker_initialised
     = Some (MessagingOf (App.config_value Examples.config1))
  /\ onMessage full_sdk (JObj [("type", JStr "PING")]) Examples.worker_initialised
     = Reply [] Examples.worker_initialised (Done tt).
Proof.
  destruct (message_listener_initialises_on_demand full_sdk Examples.init_message initial)
    as [Hinit _].
  destruct (Hinit (App.config_value Examples.config1)) as (_ & _ & Hm & _).
  { repeat split. }
  destruct (Hm eq_refl eq_refl) as (_ & _ & Hinst & _).
  destruct (message_listener_initialises_on_demand full_sdk
              (JObj [("type", JStr "PING")]) Examples.worker_initialised) as [_ Hother].
  split; [reflexivity|]. split.
  - exact Hinst.
  - apply Hother. intros config (Ht & _). discriminate.
Defined.

(** C8, as stated, fails: with messaging supported, an [INIT_FIREBASE]
    message whose object config the SDK does not accept initialises the
    app and then ends in the exception of [firebase.messaging()], with no
    messaging instance created. *)
Lemma supported_message_without_instance :
  let k := Sdk true (fun _ => false) in
  let data := JObj [("type", JStr "INIT_FIREBASE"); ("config", JObj [])] in
  let r := onMessage k data initial in
  init_request data (JObj [])
  /\ isSupported k = true
  /\ List.filter is_initializeApp (trace r) = [InitializeApp (JObj [])]
  /\ messagingInstance (final r) = None
  /\ outcome r = Threw (Error "Missing App configuration value").
Proof. cbv zeta. split; [by repeat split|]. by repeat split. Qed.

(** C10 (as amended).  Over any run of the worker from its initial state
    [onBackgroundMessage] is called at most once.  A call of
    [initializeMessaging] that finds the flag set registers nothing and
    leaves it set.  One that finds it clear registers once and sets it
    when the config is an object, messaging is supported and
    [firebase.messaging()] returns for the app; in every other case, also
    when messaging is supported and [firebase.messaging()] throws, it
    registers nothing and leaves the flag clear. *)
Theorem background_handler_registered_at_most_once :
  (forall evs, registrations (fst (run evs initial)) <= 1)
  /\ (forall k config s,
        backgroundHandlerRegistered s = true ->
        let r := initializeMessaging k config s in
        registrations (trace r) = 0 /\ backgroundHandlerRegistered (final r) = true)
  /\ (forall k config s,
        backgroundHandlerRegistered s = false ->
        is_object config = true ->
        isSupported k = true ->
        messaging_accepts k (hd config (firebase_apps s)) = true ->
        let r := initializeMessaging k config s in
        registrations (trace r) = 1 /\ backgroundHandlerRegistered (final r) = true)
  /\ (forall k config s,
        backgroundHandlerRegistered s = false ->
        is_object config = false \/
        isSupported k = false \/
        messaging_accepts k (hd config (firebase_apps s)) = false ->
        let r := initializeMessaging k config s in
        registrations (trace r) = 0 /\ backgroundHandlerRegistered (final r) = false).
Proof.
  split; [|split; [|split]].
  - intros evs. pose proof (run_registrations evs initial) as Hr.
    destruct (run evs initial) as [t s']. destruct Hr as [Hr _]. simpl.
    rewrite Hr. destruct (_ && _); lia.
  - intros k config s Hf.
    destruct (initializeMessaging_flag k config s) as [Hr Hk].
    cbv zeta. rewrite Hr, Hf. simpl. auto.
  - intros k config s Hf Ho Hk Ha.
    destruct (initializeMessaging_answers k config s Ho) as (Hyes & _ & _).
    destruct (Hyes Hk Ha) as (_ & _ & _ & Hflag & Hreg & _).
    cbv zeta. by rewrite Hreg, Hf.
  - intros k config s Hf Hcase. cbv zeta.
    destruct (is_object config) eqn:Ho.
    2: { unfold initializeMessaging. rewrite is_object_guard, Ho. by split. }
    destruct (initializeMessaging_answers k config s Ho) as (_ & Hno & Hun).
    destruct (isSupported k) eqn:Hk.
    + destruct Hcase as [?|[?|Ha]]; try discriminate.
      destruct (Hno eq_refl Ha) as (_ & _ & Hflag & Hreg & _). by rewrite Hflag, Hreg.
    + destruct (Hun eq_refl) as (_ & _ & Hflag & Hreg & _). by rewrite Hflag, Hreg.
Qed.

Lemma background_handler_registered_at_most_once_witness :
  registrations
    (fst (run [(full_sdk, MessageEvent Examples.init_message);
               (full_sdk, MessageEvent Examples.init_message);
               (full_sdk, MessageEvent Examples.init_message)] initial)) <= 1
  /\ registrations
       (trace (initializeMessaging full_sdk (App.config_value Examples.config1) initial))
     = 1
  /\ registrations
       (trace (initializeMessaging full_sdk (App.config_value Examples.config1)
                 Examples.worker_initialised)) = 0.
Proof.
  destruct background_handler_registered_at_most_once as (Hrun & Hskip & Hfirst & _).
  split; [apply Hrun|]. split.
  - apply (Hfirst full_sdk (App.config_value Examples.config1) initial); reflexivity.
  - apply (Hskip full_sdk (App.config_value Examples.config1) Examples.worker_initialised).
    reflexivity.
Defined.

(** C10, as stated, fails: a supported initialisation in which
    [firebase.messaging()] throws does not set the flag, so that it is a
    later call, not the first supported one, that registers the handler. *)
Lemma supported_initialization_without_registration :
  let k := Sdk true (fun _ => false) in
  let config := App.config_value Examples.config1 in
  let first := initializeMessaging k config initial in
  let later := initializeMessaging full_sdk config (final first) in
  isSupported k = true
  /\ In IsSupported (trace first)
  /\ registrations (trace first) = 0
  /\ backgroundHandlerRegistered (final first) = false
  /\ registrations (trace later) = 1.
Proof.
  cbv zeta. split; [reflexivity|]. split; [right; by left|]. by repeat split.
Qed.

End MessagingSwFacts.

(** ** The page *)

Module AppFacts.
Import App.

Section Page.
Context `{Platform}.

(** *** Registration of the service worker *)

Lemma first_activated_split before now after :
  Forall (fun c => fst c <> activated) before ->
  first_activated (before ++ (activated, now) :: after) = Some now.
Proof.
  induction before as [|[state sl] before IH]; intros Hb; simpl; [reflexivity|].
  inversion Hb as [|? ? Hne Hrest]; subst. simpl in Hne.
  destruct state; try (by apply IH). congruence.
Qed.

Lemma ensure_unsupported e s st :
  has_serviceWorker e = false ->
  ensureServiceWorkerRegistration e s st
  = Reply [] st (Threw (Error "서비스 워커를 지원하지 않는 환경입니다.")).
Proof. intros Hs. unfold ensureServiceWorkerRegistration. by rewrite Hs. Qed.

Lemma ensure_existing e s st existing :
  has_serviceWorker e = true ->
  getRegistration e = Returns (Some existing) ->
  ensureServiceWorkerRegistration e s st
  = Reply (GetRegistration SW_URL :: init_posts (worker_of (slots existing)) (firebaseConfig s))
          st (Done existing).
Proof.
  intros Hs Hg. unfold ensureServiceWorkerRegistration, await, bind, call.
  rewrite Hs, Hg. simpl. unfold worker_of.
  by destruct (or_else _ _).
Qed.

Lemma ensure_fresh_ready e s st registration :
  has_serviceWorker e = true ->
  getRegistration e = Returns None ->
  register e = Returns registration ->
  awaited_worker (slots registration) = None ->
  ensureServiceWorkerRegistration e s st
  = Reply ([GetRegistration SW_URL; Register SW_URL]
             ++ init_posts (worker_of (slots registration)) (firebaseConfig s))
          st (Done registration).
Proof.
  intros Hs Hg Hr Hw.
  unfold ensureServiceWorkerRegistration, await, bind, call.
  rewrite Hs, Hg. simpl. rewrite Hr. simpl.
  unfold wait_for_activation, awaited_worker, worker_of in *.
  destruct (active (slots registration)) eqn:Ha; simpl.
  - rewrite Ha. reflexivity.
  - rewrite Hw. simpl. rewrite Ha. simpl. by destruct (waiting _).
Qed.

Lemma ensure_fresh_waits e s st registration w :
  has_serviceWorker e = true ->
  getRegistration e = Returns None ->
  register e = Returns registration ->
  awaited_worker (slots registration) = Some w ->
  ensureServiceWorkerRegistration e s st
  = match first_activated (statechanges e) with
    | Some now =>
        Reply ([GetRegistration SW_URL; Register SW_URL; AddStatechangeListener w]
                 ++ init_posts (worker_of now) (firebaseConfig s))
              st (Done {| registration_id := registration_id registration; slots := now |})
    | None =>
        Reply [GetRegistration SW_URL; Register SW_URL; AddStatechangeListener w] st Hung
    end.
Proof.
  intros Hs Hg Hr Hw.
  unfold ensureServiceWorkerRegistration, await, bind, call.
  rewrite Hs, Hg. simpl. rewrite Hr. simpl.
  unfold wait_for_activation, awaited_worker, worker_of in *.
  destruct (active (slots registration)) eqn:Ha; [discriminate|].
  rewrite Hw. simpl.
  destruct (first_activated (statechanges e)) as [now|]; simpl; [|reflexivity].
  by destruct (or_else (active now) (waiting now)).
Qed.

Lemma first_activated_none changes :
  Forall (fun c => fst c <> activated) changes -> first_activated changes = None.
Proof.
  induction changes as [|[state sl] changes IH]; intros Hc; simpl; [reflexivity|].
  inversion Hc as [|? ? Hne Hrest]; subst. simpl in Hne.
  destruct state; try (by apply IH). congruence.
Qed.

Lemma posts_init_posts w c : posts (init_posts w c) = init_posts w c.
Proof. by destruct w. Qed.

(** C1 (as amended).  Without service-worker support the function throws.
    When a registration exists it is returned, nothing is registered, and
    [INIT_FIREBASE] with the current config is posted to its active (or
    else waiting) worker if it has one, and to nobody otherwise.  When none
    exists the script is registered; if the new registration has no active
    worker but an installing (or else waiting) one, the function waits for
    the first [statechange] at which that worker is ['activated'], and never
    returns without one; then it posts to the active (or else waiting)
    worker of the registration, if any. *)
Theorem ensureServiceWorkerRegistration_state_check (e : env) (s : State) (st : Storage) :
  let r := ensureServiceWorkerRegistration e s st in
  (has_serviceWorker e = false ->
   trace r = [] /\
   outcome r = Threw (Error "서비스 워커를 지원하지 않는 환경입니다."))
  /\ (has_serviceWorker e = true ->
      forall existing,
        getRegistration e = Returns (Some existing) ->
        outcome r = Done existing /\
        none is_register (trace r) = true /\
        posts (trace r) = init_posts (worker_of (slots existing)) (firebaseConfig s))
  /\ (has_serviceWorker e = true ->
      getRegistration e = Returns None ->
      forall registration,
        register e = Returns registration ->
        In (Register SW_URL) (trace r) /\
        match awaited_worker (slots registration) with
        | None =>
            outcome r = Done registration /\
            posts (trace r)
            = init_posts (worker_of (slots registration)) (firebaseConfig s)
        | Some w =>
            In (AddStatechangeListener w) (trace r) /\
            (forall before now after,
                statechanges e = before ++ (activated, now) :: after ->
                Forall (fun c => fst c <> activated) before ->
                outcome r = Done {| registration_id := registration_id registration;
                                    slots := now |} /\
                posts (trace r) = init_posts (worker_of now) (firebaseConfig s)) /\
            (Forall (fun c => fst c <> activated) (statechanges e) ->
             outcome r = Hung /\ posts (trace r) = [])
        end).
Proof.
  cbv zeta. split; [|split].
  - intros Hs. by rewrite ensure_unsupported.
  - intros Hs existing Hg. rewrite (ensure_existing e s st existing Hs Hg).
    cbn [trace outcome]. split; [reflexivity|]. split.
    + by destruct (worker_of (slots existing)).
    + cbn. apply posts_init_posts.
  - intros Hs Hg registration Hr.
    destruct (awaited_worker (slots registration)) as [w|] eqn:Hw.
    + rewrite (ensure_fresh_waits e s st registration w Hs Hg Hr Hw).
      split; [|split; [|split]].
      * destruct (first_activated _); cbn; auto.
      * destruct (first_activated _); cbn; auto.
      * intros before now after Hch Hb.
        rewrite Hch, (first_activated_split before now after Hb).
        cbn. split; [reflexivity | apply posts_init_posts].
      * intros Hnone. rewrite (first_activated_none _ Hnone). by cbn.
    + rewrite (ensure_fresh_ready e s st registration Hs Hg Hr Hw).
      cbn. split; [auto|]. split; [reflexivity | apply posts_init_posts].
Qed.

(** *** Order of the calls *)

Lemma quiet_deleteAll P e apps :
  (forall a, P (DeleteApp a) = false) -> quiet P (deleteAll e apps).
Proof.
  intros HP st. unfold deleteAll. cbn [trace].
  induction apps as [|a apps IH]; [reflexivity|].
  cbn. by rewrite HP.
Qed.

Ltac quiet_step :=
  first
    [ apply quiet_ret | apply quiet_throw | apply quiet_never
    | apply quiet_get | apply quiet_put
    | apply quiet_emit; reflexivity
    | apply quiet_call; reflexivity
    | apply quiet_deleteAll; intros ?; reflexivity
    | apply quiet_bind; [ | intros ? ]
    | apply quiet_try_catch; [ | intros ? ]
    | apply quiet_try_finally
    | match goal with
      | |- quiet _ (if ?b then _ else _) => destruct b
      | |- quiet _ (match ?x with _ => _ end) => destruct x
      end ].

Ltac unfold_handlers :=
  unfold handleInitializeFirebase, handleRequestPermissionAndToken, handleSendPush,
    ensureServiceWorkerRegistration, wait_for_activation, post_init,
    saveSettings, parseDataPayload, localStorage_setItem,
    appendStatus, set, await.

Ltac quiet_tac := unfold_handlers; repeat quiet_step.








Lemma send_outside_lifecycle e s : quiet is_lifecycle (handleSendPush e s).
Proof. quiet_tac. Qed.


(** *** Settings in local storage *)

Lemma localStorage_setItem_done key value st :
  outcome (localStorage_setItem key value st) = Done tt ->
  available st = true /\
  final (localStorage_setItem key value st)
  = {| items := <[key := value]> (items st);
       available := available st;
       accepts := accepts st |}.
Proof.
  unfold localStorage_setItem, bind, get, put, emit, call. cbn.
  destruct (available st); cbn; [|discriminate].
  destruct (accepts st key value); cbn; [auto | discriminate].
Qed.

Lemma loadSavedSettings_stored st text v :
  available st = true ->
  items st !! LOCAL_STORAGE_KEY = Some text ->
  text <> "" ->
  JSON_parse text = Some v ->
  loadSavedSettings st = Reply [GetItem LOCAL_STORAGE_KEY] st (Done v).
Proof.
  intros Ha Hi Hne Hp.
  unfold loadSavedSettings, localStorage_getItem, try_catch, bind, get, call.
  cbn. rewrite Ha, Hi. cbn.
  destruct (String.eqb_spec text ""); [contradiction|].
  rewrite Hp. reflexivity.
Qed.

(** C4.  After [saveSettings(config, vapidKey, serverKey)] has returned,
    [loadSavedSettings()] returns the object whose [config] holds the six
    fields of the config, each a string, and whose [vapidKey] and
    [serverKey] are the two keys, given that the engine's JSON reads back
    what it prints for that object. *)
Theorem settings_round_trip (c : FirebaseConfig) (vapid server : string) (st : Storage) :
  let saved :=
    JObj [("config",
            JObj [("apiKey", JStr (apiKey c));
                  ("authDomain", JStr (authDomain c));
                  ("projectId", JStr (projectId c));
                  ("storageBucket", JStr (storageBucket c));
                  ("messagingSenderId", JStr (messagingSenderId c));
                  ("appId", JStr (appId c))]);
          ("vapidKey", JStr vapid);
          ("serverKey", JStr server)] in
  JSON_parse (JSON_stringify saved) = Some saved ->
  JSON_stringify saved <> "" ->
  outcome (saveSettings c vapid server st) = Done tt ->
  outcome (loadSavedSettings (final (saveSettings c vapid server st))) = Done saved.
Proof.
  cbv zeta. intros Hjson Hne Hsaved. unfold saveSettings in *.
  destruct (localStorage_setItem_done _ _ _ Hsaved) as [Ha ->].
  erewrite loadSavedSettings_stored; [reflexivity | exact Ha | | exact Hne | exact Hjson].
  cbn. apply lookup_insert_eq.
Qed.

(** *** Permission and token *)

Lemma permission_denied_reply e s st m permission :
  messaging s = Some m ->
  blank (vapidKey s) = false ->
  has_Notification e = true ->
  requestPermission e = Returns permission ->
  permission <> "granted" ->
  handleRequestPermissionAndToken e s st
  = Reply [RequestPermission;
           SetState (AppendStatus error
                       "알림 권한을 허용하지 않아 토큰을 발급할 수 없습니다.")]
          st (Done tt).
Proof.
  intros Hm Hv Hn Hp Hne. unfold handleRequestPermissionAndToken.
  rewrite Hm, Hv. unfold try_catch, bind, await, call, appendStatus, set, emit.
  rewrite Hn, Hp. cbn.
  destruct (String.eqb_spec permission "granted"); [contradiction|]. reflexivity.
Qed.

(** C5.  When the permission request resolves to anything other than
    ['granted'], [handleRequestPermissionAndToken] appends one error
    status and returns: [getToken] is not called, and [token] and
    [targetToken] are left as they were. *)
Theorem permission_denied_stops
  (e : env) (s : State) (st : Storage) (m : Messaging) (permission : string) :
  messaging s = Some m ->
  blank (vapidKey s) = false ->
  has_Notification e = true ->
  requestPermission e = Returns permission ->
  permission <> "granted" ->
  let r := handleRequestPermissionAndToken e s st in
  trace r = [RequestPermission;
             SetState (AppendStatus error
                         "알림 권한을 허용하지 않아 토큰을 발급할 수 없습니다.")]
  /\ outcome r = Done tt
  /\ none is_getToken (trace r) = true
  /\ (forall now s0,
        token (apply_updates now (updates_of (trace r)) s0) = token s0 /\
        targetToken (apply_updates now (updates_of (trace r)) s0) = targetToken s0).
Proof.
  intros Hm Hv Hn Hp Hne. cbv zeta.
  rewrite (permission_denied_reply e s st m permission Hm Hv Hn Hp Hne).
  cbn [trace outcome]. split; [reflexivity|]. split; [reflexivity|].
  split; [reflexivity|]. intros now s0. by destruct s0.
Qed.

(** *** Sending a push *)

Lemma send_rejected_reply e s st :
  blank (serverKey s) = true \/
  blank (targetToken s) = true \/
  (blank (data (pushPayload s)) = false /\ JSON_parse (data (pushPayload s)) = None) ->
  exists msg,
    handleSendPush e s st
    = Reply [SetState (SetSendResult ""); SetState (AppendStatus error msg)]
            st (Done tt).
Proof.
  intros Hbad. unfold handleSendPush, parseDataPayload.
  unfold try_catch, bind, appendStatus, set, emit, call, ret, throw. cbn.
  destruct (blank (serverKey s)) eqn:Hk; [eauto|].
  destruct (blank (targetToken s)) eqn:Ht; [eauto|].
  destruct Hbad as [?|[?|[Hd Hp]]]; try discriminate.
  rewrite Hd, Hp. cbn. eauto.
Qed.

Lemma send_attempt_reply e s st v :
  validated s v ->
  handleSendPush e s st
  = match fetch e (push_request s v) with
    | Raises err =>
        Reply [SetState (SetSendResult ""); SetState (SetSending true);
               Fetch (push_request s v); ConsoleError;
               SetState (AppendStatus error CORS_MESSAGE);
               SetState (SetSendResult (message_or "오류가 발생했습니다." err));
               SetState (SetSending false)] st (Done tt)
    | Returns response =>
        match send_failure (Returns response) with
        | Some err =>
            Reply [SetState (SetSendResult ""); SetState (SetSending true);
                   Fetch (push_request s v); ResponseText; ConsoleError;
                   SetState (AppendStatus error CORS_MESSAGE);
                   SetState (SetSendResult (message_or "오류가 발생했습니다." err));
                   SetState (SetSending false)] st (Done tt)
        | None =>
            Reply [SetState (SetSendResult ""); SetState (SetSending true);
                   Fetch (push_request s v); ResponseText;
                   SetState (SetSendResult
                               match response_text response with
                               | Returns resultText => resultText
                               | Raises _ => ""
                               end);
                   SetState (AppendStatus success "푸시 메시지 전송 요청을 완료했습니다.");
                   SetState (SetSending false)] st (Done tt)
        end
    end.
Proof.
  intros (Hk & Ht & Hd). unfold handleSendPush.
  assert (Hparsed : parseDataPayload (data (pushPayload s)) = ret v).
  { unfold parseDataPayload.
    destruct (blank (data (pushPayload s))); [by subst v | by rewrite Hd]. }
  rewrite Hk, Ht, Hparsed.
  unfold try_finally, try_catch, bind, appendStatus, set, emit, call, ret, throw, await.
  cbn.
  destruct (fetch e (push_request s v)) as [response|err]; cbn; [|reflexivity].
  destruct (response_text response) as [resultText|err]; cbn; [|reflexivity].
  destruct (ok response); reflexivity.
Qed.

Lemma validation_cases s :
  (blank (serverKey s) = true \/
   blank (targetToken s) = true \/
   (blank (data (pushPayload s)) = false /\ JSON_parse (data (pushPayload s)) = None))
  \/ exists v, validated s v.
Proof.
  unfold validated.
  destruct (blank (serverKey s)); [auto|].
  destruct (blank (targetToken s)); [auto|].
  destruct (blank (data (pushPayload s))); [right; by exists JUndefined|].
  destruct (JSON_parse (data (pushPayload s))) as [v|]; [right; by exists v | auto].
Qed.

Lemma sending_after (now : Z) (us : list update) (s0 : State) :
  sending (apply_updates now (us ++ [SetSending false]) s0) = false.
Proof.
  unfold apply_updates. rewrite fold_left_app. cbn.
  by destruct (fold_left _ us s0).
Qed.

(** C9.  When the server key is blank, or the target token is blank, or
    the data field is neither blank nor JSON, [handleSendPush] clears
    [sendResult], appends one error status and does nothing else: no
    [fetch], no change of the [sending] flag, no write to storage. *)
Theorem send_validation_is_atomic (e : env) (s : State) (st : Storage) :
  blank (serverKey s) = true \/
  blank (targetToken s) = true \/
  (blank (data (pushPayload s)) = false /\ JSON_parse (data (pushPayload s)) = None) ->
  let r := handleSendPush e s st in
  (exists msg,
      trace r = [SetState (SetSendResult ""); SetState (AppendStatus error msg)])
  /\ outcome r = Done tt
  /\ final r = st
  /\ none is_fetch (trace r) = true
  /\ (forall b, ~ In (SetState (SetSending b)) (trace r)).
Proof.
  intros Hbad. destruct (send_rejected_reply e s st Hbad) as [msg Hr].
  cbv zeta. rewrite Hr. cbn [trace outcome final].
  split; [by exists msg|]. repeat split.
  intros b [Hin|[Hin|[]]]; discriminate.
Qed.

(** C7.  A validated send issues exactly one [fetch], and every [fetch]
    that [handleSendPush] issues is a POST to
    [https://fcm.googleapis.com/fcm/send] with the header
    [Authorization: key=<trimmed server key>] and, as body, the JSON text
    of an object whose [to] is the trimmed target token. *)
Theorem test_push_request (e : env) (s : State) (st : Storage) :
  let r := handleSendPush e s st in
  (forall v, validated s v ->
             List.filter is_fetch (trace r) = [Fetch (push_request s v)])
  /\ (forall req,
        In (Fetch req) (trace r) ->
        url req = "https://fcm.googleapis.com/fcm/send" /\
        method req = "POST" /\
        In ("Authorization", ("key=" +:+ trim (serverKey s))%string) (headers req) /\
        exists fields,
          request_body req = JSON_stringify (JObj fields) /\
          get_field "to" fields = JStr (trim (targetToken s))).
Proof.
  cbv zeta.
  assert (Hfilter : forall v, validated s v ->
            List.filter is_fetch (trace (handleSendPush e s st))
            = [Fetch (push_request s v)]).
  { intros v Hv. rewrite (send_attempt_reply e s st v Hv).
    destruct (fetch e (push_request s v)) as [response|err]; [|reflexivity].
    by destruct (send_failure (Returns response)). }
  split; [exact Hfilter|].
  intros req Hin.
  assert (Hreq : exists v, req = push_request s v).
  { destruct (validation_cases s) as [Hbad|[v Hv]].
    - destruct (send_rejected_reply e s st Hbad) as [msg Hr]. rewrite Hr in Hin.
      destruct Hin as [Hin|[Hin|[]]]; discriminate.
    - exists v.
      assert (Hf : In (Fetch req) (List.filter is_fetch (trace (handleSendPush e s st)))).
      { apply filter_In. by split. }
      rewrite (Hfilter v Hv) in Hf. destruct Hf as [[= ->]|[]]. reflexivity. }
  destruct Hreq as [v ->]. cbn.
  split; [reflexivity|]. split; [reflexivity|]. split; [auto|].
  eexists. split; [reflexivity|]. reflexivity.
Qed.

(** C6.  When a validated send fails, [handleSendPush] appends the error
    status and stores a description of the error in [sendResult]: the
    message of the rejection of [fetch] or of [text()], or
    ['오류가 발생했습니다.'] when it has none, and for a response that is
    not ok the text ['FCM 전송 실패 (<status>): <response text>'].  Only a
    response that is ok stores the response text itself, with the success
    status.  Whenever the handler sets the [sending] flag, or finds it
    clear, the flag is false once the handler is done. *)
Theorem send_failure_is_reported (e : env) (s : State) (st : Storage) :
  let r := handleSendPush e s st in
  let described (err : exn) :=
    match message err with
    | Some m => m
    | None => "오류가 발생했습니다."
    end in
  let failed (description : string) :=
    [SetSendResult ""; SetSending true;
     AppendStatus error
       "푸시 전송 요청 중 오류가 발생했습니다. 브라우저에서 CORS로 인해 실패할 수 있으며, 이 경우 서버 사이드 프록시를 이용해야 합니다.";
     SetSendResult description;
     SetSending false] in
  (forall v err,
      validated s v ->
      fetch e (push_request s v) = Raises err ->
      updates_of (trace r) = failed (described err))
  /\ (forall v response err,
        validated s v ->
        fetch e (push_request s v) = Returns response ->
        response_text response = Raises err ->
        updates_of (trace r) = failed (described err))
  /\ (forall v response resultText,
        validated s v ->
        fetch e (push_request s v) = Returns response ->
        response_text response = Returns resultText ->
        ok response = false ->
        updates_of (trace r)
        = failed ("FCM 전송 실패 (" +:+ pretty (status response) +:+ "): " +:+ resultText))
  /\ (forall v response resultText,
        validated s v ->
        fetch e (push_request s v) = Returns response ->
        response_text response = Returns resultText ->
        ok response = true ->
        updates_of (trace r)
        = [SetSendResult ""; SetSending true;
           SetSendResult resultText;
           AppendStatus success "푸시 메시지 전송 요청을 완료했습니다.";
           SetSending false])
  /\ (forall now s0,
        In (SetState (SetSending true)) (trace r) \/ sending s0 = false ->
        sending (apply_updates now (updates_of (trace r)) s0) = false).
Proof.
  cbv zeta. split; [|split; [|split; [|split]]].
  - intros v err Hv Hf. rewrite (send_attempt_reply e s st v Hv), Hf. reflexivity.
  - intros v response err Hv Hf Ht. rewrite (send_attempt_reply e s st v Hv), Hf.
    unfold send_failure. rewrite Ht. reflexivity.
  - intros v response resultText Hv Hf Ht Hok.
    rewrite (send_attempt_reply e s st v Hv), Hf.
    unfold send_failure. rewrite Ht, Hok. reflexivity.
  - intros v response resultText Hv Hf Ht Hok.
    rewrite (send_attempt_reply e s st v Hv), Hf.
    unfold send_failure. rewrite Ht, Hok. reflexivity.
  - intros now s0 Hcase.
    destruct (validation_cases s) as [Hbad|[v Hv]].
    + destruct (send_rejected_reply e s st Hbad) as [msg Hr]. rewrite Hr in *.
      destruct Hcase as [[Hin|[Hin|[]]]|Hs0]; try discriminate.
      cbn. by destruct s0.
    + rewrite (send_attempt_reply e s st v Hv).
      destruct (fetch e (push_request s v)) as [response|err].
      * destruct (send_failure (Returns response));
          apply (sending_after now [_; _; _; _]).
      * apply (sending_after now [_; _; _; _]).
Qed.

End Page.

(** C1, as stated, fails: a registration that exists while its worker is
    still installing is returned without any message being posted. *)
Lemma existing_registration_without_message :
  let r := ensureServiceWorkerRegistration Examples.env_installing
             Examples.initialised Examples.storage0 in
  getRegistration Examples.env_installing
  = Returns (Some (Examples.registration7 Examples.only_installing))
  /\ outcome r = Done (Examples.registration7 Examples.only_installing)
  /\ posts (trace r) = [].
Proof. cbv zeta. split; [reflexivity | split; reflexivity]. Qed.

Lemma ensureServiceWorkerRegistration_state_check_witness :
  let r := ensureServiceWorkerRegistration Examples.env0
             Examples.initialised Examples.storage0 in
  outcome r = Done (Examples.registration7 Examples.only_active)
  /\ posts (trace r)
     = [PostMessage Examples.worker1 (INIT_FIREBASE Examples.config1)].
Proof.
  destruct (ensureServiceWorkerRegistration_state_check Examples.env0
              Examples.initialised Examples.storage0) as (_ & _ & Hfresh).
  destruct (Hfresh eq_refl eq_refl (Examples.registration7 Examples.only_installing) eq_refl)
    as (_ & _ & Hwait & _).
  apply (Hwait [(installed, Examples.only_waiting); (activating, Examples.only_active)]
               Examples.only_active []).
  - reflexivity.
  - repeat constructor; discriminate.
Defined.

(** On the reference engine the round trip needs no assumption on JSON:
    whatever the settings, what [saveSettings] stored is what
    [loadSavedSettings] returns. *)
Theorem settings_round_trip_reference
  (c : FirebaseConfig) (vapid server : string) (st : Storage) :
  outcome (saveSettings (H := Reference.platform) c vapid server st) = Done tt ->
  outcome (loadSavedSettings (H := Reference.platform)
             (final (saveSettings (H := Reference.platform) c vapid server st)))
  = Done (settings_value c vapid server).
Proof.
  intros Hsaved. unfold saveSettings in *.
  destruct (localStorage_setItem_done _ _ _ Hsaved) as [Ha ->].
  erewrite (loadSavedSettings_stored (H := Reference.platform));
    [reflexivity | exact Ha | | | ].
  - cbn. apply lookup_insert_eq.
  - apply ReferenceFacts.stringify_settings_nonempty.
  - apply ReferenceFacts.parse_settings.
Qed.

Lemma settings_round_trip_witness :
  outcome (loadSavedSettings (H := Reference.platform)
             (final (saveSettings (H := Reference.platform)
                       Examples.config1 "BBO-vapid" "AAAA-key" Examples.storage0)))
  = Done (JObj [("config",
                  JObj [("apiKey", JStr "key");
                        ("authDomain", JStr "demo.firebaseapp.com");
                        ("projectId", JStr "demo");
                        ("storageBucket", JStr "demo.appspot.com");
                        ("messagingSenderId", JStr "1234567890");
                        ("appId", JStr "1:1234567890:web:abc")]);
                ("vapidKey", JStr "BBO-vapid");
                ("serverKey", JStr "AAAA-key")]).
Proof.
  apply (settings_round_trip (H := Reference.platform)).
  - vm_compute. reflexivity.
  - vm_compute. discriminate.
  - vm_compute. reflexivity.
Defined.



Lemma permission_denied_stops_witness :
  trace (handleRequestPermissionAndToken (H := Reference.platform)
           (Examples.with_permission (Returns "denied") Examples.env0)
           Examples.initialised Examples.storage0)
  = [RequestPermission;
     SetState (AppendStatus error
                 "알림 권한을 허용하지 않아 토큰을 발급할 수 없습니다.")].
Proof.
  destruct (permission_denied_stops (H := Reference.platform)
              (Examples.with_permission (Returns "denied") Examples.env0)
              Examples.initialised Examples.storage0
              {| app := {| options := Examples.config1 |} |} "denied")
    as (Htrace & _).
  - reflexivity.
  - vm_compute. reflexivity.
  - reflexivity.
  - reflexivity.
  - discriminate.
  - exact Htrace.
Defined.

Lemma send_validation_is_atomic_witness :
  exists msg,
    trace (handleSendPush (H := Reference.platform) Examples.env0
             Examples.bad_data Examples.storage0)
    = [SetState (SetSendResult ""); SetState (AppendStatus error msg)].
Proof.
  destruct (send_validation_is_atomic (H := Reference.platform) Examples.env0
              Examples.bad_data Examples.storage0) as (Htrace & _).
  - right. right. split; vm_compute; reflexivity.
  - exact Htrace.
Defined.

Lemma test_push_request_witness :
  let req := push_request (H := Reference.platform) Examples.ready_to_send
               (JObj [("foo", JStr "bar")]) in
  url req = "https://fcm.googleapis.com/fcm/send"
  /\ method req = "POST"
  /\ In ("Authorization", "key=AAAA-key") (headers req)
  /\ exists fields,
       request_body req = Reference.stringify (JObj fields) /\
       get_field "to" fields = JStr "device-token".
Proof.
  destruct (test_push_request (H := Reference.platform) Examples.env0
              Examples.ready_to_send Examples.storage0) as [_ Hshape].
  apply Hshape. vm_compute. right. right. left. reflexivity.
Defined.

Lemma send_failure_is_reported_witness :
  updates_of (trace (handleSendPush (H := Reference.platform)
                       (Examples.with_fetch (fun _ => Raises (Error "Failed to fetch"))
                          Examples.env0)
                       Examples.ready_to_send Examples.storage0))
  = [SetSendResult ""; SetSending true;
     AppendStatus error
       "푸시 전송 요청 중 오류가 발생했습니다. 브라우저에서 CORS로 인해 실패할 수 있으며, 이 경우 서버 사이드 프록시를 이용해야 합니다.";
     SetSendResult "Failed to fetch";
     SetSending false]
  /\ updates_of (trace (handleSendPush (H := Reference.platform)
                          (Examples.with_fetch
                             (fun _ => Returns {| ok := false; status := 401%N;
                                                  response_text := Returns "denied" |})
                             Examples.env0)
                          Examples.ready_to_send Examples.storage0))
     = [SetSendResult ""; SetSending true;
        AppendStatus error
          "푸시 전송 요청 중 오류가 발생했습니다. 브라우저에서 CORS로 인해 실패할 수 있으며, 이 경우 서버 사이드 프록시를 이용해야 합니다.";
        SetSendResult "FCM 전송 실패 (401): denied";
        SetSending false].
Proof.
  split.
  - destruct (send_failure_is_reported (H := Reference.platform)
                (Examples.with_fetch (fun _ => Raises (Error "Failed to fetch"))
                   Examples.env0)
                Examples.ready_to_send Examples.storage0) as [Hfail _].
    apply (Hfail (JObj [("foo", JStr "bar")]) (Error "Failed to fetch")).
    + repeat split; vm_compute; reflexivity.
    + reflexivity.
  - destruct (send_failure_is_reported (H := Reference.platform)
                (Examples.with_fetch
                   (fun _ => Returns {| ok := false; status := 401%N;
                                        response_text := Returns "denied" |})
                   Examples.env0)
                Examples.ready_to_send Examples.storage0) as (_ & _ & Hnot_ok & _).
    apply (Hnot_ok (JObj [("foo", JStr "bar")])
             {| ok := false; status := 401%N; response_text := Returns "denied" |}
             "denied").
    + repeat split; vm_compute; reflexivity.
    + reflexivity.
    + reflexivity.
    + reflexivity.
Defined.

End AppFacts.

(** * Further properties *)

(** ** The service worker *)

Module MessagingSwMore.
Import MessagingSw.

(** What one call of [initializeMessaging] does with an object config. *)
Lemma initializeMessaging_object k config s :
  is_object config = true ->
  let apps' := match firebase_apps s with [] => [config] | l => l end in
  let t0 := match firebase_apps s with [] => [InitializeApp config] | _ => [] end in
  let a := hd config (firebase_apps s) in
  initializeMessaging k config s
  = if isSupported k then
      if messaging_accepts k a then
        Reply (t0 ++ [IsSupported; GetMessaging]
                  ++ (if backgroundHandlerRegistered s then [] else [OnBackgroundMessage]))
              (State apps' (Some (MessagingOf a)) true) (Done tt)
      else
        Reply (t0 ++ [IsSupported; GetMessaging])
              (State apps' (messagingInstance s) (backgroundHandlerRegistered s))
              (Threw (Error "Missing App configuration value"))
    else
      Reply (t0 ++ [IsSupported])
            (State apps' (messagingInstance s) (backgroundHandlerRegistered s)) (Done tt).
Proof.
  intros Ho. unfold initializeMessaging.
  rewrite MessagingSwFacts.is_object_guard, Ho. simpl.
  destruct s as [apps mi flag]. destruct k as [sup acc].
  destruct apps as [|a0 apps]; destruct sup; simpl;
    unfold bind, firebase_messaging, bind, get, call; simpl; try reflexivity.
  - destruct (acc config), flag; reflexivity.
  - destruct (acc a0), flag; reflexivity.
Qed.

Lemma initializeMessaging_other k config s :
  is_object config = false ->
  initializeMessaging k config s = Reply [] s (Done tt).
Proof.
  intros Ho. unfold initializeMessaging.
  by rewrite MessagingSwFacts.is_object_guard, Ho.
Qed.

(** Every message is either ignored or handed to [initializeMessaging] with
    an object config. *)
Lemma onMessage_cases k data s :
  onMessage k data s = Reply [] s (Done tt)
  \/ exists config, is_object config = true /\
                    onMessage k data s = initializeMessaging k config s.
Proof.
  unfold onMessage. destruct (strict_eq_str _ _) eqn:Ht; [|by left].
  destruct (member data "config") as [config|] eqn:Hc.
  - destruct (is_object config) eqn:Ho.
    + right. by exists config.
    + left. by apply initializeMessaging_other.
  - apply MessagingSwFacts.strict_eq_str_true in Ht.
    destruct data; simpl in *; discriminate.
Qed.

Lemma onPush_cases data s :
  onPush data s = Reply [] s (Done tt)
  \/ onPush data s = Reply [ConsoleError] s (Done tt)
  \/ exists title options,
       onPush data s = Reply [ShowNotification title options; WaitUntil] s (Done tt).
Proof.
  unfold onPush, bind, get; simpl.
  destruct (messagingInstance s); [by left|].
  destruct data as [[[v|]]|]; [| |by left].
  - unfold try_catch, bind; simpl.
    destruct (member v "notification"); simpl; eauto.
  - right. by left.
Qed.

Lemma backgroundMessageHandler_cases payload s :
  backgroundMessageHandler payload s = Reply [] s (Threw TypeError)
  \/ exists title options,
       backgroundMessageHandler payload s
       = Reply [ShowNotification title options] s (Done tt).
Proof.
  unfold backgroundMessageHandler.
  destruct (member payload "notification"); [right; eauto | by left].
Qed.

(** X1.  The ['push'] listener never throws and never touches the worker's
    variables, whatever the event carries: each failure inside it is caught
    and logged. *)
Theorem push_listener_is_contained (data : option PushMessageData) (s : state) :
  outcome (onPush data s) = Done tt
  /\ final (onPush data s) = s
  /\ (forall d, data = Some d -> messagingInstance s = None ->
                json d = None \/ json d = Some JNull \/ json d = Some JUndefined ->
                trace (onPush data s) = [ConsoleError]).
Proof.
  split; [|split].
  - destruct (onPush_cases data s) as [->|[->|(? & ? & ->)]]; reflexivity.
  - destruct (onPush_cases data s) as [->|[->|(? & ? & ->)]]; reflexivity.
  - intros d -> Hm Hj. unfold onPush, bind, get; simpl. rewrite Hm.
    destruct Hj as [Hj|[Hj|Hj]]; rewrite Hj; reflexivity.
Qed.

(** X2.  One event shows at most one notification, and a ['message'] event
    shows none. *)
Theorem at_most_one_notification_per_event (k : sdk) (e : event) (s : state) :
  length (shown (trace (dispatch k e s))) <= 1
  /\ (forall data, e = MessageEvent data -> shown (trace (dispatch k e s)) = []).
Proof.
  assert (Hmsg : forall data, shown (trace (onMessage k data s)) = []).
  { intros data. destruct (onMessage_cases k data s) as [->|(config & Ho & ->)];
      [reflexivity|].
    rewrite (initializeMessaging_object k config s Ho). cbv zeta.
    destruct (firebase_apps s); simpl; destruct (isSupported k); try reflexivity;
      destruct (messaging_accepts k _); try reflexivity;
      destruct (backgroundHandlerRegistered s); reflexivity. }
  split.
  - destruct e as [data|data|payload]; simpl.
    + rewrite Hmsg. simpl. lia.
    + destruct (onPush_cases data s) as [->|[->|(? & ? & ->)]]; simpl; lia.
    + unfold bind, get; simpl. destruct (backgroundHandlerRegistered s); simpl; [|lia].
      destruct (backgroundMessageHandler_cases payload s) as [->|(? & ? & ->)];
        simpl; lia.
  - intros data ->. apply Hmsg.
Qed.

Import Reachable.

Lemma coherent_initial : coherent initial.
Proof. split; [simpl; lia | reflexivity]. Qed.

Lemma initializeMessaging_coherent k config s :
  coherent s -> coherent (final (initializeMessaging k config s)).
Proof.
  intros Hs. destruct (is_object config) eqn:Ho.
  2: { by rewrite initializeMessaging_other. }
  rewrite (initializeMessaging_object k config s Ho). cbv zeta.
  destruct s as [apps mi flag]. unfold coherent in *. simpl in *.
  destruct (isSupported k); [destruct (messaging_accepts k _) eqn:Ha|]; simpl.
  - destruct mi as [[a]|].
    + destruct Hs as [-> ->]. auto.
    + destruct Hs as [Hl ->]. destruct apps as [|a [|b apps]]; simpl in *; auto; lia.
  - destruct mi as [[a]|].
    + destruct Hs as [-> ->]. auto.
    + destruct Hs as [Hl ->]. destruct apps as [|a [|b apps]]; simpl in *; auto; lia.
  - destruct mi as [[a]|].
    + destruct Hs as [-> ->]. auto.
    + destruct Hs as [Hl ->]. destruct apps as [|a [|b apps]]; simpl in *; auto; lia.
Qed.

Lemma dispatch_coherent k e s : coherent s -> coherent (final (dispatch k e s)).
Proof.
  intros Hs. destruct e as [data|data|payload]; simpl.
  - destruct (onMessage_cases k data s) as [->|(config & _ & ->)]; [exact Hs|].
    by apply initializeMessaging_coherent.
  - destruct (onPush_cases data s) as [->|[->|(? & ? & ->)]]; exact Hs.
  - unfold bind, get; simpl. destruct (backgroundHandlerRegistered s); [|exact Hs].
    destruct (backgroundMessageHandler_cases payload s) as [->|(? & ? & ->)]; exact Hs.
Qed.

Lemma run_coherent evs s : coherent s -> coherent (snd (run evs s)).
Proof.
  revert s. induction evs as [|[k e] evs IH]; intros s Hs; [exact Hs|].
  simpl. specialize (IH _ (dispatch_coherent k e s Hs)).
  by destruct (run evs (final (dispatch k e s))).
Qed.

(** X3.  In every state the worker reaches from its start there is at most
    one Firebase app, and a messaging instance exists exactly when the
    background handler is registered; the instance is then that of the one
    app. *)
Theorem reachable_states_are_coherent (evs : list (sdk * event)) :
  let s := snd (run evs initial) in
  length (firebase_apps s) <= 1
  /\ (messagingInstance s <> None <-> backgroundHandlerRegistered s = true)
  /\ (forall a, messagingInstance s = Some (MessagingOf a) -> firebase_apps s = [a]).
Proof.
  cbv zeta. pose proof (run_coherent evs initial coherent_initial) as Hc.
  unfold coherent in Hc. destruct (messagingInstance (snd (run evs initial))) as [[a]|].
  - destruct Hc as [Ha Hf]. rewrite Ha, Hf. split; [simpl; lia|]. split.
    + split; [done | discriminate].
    + by intros ? [= <-].
  - destruct Hc as [Hl Hf]. rewrite Hf. split; [exact Hl|]. split.
    + split; [done | discriminate].
    + discriminate.
Qed.

Lemma initializations_app t1 t2 :
  initializations (t1 ++ t2) = initializations t1 + initializations t2.
Proof. unfold initializations. by rewrite List.filter_app, length_app. Qed.

Lemma dispatch_initializations k e s :
  initializations (trace (dispatch k e s)) + length (firebase_apps s)
  = length (firebase_apps (final (dispatch k e s))).
Proof.
  destruct e as [data|data|payload]; simpl.
  - destruct (onMessage_cases k data s) as [->|(config & Ho & ->)]; [reflexivity|].
    rewrite (initializeMessaging_object k config s Ho). cbv zeta.
    destruct (firebase_apps s); simpl; destruct (isSupported k); try reflexivity;
      destruct (messaging_accepts k _); try reflexivity;
      destruct (backgroundHandlerRegistered s); reflexivity.
  - destruct (onPush_cases data s) as [->|[->|(? & ? & ->)]]; reflexivity.
  - unfold bind, get; simpl. destruct (backgroundHandlerRegistered s); [|reflexivity].
    destruct (backgroundMessageHandler_cases payload s) as [->|(? & ? & ->)]; reflexivity.
Qed.

Lemma run_initializations evs s :
  initializations (fst (run evs s)) + length (firebase_apps s)
  = length (firebase_apps (snd (run evs s))).
Proof.
  revert s. induction evs as [|[k e] evs IH]; intros s; [reflexivity|].
  simpl. specialize (IH (final (dispatch k e s))).
  pose proof (dispatch_initializations k e s) as Hd.
  destruct (run evs (final (dispatch k e s))) as [t s']. simpl in *.
  rewrite initializations_app. lia.
Qed.

(** X4.  Over any run of the worker from its start [firebase.initializeApp]
    is called at most once, and exactly as often as there are apps in the
    end. *)
Theorem app_initialized_at_most_once (evs : list (sdk * event)) :
  initializations (fst (run evs initial))
  = length (firebase_apps (snd (run evs initial)))
  /\ initializations (fst (run evs initial)) <= 1.
Proof.
  pose proof (run_initializations evs initial) as Hi. simpl in Hi.
  pose proof (run_coherent evs initial coherent_initial) as Hc.
  unfold coherent in Hc.
  destruct (messagingInstance (snd (run evs initial))) as [[a]|].
  - destruct Hc as [Ha _]. rewrite Ha in *. simpl in *. lia.
  - destruct Hc as [Hl _]. lia.
Qed.

Lemma dispatch_keeps_apps k e s :
  firebase_apps s <> [] -> firebase_apps (final (dispatch k e s)) = firebase_apps s.
Proof.
  intros Hne. destruct e as [data|data|payload]; simpl.
  - destruct (onMessage_cases k data s) as [->|(config & Ho & ->)]; [reflexivity|].
    rewrite (initializeMessaging_object k config s Ho). cbv zeta.
    destruct (firebase_apps s); [done|]. simpl. destruct (isSupported k); try reflexivity.
    by destruct (messaging_accepts k _).
  - destruct (onPush_cases data s) as [->|[->|(? & ? & ->)]]; reflexivity.
  - unfold bind, get; simpl. destruct (backgroundHandlerRegistered s); [|reflexivity].
    destruct (backgroundMessageHandler_cases payload s) as [->|(? & ? & ->)]; reflexivity.
Qed.

(** X5.  The first config wins: once an app exists no event changes
    [firebase.apps], so an [INIT_FIREBASE] message with another config is
    not applied, and [initializeApp] is not called again. *)
Theorem first_config_wins (evs : list (sdk * event)) (s : state) :
  firebase_apps s <> [] ->
  firebase_apps (snd (run evs s)) = firebase_apps s
  /\ initializations (fst (run evs s)) = 0.
Proof.
  intros Hne.
  assert (Ha : firebase_apps (snd (run evs s)) = firebase_apps s).
  { revert s Hne. induction evs as [|[k e] evs IH]; intros s Hne; [reflexivity|].
    simpl. pose proof (dispatch_keeps_apps k e s Hne) as Hd.
    specialize (IH (final (dispatch k e s))).
    destruct (run evs (final (dispatch k e s))) as [t s']. simpl in *.
    rewrite IH; [exact Hd | by rewrite Hd]. }
  split; [exact Ha|].
  pose proof (run_initializations evs s) as Hi. rewrite Ha in Hi. lia.
Qed.

Lemma first_config_wins_witness :
  firebase_apps
    (snd (run [(full_sdk,
                MessageEvent (JObj [("type", JStr "INIT_FIREBASE");
                                    ("config", JObj [("projectId", JStr "other")])]))]
              Examples.worker_initialised))
  = [App.config_value Examples.config1].
Proof.
  apply (first_config_wins
           [(full_sdk,
             MessageEvent (JObj [("type", JStr "INIT_FIREBASE");
                                 ("config", JObj [("projectId", JStr "other")])]))]
           Examples.worker_initialised).
  discriminate.
Defined.

Lemma dispatch_keeps_instance k e s :
  messagingInstance s <> None -> messagingInstance (final (dispatch k e s)) <> None.
Proof.
  intros Hm. destruct e as [data|data|payload]; simpl.
  - destruct (onMessage_cases k data s) as [->|(config & Ho & ->)]; [exact Hm|].
    rewrite (initializeMessaging_object k config s Ho). cbv zeta.
    destruct (isSupported k); [destruct (messaging_accepts k _)|]; simpl;
      [discriminate | exact Hm | exact Hm].
  - destruct (onPush_cases data s) as [->|[->|(? & ? & ->)]]; exact Hm.
  - unfold bind, get; simpl. destruct (backgroundHandlerRegistered s); [|exact Hm].
    destruct (backgroundMessageHandler_cases payload s) as [->|(? & ? & ->)]; exact Hm.
Qed.

(** X6.  A messaging instance, once created, is never dropped, and from then
    on the ['push'] listener is switched off for good: a run of push events
    calls nothing and changes nothing. *)
Theorem push_fallback_stays_off (evs : list (sdk * event)) (s : state) :
  messagingInstance s <> None ->
  messagingInstance (snd (run evs s)) <> None
  /\ (forallb (fun ke => is_push (snd ke)) evs = true -> run evs s = ([], s)).
Proof.
  intros Hm. split.
  - revert s Hm. induction evs as [|[k e] evs IH]; intros s Hm; [exact Hm|].
    simpl. specialize (IH _ (dispatch_keeps_instance k e s Hm)).
    by destruct (run evs (final (dispatch k e s))).
  - induction evs as [|[k e] evs IH]; [reflexivity|].
    simpl. intros [He Hrest]%andb_prop. destruct e as [|data|]; try discriminate.
    simpl. rewrite MessagingSwFacts.push_gated by exact Hm. simpl.
    by rewrite (IH Hrest).
Qed.

Lemma push_fallback_stays_off_witness :
  run [(full_sdk, PushEvent (Some (PushData (Some Examples.push_payload1))));
       (full_sdk, PushEvent None)] Examples.worker_initialised
  = ([], Examples.worker_initialised).
Proof.
  apply (push_fallback_stays_off
           [(full_sdk, PushEvent (Some (PushData (Some Examples.push_payload1))));
            (full_sdk, PushEvent None)] Examples.worker_initialised).
  - discriminate.
  - reflexivity.
Defined.

Lemma dispatch_unsupported k e s :
  isSupported k = false ->
  messagingInstance (final (dispatch k e s)) = messagingInstance s
  /\ backgroundHandlerRegistered (final (dispatch k e s)) = backgroundHandlerRegistered s
  /\ none is_getMessaging (trace (dispatch k e s)) = true
  /\ registrations (trace (dispatch k e s)) = 0.
Proof.
  intros Hk. destruct e as [data|data|payload]; simpl.
  - destruct (onMessage_cases k data s) as [->|(config & Ho & ->)]; [by repeat split|].
    rewrite (initializeMessaging_object k config s Ho). cbv zeta. rewrite Hk.
    by destruct (firebase_apps s).
  - destruct (onPush_cases data s) as [->|[->|(? & ? & ->)]]; by repeat split.
  - unfold bind, get; simpl. destruct (backgroundHandlerRegistered s) eqn:Hf;
      [|by repeat split].
    destruct (backgroundMessageHandler_cases payload s) as [->|(? & ? & ->)];
      simpl; rewrite ?Hf; by repeat split.
Qed.

(** X7.  While the SDK reports messaging as unsupported the worker never
    asks for a messaging instance and never registers a background handler,
    so the ['push'] listener stays in charge. *)
Theorem unsupported_keeps_fallback (evs : list (sdk * event)) (s : state) :
  forallb (fun ke => negb (isSupported (fst ke))) evs = true ->
  messagingInstance (snd (run evs s)) = messagingInstance s
  /\ backgroundHandlerRegistered (snd (run evs s)) = backgroundHandlerRegistered s
  /\ none is_getMessaging (fst (run evs s)) = true
  /\ registrations (fst (run evs s)) = 0.
Proof.
  revert s. induction evs as [|[k e] evs IH]; intros s Hall; [by repeat split|].
  simpl in Hall. apply andb_prop in Hall as [Hk Hrest]. apply negb_true_iff in Hk.
  simpl. destruct (dispatch_unsupported k e s Hk) as (Hm & Hf & Hg & Hr).
  destruct (IH (final (dispatch k e s)) Hrest) as (Hm' & Hf' & Hg' & Hr').
  destruct (run evs (final (dispatch k e s))) as [t s']. simpl in *.
  rewrite Hm', Hf', Hm, Hf. split; [reflexivity|]. split; [reflexivity|]. split.
  - unfold none in *. by rewrite forallb_app, Hg, Hg'.
  - by rewrite MessagingSwFacts.registrations_app, Hr, Hr'.
Qed.

Lemma unsupported_keeps_fallback_witness :
  messagingInstance
    (snd (run [(Sdk false (fun _ => true), MessageEvent Examples.init_message);
               (Sdk false (fun _ => true), MessageEvent Examples.init_message)]
              initial)) = None.
Proof.
  apply (unsupported_keeps_fallback
           [(Sdk false (fun _ => true), MessageEvent Examples.init_message);
            (Sdk false (fun _ => true), MessageEvent Examples.init_message)] initial).
  reflexivity.
Defined.

(** X8.  Asking again is harmless: a second [initializeMessaging] with the
    same config and the same SDK answers leaves the worker as the first one
    left it, without a second [initializeApp] or a second registration. *)
Theorem initializeMessaging_twice (k : sdk) (config : jsval) (s : state) :
  let once := initializeMessaging k config s in
  let twice := initializeMessaging k config (final once) in
  final twice = final once
  /\ initializations (trace twice) = 0
  /\ registrations (trace twice) = 0.
Proof.
  cbv zeta. destruct (is_object config) eqn:Ho.
  2: { by rewrite !initializeMessaging_other. }
  rewrite (initializeMessaging_object k config s Ho). cbv zeta.
  destruct s as [apps mi flag]. simpl.
  destruct (isSupported k) eqn:Hk.
  - destruct apps as [|a apps]; simpl.
    + destruct (messaging_accepts k config) eqn:Ha;
        rewrite (initializeMessaging_object k config _ Ho); cbv zeta; simpl;
        rewrite Hk, Ha; by repeat split.
    + destruct (messaging_accepts k a) eqn:Ha;
        rewrite (initializeMessaging_object k config _ Ho); cbv zeta; simpl;
        rewrite Hk, Ha; by repeat split.
  - rewrite (initializeMessaging_object k config _ Ho). cbv zeta. simpl. rewrite Hk.
    destruct apps; by repeat split.
Qed.

(** X9.  The message the page posts is one the worker acts on: for every
    Firebase config, the [INIT_FIREBASE] message built by
    [ensureServiceWorkerRegistration] makes a fresh worker initialise the app
    with that config, create the messaging instance and register the
    background handler, when the SDK supports messaging and accepts the
    app. *)
Theorem page_message_initialises_worker (k : sdk) (c : App.FirebaseConfig) :
  isSupported k = true ->
  messaging_accepts k (App.config_value c) = true ->
  onMessage k (App.INIT_FIREBASE c) initial
  = Reply [InitializeApp (App.config_value c); IsSupported; GetMessaging;
           OnBackgroundMessage]
          (State [App.config_value c] (Some (MessagingOf (App.config_value c))) true)
          (Done tt).
Proof.
  intros Hk Ha.
  rewrite (MessagingSwFacts.onMessage_init k _ (App.config_value c)); [|by repeat split].
  rewrite initializeMessaging_object by reflexivity. cbv zeta. simpl.
  by rewrite Hk, Ha.
Qed.

Lemma page_message_initialises_worker_witness :
  final (onMessage full_sdk (App.INIT_FIREBASE Examples.config1) initial)
  = State [App.config_value Examples.config1]
          (Some (MessagingOf (App.config_value Examples.config1))) true.
Proof.
  by rewrite (page_message_initialises_worker full_sdk Examples.config1 eq_refl eq_refl).
Defined.

(** X10.  When [firebase.messaging()] throws, the listener ends in that
    exception after the app was initialised: no instance is stored and no
    handler registered, so a worker without an instance keeps showing raw
    pushes itself. *)
Theorem rejected_app_leaves_fallback (k : sdk) (config : jsval) (s : state) :
  is_object config = true ->
  isSupported k = true ->
  messaging_accepts k (hd config (firebase_apps s)) = false ->
  let r := initializeMessaging k config s in
  (exists err, outcome r = Threw err)
  /\ firebase_apps (final r) = match firebase_apps s with [] => [config] | l => l end
  /\ messagingInstance (final r) = messagingInstance s
  /\ backgroundHandlerRegistered (final r) = backgroundHandlerRegistered s
  /\ registrations (trace r) = 0.
Proof.
  intros Ho Hk Ha. cbv zeta. rewrite (initializeMessaging_object k config s Ho).
  cbv zeta. rewrite Hk, Ha. simpl. split; [eauto|]. repeat split.
  by destruct (firebase_apps s).
Qed.

Lemma rejected_app_leaves_fallback_witness :
  messagingInstance
    (final (initializeMessaging (Sdk true (fun _ => false)) (JObj []) initial)) = None
  /\ firebase_apps
       (final (initializeMessaging (Sdk true (fun _ => false)) (JObj []) initial))
     = [JObj []].
Proof.
  destruct (rejected_app_leaves_fallback (Sdk true (fun _ => false)) (JObj []) initial
              eq_refl eq_refl eq_refl) as (_ & Ha & Hm & _).
  split; [exact Hm | exact Ha].
Defined.

End MessagingSwMore.

(** ** Outcomes through the combinators *)

Section OutcomeLemmas.
Context {St Ev : Type}.

Section Keeps.
Context (R : St -> St -> Prop) (HR : PreOrder R).

Lemma keeps_ret {A} (a : A) : keeps R (ret a : Eff St Ev A).
Proof using HR. intros st. simpl. reflexivity. Qed.

Lemma keeps_throw {A} e : keeps R (throw e : Eff St Ev A).
Proof using HR. intros st. simpl. reflexivity. Qed.

Lemma keeps_never {A} : keeps R (never : Eff St Ev A).
Proof using HR. intros st. simpl. reflexivity. Qed.

Lemma keeps_call {A} ev (ans : result A) : keeps R (call ev ans : Eff St Ev A).
Proof using HR. intros st. simpl. reflexivity. Qed.

Lemma keeps_emit ev : keeps R (emit ev : Eff St Ev unit).
Proof using HR. apply keeps_call. Qed.

Lemma keeps_bind {A B} (m : Eff St Ev A) (k : A -> Eff St Ev B) :
  keeps R m -> (forall a, keeps R (k a)) -> keeps R (bind m k).
Proof using HR.
  intros Hm Hk st. unfold bind. specialize (Hm st).
  destruct (m st) as [t s' [a|e|]]; simpl in *; try exact Hm.
  specialize (Hk a s'). destruct (k a s'). simpl in *. by etrans.
Qed.

Lemma keeps_try_catch {A} (m : Eff St Ev A) h :
  keeps R m -> (forall e, keeps R (h e)) -> keeps R (try_catch m h).
Proof using HR.
  intros Hm Hh st. unfold try_catch. specialize (Hm st).
  destruct (m st) as [t s' [a|e|]]; simpl in *; try exact Hm.
  specialize (Hh e s'). destruct (h e s'). simpl in *. by etrans.
Qed.

Lemma keeps_try_finally {A} (m : Eff St Ev A) fin :
  keeps R m -> keeps R fin -> keeps R (try_finally m fin).
Proof using HR.
  intros Hm Hf st. unfold try_finally. specialize (Hm st).
  destruct (m st) as [t s' [a|e|]]; simpl in *; try exact Hm;
    specialize (Hf s'); destruct (fin s') as [t' s'' [[]|e'|]]; simpl in *; by etrans.
Qed.
End Keeps.

Lemma only_ret {A} G (a : A) : only G (ret a : Eff St Ev A).
Proof. intros st. reflexivity. Qed.

Lemma only_throw {A} G e : only G (throw e : Eff St Ev A).
Proof. intros st. reflexivity. Qed.

Lemma only_never {A} G : only G (never : Eff St Ev A).
Proof. intros st. reflexivity. Qed.

Lemma only_get G : only G (get : Eff St Ev St).
Proof. intros st. reflexivity. Qed.

Lemma only_put G s : only G (put s : Eff St Ev unit).
Proof. intros st. reflexivity. Qed.

Lemma only_call {A} (G : Ev -> bool) ev (ans : result A) :
  G ev = true -> only G (call ev ans : Eff St Ev A).
Proof. intros HG st. simpl. by rewrite HG. Qed.

Lemma only_emit (G : Ev -> bool) ev : G ev = true -> only G (emit ev : Eff St Ev unit).
Proof. apply only_call. Qed.

Lemma only_bind {A B} G (m : Eff St Ev A) (k : A -> Eff St Ev B) :
  only G m -> (forall a, only G (k a)) -> only G (bind m k).
Proof.
  intros Hm Hk st. rewrite trace_bind, forallb_app, Hm.
  destruct (outcome (m st)); simpl; auto. apply Hk.
Qed.

Lemma only_try_catch {A} G (m : Eff St Ev A) h :
  only G m -> (forall e, only G (h e)) -> only G (try_catch m h).
Proof.
  intros Hm Hh st. rewrite trace_try_catch, forallb_app, Hm.
  destruct (outcome (m st)); simpl; auto. apply Hh.
Qed.

Lemma only_try_finally {A} G (m : Eff St Ev A) fin :
  only G m -> only G fin -> only G (try_finally m fin).
Proof.
  intros Hm Hf st. rewrite trace_try_finally, forallb_app, Hm.
  destruct (outcome (m st)); simpl; auto; apply Hf.
Qed.
End OutcomeLemmas.

(** ** The page *)

Module AppMore.
Import App Vocabulary.

Section Page.
Context `{Platform}.

(** X11.  [loadSavedSettings] always returns and leaves the storage as it
    is; it returns [null] when the storage cannot be read, when nothing or
    an empty text is stored under the key, and when the stored text is not
    JSON. *)
Theorem loadSavedSettings_is_total (st : Storage) :
  let r := loadSavedSettings st in
  (exists v, outcome r = Done v)
  /\ final r = st
  /\ (available st = false \/
      items st !! LOCAL_STORAGE_KEY = None \/
      items st !! LOCAL_STORAGE_KEY = Some "" \/
      (exists text, items st !! LOCAL_STORAGE_KEY = Some text /\
                    JSON_parse text = None) ->
      outcome r = Done JNull).
Proof.
  cbv zeta. unfold loadSavedSettings, localStorage_getItem, try_catch, bind, get, call.
  cbn. destruct (available st); cbn.
  2: { split; [eauto|]. split; auto. }
  destruct (items st !! LOCAL_STORAGE_KEY) as [text|] eqn:Hi; cbn.
  2: { split; [eauto|]. split; auto. }
  destruct (String.eqb_spec text "") as [->|Hne]; cbn.
  { split; [eauto|]. split; auto. }
  destruct (JSON_parse text) as [v|] eqn:Hp; cbn.
  - split; [eauto|]. split; [reflexivity|].
    intros [?|[?|[[= ->]|(t & [= <-] & Hn)]]]; try discriminate; congruence.
  - split; [eauto|]. split; auto.
Qed.

(** *** What [ensureServiceWorkerRegistration] leaves alone *)

Ltac unfold_handlers :=
  unfold handleInitializeFirebase, handleRequestPermissionAndToken, handleSendPush,
    ensureServiceWorkerRegistration, wait_for_activation, post_init,
    saveSettings, parseDataPayload, loadSavedSettings,
    appendStatus, set, await.

Ltac keeps_step :=
  first
    [ apply keeps_ret | apply keeps_throw | apply keeps_never
    | apply keeps_emit | apply keeps_call
    | apply keeps_bind; [ | | intros ? ]
    | apply keeps_try_catch; [ | | intros ? ]
    | apply keeps_try_finally
    | match goal with
      | |- keeps _ (if ?b then _ else _) => destruct b
      | |- keeps _ (match ?x with _ => _ end) => destruct x
      end ].

Lemma ensure_keeps_storage e s : keeps eq (ensureServiceWorkerRegistration e s).
Proof. unfold_handlers. repeat keeps_step; apply _. Qed.

Lemma ensure_storage e s st : final (ensureServiceWorkerRegistration e s st) = st.
Proof. symmetry. apply ensure_keeps_storage. Qed.

(** *** [handleInitializeFirebase], case by case *)

Ltac same_trace := cbn; repeat (rewrite <- app_assoc; cbn); reflexivity.

Lemma handleInitializeFirebase_reply e s st :
  let cfg := firebaseConfig s in
  let text := JSON_stringify (settings_value cfg (vapidKey s) (serverKey s)) in
  let st1 := {| items := <[LOCAL_STORAGE_KEY := text]> (items st);
                available := available st;
                accepts := accepts st |} in
  let head := [SetState (SetIsInitializing true); SetState (SetSendResult "");
               IsSupported] in
  let failed t stx err :=
    Reply (head ++ t
             ++ [ConsoleError;
                 SetState (AppendStatus error
                             (message_or "Firebase 초기화에 실패했습니다." err));
                 SetState (SetIsInitializing false)])
          stx (Done tt) in
  let apps := getApps e in
  let deleting := [SetItem LOCAL_STORAGE_KEY text; GetApps] ++ map DeleteApp apps in
  let cleared :=
    deleting
      ++ (if Nat.ltb 0 (length apps)
          then [SetState (AppendStatus info "기존 Firebase 앱 구성을 초기화했습니다.")]
          else []) in
  handleInitializeFirebase e s st
  = match isSupported e with
    | Raises err => failed [] st err
    | Returns false =>
        Reply (head
                 ++ [SetState (AppendStatus error
                                 "이 브라우저에서는 FCM 웹 푸시를 지원하지 않습니다.");
                     SetState (SetIsInitializing false)])
              st (Done tt)
    | Returns true =>
        if available st && accepts st LOCAL_STORAGE_KEY text then
          match first_failure e apps with
          | Threw err => failed deleting st1 err
          | Hung => Reply (head ++ deleting) st1 Hung
          | Done _ =>
              match initializeApp e cfg with
              | Raises err => failed (cleared ++ [InitializeApp cfg]) st1 err
              | Returns a =>
                  match getMessaging e a with
                  | Raises err =>
                      failed (cleared ++ [InitializeApp cfg; GetMessaging a]) st1 err
                  | Returns m =>
                      match ensureServiceWorkerRegistration e s st1 with
                      | Reply tsw _ (Done _) =>
                          Reply (head ++ cleared
                                   ++ [InitializeApp cfg; GetMessaging a] ++ tsw
                                   ++ [SetState (SetFirebaseApp (Some a));
                                       SetState (SetMessaging (Some m));
                                       SetState (AppendStatus success
                                         "Firebase 초기화 및 서비스 워커 구성이 완료되었습니다.");
                                       SetState (SetIsInitializing false)])
                                st1 (Done tt)
                      | Reply tsw _ (Threw err) =>
                          failed (cleared ++ [InitializeApp cfg; GetMessaging a] ++ tsw)
                                 st1 err
                      | Reply tsw _ Hung =>
                          Reply (head ++ cleared
                                   ++ [InitializeApp cfg; GetMessaging a] ++ tsw)
                                st1 Hung
                      end
                  end
              end
          end
        else failed [SetItem LOCAL_STORAGE_KEY text] st (Error "QuotaExceededError")
    end.
Proof.
  cbv zeta.
  unfold handleInitializeFirebase, saveSettings, localStorage_setItem, deleteAll,
    appendStatus, set, await, emit.
  unfold try_finally, try_catch, bind, call, get, put, ret.
  destruct (isSupported e) as [[]|err]; cbn [settle negb]; try reflexivity.
  destruct (available st && accepts st LOCAL_STORAGE_KEY _); cbn [settle]; [|reflexivity].
  destruct (getApps e) as [|a0 apps]; cbn [length Nat.ltb Nat.leb].
  - cbn [first_failure].
    destruct (initializeApp e (firebaseConfig s)) as [a|err]; cbn [settle]; [|reflexivity].
    destruct (getMessaging e a) as [m|err]; cbn [settle]; [|reflexivity].
    pose proof (ensure_storage e s) as Hst.
    match goal with
    | |- context [ensureServiceWorkerRegistration e s ?x] =>
        specialize (Hst x); destruct (ensureServiceWorkerRegistration e s x)
          as [tsw stsw [reg|err|]]
    end; simpl in Hst; subst stsw; same_trace.
  - destruct (first_failure e (a0 :: apps)) as [[]|err|]; cbn; try same_trace.
    destruct (initializeApp e (firebaseConfig s)) as [a|err]; cbn [settle];
      [|same_trace].
    destruct (getMessaging e a) as [m|err]; cbn [settle];
      [|same_trace].
    pose proof (ensure_storage e s) as Hst.
    match goal with
    | |- context [ensureServiceWorkerRegistration e s ?x] =>
        specialize (Hst x); destruct (ensureServiceWorkerRegistration e s x)
          as [tsw stsw [reg|err|]]
    end; simpl in Hst; subst stsw; same_trace.
Qed.

(** *** [handleRequestPermissionAndToken], case by case *)

Lemma handleRequestPermissionAndToken_reply e s st :
  let failed t err :=
    Reply (t ++ [ConsoleError;
                 SetState (AppendStatus error
                             (message_or "토큰 발급 중 오류가 발생했습니다." err))])
          st (Done tt) in
  handleRequestPermissionAndToken e s st
  = match messaging s with
    | None =>
        Reply [SetState (AppendStatus error
                 "Firebase 메시징이 초기화되지 않았습니다. 먼저 초기화를 진행해주세요.")]
              st (Done tt)
    | Some m =>
        if blank (vapidKey s) then
          Reply [SetState (AppendStatus error "VAPID 키를 입력해주세요.");
                 FocusVapidKeyInput] st (Done tt)
        else if has_Notification e then
          match requestPermission e with
          | Raises err => failed [RequestPermission] err
          | Returns permission =>
              if String.eqb permission "granted" then
                match ensureServiceWorkerRegistration e s st with
                | Reply tsw _ (Threw err) => failed ([RequestPermission] ++ tsw) err
                | Reply tsw _ Hung => Reply ([RequestPermission] ++ tsw) st Hung
                | Reply tsw _ (Done registration) =>
                    let asked :=
                      [RequestPermission] ++ tsw
                        ++ [GetToken m (trim (vapidKey s)) registration] in
                    match getToken e with
                    | Raises err => failed asked err
                    | Returns currentToken =>
                        if String.eqb currentToken "" then
                          Reply (asked
                                   ++ [SetState (AppendStatus error
                                                   "토큰 발급에 실패했습니다.")])
                                st (Done tt)
                        else
                          Reply (asked
                                   ++ [SetState (SetToken currentToken);
                                       SetState (SetTargetToken currentToken);
                                       SetState (AppendStatus success
                                                   "FCM 등록 토큰을 발급했습니다.")])
                                st (Done tt)
                    end
                end
              else
                Reply [RequestPermission;
                       SetState (AppendStatus error
                                   "알림 권한을 허용하지 않아 토큰을 발급할 수 없습니다.")]
                      st (Done tt)
          end
        else
          Reply [SetState (AppendStatus error
                             "이 브라우저에서는 알림 API를 지원하지 않습니다.")]
                st (Done tt)
    end.
Proof.
  cbv zeta. unfold handleRequestPermissionAndToken.
  destruct (messaging s) as [m|]; [|reflexivity].
  destruct (blank (vapidKey s)); [reflexivity|].
  unfold appendStatus, set, await, emit, try_catch, bind, call, ret.
  destruct (has_Notification e); cbn [negb]; [|reflexivity].
  destruct (requestPermission e) as [permission|err]; cbn [settle]; [|reflexivity].
  destruct (String.eqb permission "granted"); cbn [negb]; [|reflexivity].
  pose proof (ensure_storage e s st) as Hst.
  destruct (ensureServiceWorkerRegistration e s st) as [tsw stsw [registration|err|]];
    simpl in Hst; subst stsw; try same_trace.
  destruct (getToken e) as [currentToken|err]; cbn [settle]; [|same_trace].
  destruct (String.eqb currentToken ""); same_trace.
Qed.

(** *** Traces of the handlers, part by part *)

Lemma updates_of_app t1 t2 : updates_of (t1 ++ t2) = updates_of t1 ++ updates_of t2.
Proof. apply omap_app. Qed.

Ltac only_step :=
  first
    [ apply only_ret | apply only_throw | apply only_never
    | apply only_get | apply only_put
    | apply only_emit; reflexivity
    | apply only_call; reflexivity
    | apply only_bind; [ | intros ? ]
    | apply only_try_catch; [ | intros ? ]
    | apply only_try_finally
    | match goal with
      | |- only _ (if ?b then _ else _) => destruct b
      | |- only _ (match ?x with _ => _ end) => destruct x
      end ].

Lemma ensure_only_steps e s : only is_registration_step (ensureServiceWorkerRegistration e s).
Proof. unfold_handlers. repeat only_step. Qed.

Lemma steps_filter (P : effect -> bool) t :
  forallb is_registration_step t = true ->
  (forall ev, is_registration_step ev = true -> P ev = false) ->
  List.filter P t = [].
Proof.
  intros Ht HP. induction t as [|ev t IH]; [reflexivity|].
  simpl in Ht. apply andb_true_iff in Ht as [Hev Ht].
  simpl. rewrite (HP ev Hev). by apply IH.
Qed.

Lemma steps_updates t : forallb is_registration_step t = true -> updates_of t = [].
Proof.
  intros Ht. induction t as [|ev t IH]; [reflexivity|].
  simpl in Ht. apply andb_true_iff in Ht as [Hev Ht].
  unfold updates_of in *. destruct ev; try discriminate; simpl; by apply IH.
Qed.

Lemma deletions_filter (P : effect -> bool) apps :
  (forall a, P (DeleteApp a) = false) -> List.filter P (map DeleteApp apps) = [].
Proof.
  intros HP. induction apps as [|a apps IH]; [reflexivity|].
  simpl. by rewrite HP.
Qed.

Lemma deletions_kept (P : effect -> bool) apps :
  (forall a, P (DeleteApp a) = true) ->
  List.filter P (map DeleteApp apps) = map DeleteApp apps.
Proof.
  intros HP. induction apps as [|a apps IH]; [reflexivity|].
  simpl. by rewrite HP, IH.
Qed.

Lemma deletions_updates apps : updates_of (map DeleteApp apps) = [].
Proof. by induction apps. Qed.

Lemma first_failure_settles e apps : first_failure e apps <> Hung.
Proof.
  induction apps as [|a apps IH]; simpl; [discriminate|].
  by destruct (deleteApp e a).
Qed.

(** The registration only fails to settle while it waits for a worker that
    never reports ['activated']. *)
Lemma ensure_hung e s st :
  outcome (ensureServiceWorkerRegistration e s st) = Hung ->
  exists registration w,
    getRegistration e = Returns None /\
    register e = Returns registration /\
    awaited_worker (slots registration) = Some w /\
    first_activated (statechanges e) = None.
Proof.
  unfold ensureServiceWorkerRegistration, wait_for_activation, post_init, awaited_worker,
    await, bind, call, emit, ret, never, throw.
  destruct (has_serviceWorker e); cbn; [|discriminate].
  destruct (getRegistration e) as [[existing|]|err]; cbn; try discriminate.
  { by destruct (or_else _ _). }
  destruct (register e) as [registration|err]; cbn; [|discriminate].
  destruct (active (slots registration)) eqn:Ha; cbn.
  { rewrite Ha. discriminate. }
  destruct (or_else (installing (slots registration)) (waiting (slots registration)))
    as [w|] eqn:Hw; cbn.
  - destruct (first_activated (statechanges e)) as [now|] eqn:Hf; cbn.
    + by destruct (or_else (active now) (waiting now)).
    + intros _. exists registration, w. by rewrite Ha.
  - rewrite Ha. cbn. by destruct (waiting (slots registration)).
Qed.

(** The cases of [handleInitializeFirebase], each with what decided it. *)
Ltac init_cases e s st :=
  rewrite (handleInitializeFirebase_reply e s st); cbv zeta;
  destruct (isSupported e) as [[|]|err] eqn:Hsup;
  [ destruct (available st && accepts st LOCAL_STORAGE_KEY _) eqn:Hroom;
    [ destruct (first_failure e (getApps e)) as [[]|err|] eqn:Hdel;
      [ destruct (initializeApp e (firebaseConfig s)) as [a|err] eqn:Hinit;
        [ destruct (getMessaging e a) as [m|err] eqn:Hmsg;
          [ match goal with
            | |- context [ensureServiceWorkerRegistration e s ?x] =>
                pose proof (ensure_only_steps e s x) as Hreg;
                pose proof (ensure_hung e s x) as Hhung;
                destruct (ensureServiceWorkerRegistration e s x)
                  as [tsw ? [reg|err|]];
                simpl in Hreg, Hhung
            end
          | ]
        | ]
      |
      | exfalso; exact (first_failure_settles _ _ Hdel) ]
    | ]
  |
  | ];
  cbn [trace outcome final].

(** Filters and updates over a trace built from the parts above. *)
Ltac parts_step :=
  first
    [ rewrite List.filter_app
    | rewrite updates_of_app
    | match goal with
      | Hreg : forallb is_registration_step ?t = true |- context [List.filter ?P ?t] =>
          rewrite (steps_filter P t Hreg) by (intros []; (discriminate || reflexivity))
      | Hreg : forallb is_registration_step ?t = true |- context [updates_of ?t] =>
          rewrite (steps_updates t Hreg)
      | |- context [List.filter ?P (map DeleteApp ?apps)] =>
          first [ rewrite (deletions_filter P apps) by (intros ?; reflexivity)
                | rewrite (deletions_kept P apps) by (intros ?; reflexivity) ]
      | |- context [updates_of (map DeleteApp ?apps)] =>
          rewrite (deletions_updates apps)
      | |- context [if Nat.ltb 0 (length ?apps) then _ else _] =>
          destruct (Nat.ltb 0 (length apps))
      | |- context [match length ?apps with 0 => _ | S _ => _ end] =>
          destruct (length apps)
      end ].

Ltac parts := repeat parts_step; cbn; repeat (progress (repeat parts_step; cbn)).

(** *** [handleSendPush] *)

(** X12.  On a page whose [serverKey] and [targetToken] hold strings, as
    [State] has them, [handleSendPush] never rejects, whatever [fetch] and
    [text()] answer: it first clears [sendResult], appends exactly one
    status message, and leaves the storage as it found it.  (Where the
    mount effect has put a stored value that is no string into
    [serverKey], [serverKey.trim()] at line 277 throws outside any [try];
    such a page is no [State].) *)
Theorem send_reports_exactly_once (e : env) (s : State) (st : Storage) :
  let r := handleSendPush e s st in
  outcome r = Done tt
  /\ final r = st
  /\ head (trace r) = Some (SetState (SetSendResult ""))
  /\ statuses (trace r) = 1.
Proof.
  cbv zeta. destruct (AppFacts.validation_cases s) as [Hbad|[v Hv]].
  - destruct (AppFacts.send_rejected_reply e s st Hbad) as [msg ->]. by repeat split.
  - rewrite (AppFacts.send_attempt_reply e s st v Hv).
    destruct (fetch e (push_request s v)) as [response|err]; [|by repeat split].
    destruct (send_failure (Returns response)); by repeat split.
Qed.

(** *** [handleInitializeFirebase] *)

(** X13.  [handleInitializeFirebase] never rejects.  Whenever it settles,
    [isInitializing] is false again; with every call to the browser and
    the SDK settling, it fails to settle only while a fresh registration
    waits for a worker that never reports ['activated'], and then
    [isInitializing] stays true. *)
Theorem initializing_flag_cleared_unless_waiting
  (e : env) (s : State) (st : Storage) (now : Z) (s0 : State) :
  let r := handleInitializeFirebase e s st in
  let s' := apply_updates now (updates_of (trace r)) s0 in
  (outcome r = Done tt /\ isInitializing s' = false)
  \/ (outcome r = Hung /\ isInitializing s' = true /\
      exists registration w,
        getRegistration e = Returns None /\
        register e = Returns registration /\
        awaited_worker (slots registration) = Some w /\
        first_activated (statechanges e) = None).
Proof.
  cbv zeta. init_cases e s st; parts;
    try (left; split; [reflexivity | by destruct s0]).
  all: right; split; [reflexivity|]; split; [by destruct s0 | by apply Hhung].
Qed.

(** X14.  [handleInitializeFirebase] stores an app and a messaging instance
    exactly when it reports success, and then they are the ones
    [initializeApp] and [getMessaging] returned.  In every other run it
    leaves [firebaseApp] and [messaging] as they were, also after it has
    deleted the existing apps. *)
Theorem handles_stored_only_on_success (e : env) (s : State) (st : Storage) :
  let r := handleInitializeFirebase e s st in
  let reported := List.filter is_success (trace r) in
  let stored := List.filter sets_sdk_handles (trace r) in
  (reported = [] /\ stored = [] /\
   forall now s0,
     firebaseApp (apply_updates now (updates_of (trace r)) s0) = firebaseApp s0 /\
     messaging (apply_updates now (updates_of (trace r)) s0) = messaging s0)
  \/ (exists a m,
        initializeApp e (firebaseConfig s) = Returns a /\
        getMessaging e a = Returns m /\
        reported = [SetState (AppendStatus success
                      "Firebase 초기화 및 서비스 워커 구성이 완료되었습니다.")] /\
        stored = [SetState (SetFirebaseApp (Some a)); SetState (SetMessaging (Some m))] /\
        forall now s0,
          firebaseApp (apply_updates now (updates_of (trace r)) s0) = Some a /\
          messaging (apply_updates now (updates_of (trace r)) s0) = Some m).
Proof.
  cbv zeta. init_cases e s st.
  2-9: left; parts; (split; [reflexivity|]); (split; [reflexivity|]);
    intros now s0; parts; by destruct s0.
  right. exists a, m. split; [reflexivity|]. split; [exact Hmsg|].
  parts; (split; [reflexivity|]); (split; [reflexivity|]);
    intros now s0; parts; by destruct s0.
Qed.

Lemma none_filter (P : effect -> bool) t : List.filter P t = [] -> none P t = true.
Proof.
  induction t as [|ev t IH]; [reflexivity|].
  simpl. destruct (P ev); [discriminate|]. exact IH.
Qed.

(** X15.  [handleInitializeFirebase] writes the settings as soon as the
    browser is known to support messaging, before any call to the SDK or
    to the service worker, and the write stays whatever happens next.  When
    the browser is not supported nothing is written; when the storage
    refuses the write, no app is initialised and no worker is registered. *)
Theorem settings_saved_before_sdk (e : env) (s : State) (st : Storage) :
  let text :=
    JSON_stringify (settings_value (firebaseConfig s) (vapidKey s) (serverKey s)) in
  let r := handleInitializeFirebase e s st in
  (isSupported e = Returns true ->
   available st && accepts st LOCAL_STORAGE_KEY text = true ->
   items (final r) !! LOCAL_STORAGE_KEY = Some text /\
   precedes is_setItem is_lifecycle (trace r))
  /\ (isSupported e <> Returns true ->
      final r = st /\ none is_setItem (trace r) = true)
  /\ (available st && accepts st LOCAL_STORAGE_KEY text = false ->
      final r = st /\ none is_lifecycle (trace r) = true).
Proof.
  cbv zeta. split; [|split].
  - intros Hs Hr.
    init_cases e s st; try discriminate;
      (split; [cbn; apply lookup_insert_eq|]);
      cbn; do 3 (apply precedes_skip; [reflexivity|reflexivity|]);
      (apply precedes_from; [reflexivity|reflexivity|]);
      apply none_filter; parts; reflexivity.
  - intros Hs. init_cases e s st; try congruence; by split.
  - intros Hr. init_cases e s st; try discriminate; by split.
Qed.

(** X16.  [initializeApp] is called with the state's config, once, and only
    after [deleteApp] has been called on every app [getApps] listed and
    every one of those deletions has succeeded. *)
Theorem apps_deleted_before_initializeApp (e : env) (s : State) (st : Storage) :
  let r := handleInitializeFirebase e s st in
  let calls :=
    List.filter (fun ev => is_deleteApp ev || is_initializeApp ev) (trace r) in
  calls = []
  \/ calls = map DeleteApp (getApps e)
  \/ (first_failure e (getApps e) = Done tt /\
      calls = map DeleteApp (getApps e) ++ [InitializeApp (firebaseConfig s)]).
Proof.
  cbv zeta. init_cases e s st; parts; rewrite ?app_nil_r; auto.
Qed.

(** *** [handleRequestPermissionAndToken] *)

(** The cases of [handleRequestPermissionAndToken]. *)
Ltac token_cases e s st :=
  rewrite (handleRequestPermissionAndToken_reply e s st); cbv zeta;
  destruct (messaging s) as [m|] eqn:Hm;
  [ destruct (blank (vapidKey s)) eqn:Hv;
    [
    | destruct (has_Notification e) eqn:Hn;
      [ destruct (requestPermission e) as [permission|err] eqn:Hp;
        [ destruct (String.eqb_spec permission "granted") as [->|Hne];
          [ pose proof (ensure_only_steps e s st) as Hreg;
            pose proof (ensure_hung e s st) as Hhung;
            destruct (ensureServiceWorkerRegistration e s st)
              as [tsw ? [registration|err|]] eqn:Hens;
            simpl in Hreg, Hhung;
            [ destruct (getToken e) as [currentToken|err] eqn:Ht;
              [ destruct (String.eqb_spec currentToken "") as [->|Hto] | ]
            | | ]
          | ]
        | ]
      | ] ]
  | ];
  cbn [trace outcome final].

(** X17.  [getToken] is called only with a messaging instance at hand, a
    VAPID key that is not blank, the Notification API present, the
    permission granted and the service worker registered; it is then
    called once, with the trimmed key and with the registration that
    [ensureServiceWorkerRegistration] returned. *)
Theorem getToken_is_guarded (e : env) (s : State) (st : Storage) :
  let r := handleRequestPermissionAndToken e s st in
  List.filter is_getToken (trace r) = []
  \/ exists m registration,
       messaging s = Some m /\
       blank (vapidKey s) = false /\
       has_Notification e = true /\
       requestPermission e = Returns "granted" /\
       outcome (ensureServiceWorkerRegistration e s st) = Done registration /\
       List.filter is_getToken (trace r)
       = [GetToken m (trim (vapidKey s)) registration].
Proof.
  cbv zeta. token_cases e s st; parts; auto;
    right; exists m, registration; by repeat split.
Qed.

(** X18.  [handleRequestPermissionAndToken] changes [token] and
    [targetToken] together or not at all: either it reports no success and
    leaves both as they were, or [getToken] returned a token that is not
    empty, both are set to it, whatever the target field held, and success
    is reported. *)
Theorem token_and_target_change_together
  (e : env) (s : State) (st : Storage) (now : Z) (s0 : State) :
  let r := handleRequestPermissionAndToken e s st in
  let s' := apply_updates now (updates_of (trace r)) s0 in
  (List.filter is_success (trace r) = [] /\
   token s' = token s0 /\ targetToken s' = targetToken s0)
  \/ (exists currentToken,
        getToken e = Returns currentToken /\
        currentToken <> "" /\
        List.filter is_success (trace r)
        = [SetState (AppendStatus success "FCM 등록 토큰을 발급했습니다.")] /\
        token s' = currentToken /\ targetToken s' = currentToken).
Proof.
  cbv zeta. token_cases e s st; parts;
    try (left; split; [reflexivity|]; by destruct s0).
  right. exists currentToken. split; [reflexivity|]. split; [exact Hto|].
  split; [reflexivity|]. by destruct s0.
Qed.

(** X19.  On a page whose [vapidKey] holds a string, as [State] has it
    (where the mount effect has put another stored value into it,
    [vapidKey.trim()] at line 227 throws before the [try]; such a page is
    no [State]), [handleRequestPermissionAndToken] never rejects and never
    touches the storage.  Whenever it settles it has appended exactly one status
    message; with every call to the browser and the SDK settling, it fails
    to settle only after the permission was granted, while a fresh
    registration waits for a worker that never reports ['activated'], and
    then it has appended none. *)
Theorem token_request_reports_once (e : env) (s : State) (st : Storage) :
  let r := handleRequestPermissionAndToken e s st in
  final r = st
  /\ ((outcome r = Done tt /\ statuses (trace r) = 1)
      \/ (outcome r = Hung /\ statuses (trace r) = 0 /\
          requestPermission e = Returns "granted" /\
          first_activated (statechanges e) = None)).
Proof.
  cbv zeta. unfold statuses.
  token_cases e s st; (split; [reflexivity|]); parts; auto.
  right. destruct (Hhung eq_refl) as (registration0 & w & _ & _ & _ & Hf).
  by repeat split.
Qed.

(** *** Sessions *)

Lemma only_deleteAll (G : effect -> bool) e apps :
  (forall a, G (DeleteApp a) = true) -> only G (deleteAll e apps).
Proof.
  intros HG st. unfold deleteAll. cbn [trace].
  induction apps as [|a apps IH]; [reflexivity|].
  cbn. by rewrite HG.
Qed.

Lemma perform_stays_home a e s : only stays_home (perform a e s).
Proof.
  destruct a; unfold perform; unfold_handlers; unfold localStorage_setItem;
    repeat first [ apply only_deleteAll; intros ?; reflexivity | only_step ].
Qed.

Lemma same_but_settings_preorder : PreOrder same_but_settings.
Proof.
  split.
  - intros st. by repeat split.
  - intros st1 st2 st3 (Ha & Hc & Hi) (Ha' & Hc' & Hi').
    split; [congruence|]. split; [congruence|].
    intros key Hk. by rewrite Hi', Hi.
Qed.

Lemma keeps_setItem value : keeps same_but_settings (localStorage_setItem LOCAL_STORAGE_KEY value).
Proof.
  intros st. unfold localStorage_setItem, bind, get, put, emit, call. cbn.
  destruct (available st && accepts st LOCAL_STORAGE_KEY value); cbn.
  - split; [reflexivity|]. split; [reflexivity|].
    intros key Hk. cbn. by apply lookup_insert_ne.
  - apply same_but_settings_preorder.
Qed.

Lemma keeps_deleteAll R e apps : Reflexive R -> keeps R (deleteAll e apps).
Proof. intros HR st. apply HR. Qed.

Lemma perform_keeps a e s : keeps same_but_settings (perform a e s).
Proof.
  pose proof same_but_settings_preorder as HR.
  destruct a; unfold perform; unfold_handlers;
    repeat first [ exact HR
                 | apply keeps_setItem
                 | apply keeps_deleteAll; apply HR
                 | keeps_step ].
Qed.

Lemma token_with_messaging act e s st mi vapid r0 :
  In (GetToken mi vapid r0) (trace (perform act e s st)) -> messaging s = Some mi.
Proof.
  intros Hin.
  assert (Hf : In (GetToken mi vapid r0)
                  (List.filter is_getToken (trace (perform act e s st)))).
  { apply filter_In. by split. }
  clear Hin. destruct act; cbn [perform] in Hf; try (by destruct Hf).
  - destruct (negb (configIsComplete s) || isInitializing s); [by destruct Hf|].
    revert Hf. init_cases e s st; parts; intros [].
  - revert Hf. token_cases e s st; parts; try (intros []; fail).
    all: intros [[= <- _ _]|[]]; reflexivity.
  - destruct (sending s); [by destruct Hf|].
    pose proof (AppFacts.send_outside_lifecycle e s st) as Hq.
    apply filter_In in Hf as [Hin _].
    apply (none_In _ _ _ Hq) in Hin. discriminate.
Qed.

Lemma token_run_stores_nothing act e s st mi vapid r0 :
  In (GetToken mi vapid r0) (trace (perform act e s st)) ->
  List.filter sets_sdk_handles (trace (perform act e s st)) = [].
Proof.
  intros Hin.
  assert (Hf : In (GetToken mi vapid r0)
                  (List.filter is_getToken (trace (perform act e s st)))).
  { apply filter_In. by split. }
  clear Hin. destruct act; cbn [perform] in *; try reflexivity.
  - destruct (negb (configIsComplete s) || isInitializing s); [reflexivity|].
    revert Hf. init_cases e s st; parts; intros [].
  - clear Hf. token_cases e s st; parts; reflexivity.
  - destruct (sending s); [reflexivity|].
    pose proof (AppFacts.send_outside_lifecycle e s st) as Hq.
    apply filter_In in Hf as [Hin _].
    apply (none_In _ _ _ Hq) in Hin. discriminate.
Qed.

(** The storage after an initialisation on a supported browser whose
    storage took the write. *)
Lemma initialize_stores e s st :
  isSupported e = Returns true ->
  available st
  && accepts st LOCAL_STORAGE_KEY
       (JSON_stringify (settings_value (firebaseConfig s) (vapidKey s) (serverKey s)))
  = true ->
  available (final (handleInitializeFirebase e s st)) = true /\
  items (final (handleInitializeFirebase e s st)) !! LOCAL_STORAGE_KEY
  = Some (JSON_stringify (settings_value (firebaseConfig s) (vapidKey s) (serverKey s))).
Proof.
  intros Hs Hr. apply andb_true_iff in Hr as Hav. destruct Hav as [Hav _].
  init_cases e s st; try discriminate; (split; [exact Hav | cbn; apply lookup_insert_eq]).
Qed.

Lemma push_request_falsy s v :
  truthy v = false -> push_request s v = push_request s JUndefined.
Proof. intros Hv. unfold push_request, push_body. by rewrite Hv. Qed.

(** X28.  A data field whose JSON is falsy ([null], [0], [false] or an
    empty string) is accepted and then dropped: the request sent is the
    one a blank data field gives, and its body has no [data]. *)
Theorem falsy_data_is_not_sent (e : env) (s : State) (st : Storage) (v : jsval) :
  validated s v ->
  truthy v = false ->
  List.filter is_fetch (trace (handleSendPush e s st))
  = [Fetch (push_request s JUndefined)]
  /\ exists fields,
       request_body (push_request s JUndefined) = JSON_stringify (JObj fields) /\
       get_field "data" fields = JUndefined.
Proof.
  intros Hv Hf. split.
  - rewrite (AppFacts.send_attempt_reply e s st v Hv).
    rewrite (push_request_falsy s v Hf).
    destruct (fetch e (push_request s JUndefined)) as [response|err]; [|reflexivity].
    by destruct (send_failure (Returns response)).
  - eexists. split; reflexivity.
Qed.

End Page.

Lemma falsy_data_is_not_sent_witness :
  List.filter is_fetch
    (trace (handleSendPush (H := Reference.platform) Examples.env0
              Examples.null_data Examples.storage0))
  = [Fetch (push_request (H := Reference.platform) Examples.null_data JUndefined)].
Proof.
  destruct (falsy_data_is_not_sent (H := Reference.platform) Examples.env0
              Examples.null_data Examples.storage0 JNull) as [Hsent _].
  - repeat split; vm_compute; reflexivity.
  - reflexivity.
  - exact Hsent.
Defined.

End AppMore.

(** ** The rest of the page *)

Module RestFacts.
Import App Rest Vocabulary.

Section Page.
Context `{Platform}.

Lemma loadSavedSettings_reply st :
  exists t v, loadSavedSettings st = Reply t st (Done v).
Proof.
  unfold loadSavedSettings, localStorage_getItem, try_catch, bind, get, call. cbn.
  destruct (available st); cbn; [|eauto].
  destruct (items st !! LOCAL_STORAGE_KEY) as [text|]; cbn; [|eauto].
  destruct (String.eqb text ""); cbn; [eauto|].
  destruct (JSON_parse text); cbn; eauto.
Qed.

Lemma member_truthy v name : truthy v = true -> member v name = Some (opt_member v name).
Proof. by destruct v. Qed.

Lemma mountEffect_reply st t v :
  loadSavedSettings st = Reply t st (Done v) ->
  mountEffect st
  = Reply (map Core t
             ++ (if truthy v
                 then [SetFirebaseConfigRaw (opt_member v "config");
                       SetVapidKeyRaw (opt_member v "vapidKey");
                       SetServerKeyRaw (opt_member v "serverKey")]
                 else []))
          st (Done tt).
Proof.
  intros Hl. unfold mountEffect, lift, bind. rewrite Hl.
  destruct (truthy v) eqn:Hv; cbn; [|reflexivity].
  rewrite !(member_truthy v _ Hv). reflexivity.
Qed.

(** X23.  The mount effect never throws, whatever local storage holds, and
    leaves the storage alone.  When [loadSavedSettings] returns a falsy
    value no setter is called; otherwise the three setters are called, in
    order, with whatever the stored value has under [config], [vapidKey]
    and [serverKey], unchecked. *)
Theorem mount_effect_is_contained (st : Storage) :
  let r := mountEffect st in
  outcome r = Done tt
  /\ final r = st
  /\ exists v,
       outcome (loadSavedSettings st) = Done v /\
       trace r
       = map Core (trace (loadSavedSettings st))
           ++ (if truthy v
               then [SetFirebaseConfigRaw (opt_member v "config");
                     SetVapidKeyRaw (opt_member v "vapidKey");
                     SetServerKeyRaw (opt_member v "serverKey")]
               else []).
Proof.
  cbv zeta. destruct (loadSavedSettings_reply st) as (t & v & Hl).
  rewrite (mountEffect_reply st t v Hl), Hl. cbn [trace outcome final].
  split; [reflexivity|]. split; [reflexivity|]. by exists v.
Qed.

(** X24.  What the page restores when it is loaded again is what the
    fields held at the last initialisation: after
    [handleInitializeFirebase] on a supported browser whose storage took
    the write, the mount effect sets [firebaseConfig], [vapidKey] and
    [serverKey] to the values the handler saw, whether or not the
    initialisation itself succeeded, given that the engine's JSON reads
    back what it prints for the settings. *)
Theorem reload_restores_settings
  (e : env) (s : State) (st : Storage) (now : Z) (s0 : State) :
  let text :=
    JSON_stringify (settings_value (firebaseConfig s) (vapidKey s) (serverKey s)) in
  JSON_parse text = Some (settings_value (firebaseConfig s) (vapidKey s) (serverKey s)) ->
  text <> "" ->
  isSupported e = Returns true ->
  available st && accepts st LOCAL_STORAGE_KEY text = true ->
  let r := mountEffect (final (handleInitializeFirebase e s st)) in
  outcome r = Done tt
  /\ exists s',
       apply_page_effects now (trace r) s0 = Some s' /\
       firebaseConfig s' = firebaseConfig s /\
       vapidKey s' = vapidKey s /\
       serverKey s' = serverKey s.
Proof.
  cbv zeta. intros Hjson Hne Hs Hr.
  destruct (AppMore.initialize_stores e s st Hs Hr) as [Hav Hit].
  rewrite (mountEffect_reply _ _ _
             (AppFacts.loadSavedSettings_stored _ _ _ Hav Hit Hne Hjson)).
  cbn [trace outcome]. split; [reflexivity|].
  cbn. destruct s0. cbn. eexists. split; [reflexivity|]. cbn.
  split; [by destruct (firebaseConfig s)|]. by split.
Qed.

(** X25.  [resetFirebase] never rejects and leaves the storage alone.  It
    empties [token] and the list of foreground messages and keeps
    [targetToken].  When the page holds an app, [firebaseApp] and
    [messaging] are null afterwards whether or not [deleteApp] succeeded,
    and the release is reported exactly when it did; when the page holds
    none, [deleteApp] is not called and both are left as they were. *)
Theorem resetFirebase_always_detaches
  (e : env) (s : State) (st : Storage) (now : Z) (s0 : State) :
  let r := resetFirebase e s st in
  outcome r = Done tt
  /\ final r = st
  /\ exists s',
       apply_page_effects now (trace r) s0 = Some s' /\
       token s' = "" /\
       foregroundMessages s' = [] /\
       targetToken s' = targetToken s0 /\
       match firebaseApp s with
       | Some a =>
           firebaseApp s' = None /\ messaging s' = None /\
           In (Core (DeleteApp a)) (trace r) /\
           (In (Core (SetState (AppendStatus info "Firebase 앱 인스턴스를 해제했습니다.")))
               (trace r)
            <-> deleteApp e a = Returns tt)
       | None =>
           firebaseApp s' = firebaseApp s0 /\ messaging s' = messaging s0 /\
           trace r = [Core (SetState (SetToken "")); SetForegroundMessages []]
       end.
Proof.
  cbv zeta. unfold resetFirebase, set_state, append_status, set_state.
  unfold try_finally, try_catch, bind, call, emit, ret.
  destruct (firebaseApp s) as [a|]; cbn.
  - destruct (deleteApp e a) as [[]|err]; cbn;
      (split; [reflexivity|]); (split; [reflexivity|]);
      destruct s0; cbn; eexists; (split; [reflexivity|]); cbn;
      repeat (split; [reflexivity|]); (split; [right; right; by left|]); split.
    + by intros _.
    + intros _. right. right. right. by left.
    + intros [Hin|[Hin|[Hin|[Hin|[Hin|[Hin|[]]]]]]]; discriminate.
    + discriminate.
  - split; [reflexivity|]. split; [reflexivity|].
    destruct s0; cbn. eexists. by repeat split.
Qed.

(** X26.  [handleCopyToken] never rejects.  With an empty [token] it does
    nothing; otherwise it writes exactly [token] to the clipboard and
    appends one status message, a success when the write succeeded and an
    error when the clipboard refused it. *)
Theorem copy_token_reports
  (writeText : string -> answer unit) (s : State) (st : Storage) :
  let r := handleCopyToken writeText s st in
  outcome r = Done tt
  /\ final r = st
  /\ (token s = "" -> trace r = [])
  /\ (token s <> "" ->
      exists ty txt,
        trace r = [ClipboardWriteText (token s);
                   Core (SetState (AppendStatus ty txt))] /\
        (ty = success <-> writeText (token s) = Returns tt) /\
        (ty = error <-> exists err, writeText (token s) = Raises err)).
Proof.
  cbv zeta. unfold handleCopyToken, append_status, set_state.
  unfold try_catch, bind, call, emit.
  destruct (String.eqb_spec (token s) "") as [He|Hne].
  { by repeat split. }
  destruct (writeText (token s)) as [[]|err]; cbn;
    (split; [reflexivity|]); (split; [reflexivity|]); (split; [done|]); intros _.
  - exists success, "토큰을 클립보드에 복사했습니다.". split; [reflexivity|].
    split; [done|]. split; [discriminate|]. by intros [? ?].
  - exists error, "토큰 복사에 실패했습니다.". split; [reflexivity|].
    split; [split; discriminate|]. split; [eauto|done].
Qed.

(** X27.  After [resetFirebase] on a page that holds an app, a token
    request stops at its first check: it reports that messaging is not
    initialised and calls neither [Notification.requestPermission] nor
    [getToken], whatever the browser would answer. *)
Theorem reset_disables_token_request
  (e e' : env) (s : State) (st st' : Storage) (now : Z) (a : FirebaseApp) (s' : State) :
  firebaseApp s = Some a ->
  apply_page_effects now (trace (resetFirebase e s st)) s = Some s' ->
  trace (handleRequestPermissionAndToken e' s' st')
  = [SetState (AppendStatus error
                 "Firebase 메시징이 초기화되지 않았습니다. 먼저 초기화를 진행해주세요.")].
Proof.
  intros Ha. unfold resetFirebase, set_state, append_status, set_state.
  unfold try_finally, try_catch, bind, call, emit, ret. rewrite Ha. cbn.
  destruct (deleteApp e a) as [[]|err]; cbn; destruct s; cbn; intros [= <-];
    reflexivity.
Qed.

(** *** Sessions on the whole page *)

Lemma lift_reply {A} (m : P A) st :
  lift m st = Reply (map Core (trace (m st))) (final (m st)) (outcome (m st)).
Proof. unfold lift. by destruct (m st). Qed.

(** The state after the calls of one of the three handlers or of an
    input of [action] is the one its updates give. *)
Lemma apply_core now t s :
  apply_page_effects now (map Core t) s = Some (apply_updates now (updates_of t) s).
Proof.
  revert s. induction t as [|ev t IH]; intros s; [reflexivity|].
  cbn [map apply_page_effects]. destruct ev; cbn; apply IH.
Qed.

Lemma operate_state c e writeText s st now :
  exists s', apply_page_effects now (trace (operate c e writeText s st)) s = Some s'.
Proof.
  destruct c as [a|f v| |]; cbn [operate].
  - rewrite lift_reply. cbn [trace]. rewrite apply_core. eauto.
  - cbn. eauto.
  - unfold resetFirebase, set_state, append_status, set_state.
    unfold try_finally, try_catch, bind, call, emit, ret.
    destruct (firebaseApp s) as [a|]; cbn; [|eauto].
    destruct (deleteApp e a) as [[]|err]; cbn; eauto.
  - unfold handleCopyToken, append_status, set_state.
    unfold try_catch, bind, call, emit.
    destruct (String.eqb (token s) ""); cbn; [eauto|].
    destruct (writeText (token s)) as [[]|err]; cbn; eauto.
Qed.

Lemma stays_home_core t :
  forallb page_stays_home (map Core t) = forallb stays_home t.
Proof. induction t as [|ev t IH]; [reflexivity|]. cbn. by rewrite IH. Qed.

Lemma operate_stays_home c e writeText s st :
  forallb page_stays_home (trace (operate c e writeText s st)) = true.
Proof.
  destruct c as [a|f v| |]; cbn [operate].
  - rewrite lift_reply. cbn [trace]. rewrite stays_home_core.
    apply (AppMore.perform_stays_home a e s st).
  - reflexivity.
  - unfold resetFirebase, set_state, append_status, set_state.
    unfold try_finally, try_catch, bind, call, emit, ret.
    destruct (firebaseApp s) as [a|]; cbn; [|reflexivity].
    destruct (deleteApp e a) as [[]|err]; reflexivity.
  - unfold handleCopyToken, append_status, set_state.
    unfold try_catch, bind, call, emit.
    destruct (String.eqb (token s) ""); cbn; [reflexivity|].
    destruct (writeText (token s)) as [[]|err]; reflexivity.
Qed.

Lemma operate_keeps c e writeText s st :
  same_but_settings st (final (operate c e writeText s st)).
Proof.
  pose proof AppMore.same_but_settings_preorder as HR.
  destruct c as [a|f v| |]; cbn [operate].
  - rewrite lift_reply. cbn [final]. apply AppMore.perform_keeps.
  - reflexivity.
  - unfold resetFirebase, set_state, append_status, set_state.
    unfold try_finally, try_catch, bind, call, emit, ret.
    destruct (firebaseApp s) as [a|]; cbn; [|reflexivity].
    destruct (deleteApp e a) as [[]|err]; reflexivity.
  - unfold handleCopyToken, append_status, set_state.
    unfold try_catch, bind, call, emit.
    destruct (String.eqb (token s) ""); cbn; [reflexivity|].
    destruct (writeText (token s)) as [[]|err]; reflexivity.
Qed.

(** Every session is defined, and what holds of each step holds of it. *)
Lemma page_session_defined steps :
  forall s st,
    exists t s' st',
      page_session steps s st = Some (t, s', st')
      /\ forallb page_stays_home t = true
      /\ same_but_settings st st'.
Proof.
  pose proof AppMore.same_but_settings_preorder as HR.
  induction steps as [|[[[e writeText] now] c] steps IH]; intros s st.
  - exists [], s, st. split; [reflexivity|]. split; reflexivity.
  - cbn [page_session]. cbv zeta.
    destruct (operate_state c e writeText s st now) as [s1 ->].
    destruct (IH s1 (final (operate c e writeText s st))) as (t & s' & st' & -> & Hh & Hk).
    exists (trace (operate c e writeText s st) ++ t), s', st'.
    split; [reflexivity|]. split.
    + by rewrite forallb_app, operate_stays_home, Hh.
    + etrans; [apply operate_keeps | exact Hk].
Qed.

(** X20.  Whatever control of the page the user operates, in whatever
    order, and whatever the browser, the SDK and the clipboard answer,
    every request is a POST to the FCM endpoint, every write to local
    storage is under the settings key, and every service-worker
    registration asked for or made is that of
    [/firebase-messaging-sw.js]; the mount effect, which alone reads local
    storage, reads under the settings key. *)
Theorem session_stays_home
  (steps : list (env * (string -> answer unit) * Z * control))
  (s : State) (st : Storage) :
  (exists t s' st',
      page_session steps s st = Some (t, s', st')
      /\ forallb page_stays_home t = true)
  /\ forallb page_stays_home (trace (mountEffect st)) = true
  /\ In (Core (GetItem LOCAL_STORAGE_KEY)) (trace (mountEffect st)).
Proof.
  split.
  - destruct (page_session_defined steps s st) as (t & s' & st' & Hs & Hh & _).
    by exists t, s', st'.
  - unfold mountEffect, lift, bind.
    unfold loadSavedSettings, localStorage_getItem, try_catch, bind, get, call. cbn.
    destruct (available st); cbn; [|split; [reflexivity | by left]].
    destruct (items st !! LOCAL_STORAGE_KEY) as [text|]; cbn;
      [|split; [reflexivity | by left]].
    destruct (String.eqb text ""); cbn; [split; [reflexivity | by left]|].
    destruct (JSON_parse text) as [v|]; cbn; [|split; [reflexivity | by left]].
    destruct (truthy v) eqn:Hv; cbn; [|split; [reflexivity | by left]].
    rewrite !(member_truthy v _ Hv). cbn. split; [reflexivity | by left].
Qed.

(** X21.  A session on the page, whatever controls are operated, changes
    nothing in local storage but what is under the settings key: every
    other key holds what it held, and the storage is as available and
    takes the same writes as before.  The mount effect changes nothing at
    all. *)
Theorem session_keeps_other_keys
  (steps : list (env * (string -> answer unit) * Z * control))
  (s : State) (st : Storage) :
  (exists t s' st',
      page_session steps s st = Some (t, s', st')
      /\ same_but_settings st st')
  /\ final (mountEffect st) = st.
Proof.
  split.
  - destruct (page_session_defined steps s st) as (t & s' & st' & Hs & _ & Hk).
    by exists t, s', st'.
  - destruct (loadSavedSettings_reply st) as (t & v & Hl).
    by rewrite (mountEffect_reply st t v Hl).
Qed.

(** The messaging instance held follows the calls of [setMessaging]. *)
Lemma stored_messaging_app t1 t2 :
  stored_messaging (t1 ++ t2) = stored_messaging t1 ++ stored_messaging t2.
Proof. apply omap_app. Qed.

Lemma held_app s s1 t1 t2 :
  messaging s1 = held_messaging s t1 ->
  held_messaging s (t1 ++ t2) = held_messaging s1 t2.
Proof.
  intros H1. unfold held_messaging in *. rewrite stored_messaging_app, last_app.
  destruct (last (stored_messaging t2)); [reflexivity|]. by rewrite H1.
Qed.

Lemma messaging_tracks now t :
  forall s s', apply_page_effects now t s = Some s' -> messaging s' = held_messaging s t.
Proof.
  induction t as [|ev t IH]; intros s s' Ha.
  - injection Ha as <-. reflexivity.
  - cbn [apply_page_effects] in Ha.
    destruct (apply_page_effect now ev s) as [s1|] eqn:H1; [|discriminate].
    rewrite (IH s1 s' Ha). symmetry.
    apply (held_app s s1 [ev] t).
    unfold held_messaging.
    destruct ev as [ev|f v|v|v|v|l|txt]; cbn in H1 |- *;
      try (injection H1 as <-; by destruct s).
    + destruct ev; try (injection H1 as <-; reflexivity).
      injection H1 as <-. destruct u, s; reflexivity.
    + destruct (as_config v); [|discriminate]. injection H1 as <-. by destruct s.
    + destruct (as_string v); [|discriminate]. injection H1 as <-. by destruct s.
    + destruct (as_string v); [|discriminate]. injection H1 as <-. by destruct s.
Qed.

Lemma stored_core t :
  List.filter sets_sdk_handles t = [] -> stored_messaging (map Core t) = [].
Proof.
  induction t as [|ev t IH]; [reflexivity|].
  cbn. destruct ev; cbn; try exact IH.
  destruct u; cbn; try exact IH; discriminate.
Qed.

Lemma stored_In m t :
  In m (stored_messaging t) -> In (Core (SetState (SetMessaging m))) t.
Proof.
  induction t as [|ev t IH]; [intros []|].
  destruct ev as [ev| | | | | |]; cbn; try (intros Hin; right; by apply IH).
  destruct ev; cbn; try (intros Hin; right; by apply IH).
  destruct u; cbn; try (intros Hin; right; by apply IH).
  intros [<-|Hin]; [by left | right; by apply IH].
Qed.

(** Within one listener, [getToken] is called with the instance the page
    held when the listener started, and before any [setMessaging]. *)
Lemma token_in_listener c e writeText s st pre post mi vapid r0 :
  trace (operate c e writeText s st) = pre ++ Core (GetToken mi vapid r0) :: post ->
  messaging s = Some mi /\ stored_messaging pre = [].
Proof.
  intros Ht.
  assert (Hin : In (Core (GetToken mi vapid r0)) (trace (operate c e writeText s st))).
  { rewrite Ht. apply in_elt. }
  destruct c as [a|f v| |]; cbn [operate] in *.
  - rewrite lift_reply in *. cbn [trace] in *.
    apply in_map_iff in Hin as (ev & [= ->] & Hin).
    split; [exact (AppMore.token_with_messaging a e s st mi vapid r0 Hin)|].
    pose proof (stored_core _ (AppMore.token_run_stores_nothing a e s st mi vapid r0 Hin))
      as Hno.
    rewrite Ht, stored_messaging_app in Hno. by apply app_eq_nil in Hno as [Hno _].
  - destruct Hin as [Hin|[]]. discriminate.
  - exfalso. revert Hin. unfold resetFirebase, set_state, append_status, set_state.
    unfold try_finally, try_catch, bind, call, emit, ret.
    destruct (firebaseApp s) as [a|]; cbn.
    + destruct (deleteApp e a) as [[]|err]; cbn; intuition discriminate.
    + intuition discriminate.
  - exfalso. revert Hin. unfold handleCopyToken, append_status, set_state.
    unfold try_catch, bind, call, emit.
    destruct (String.eqb (token s) ""); cbn; [tauto|].
    destruct (writeText (token s)) as [[]|err]; cbn; intuition discriminate.
Qed.

Lemma session_held steps :
  forall s st t s' st' pre post mi vapid r0,
    page_session steps s st = Some (t, s', st') ->
    t = pre ++ Core (GetToken mi vapid r0) :: post ->
    held_messaging s pre = Some mi.
Proof.
  induction steps as [|[[[e writeText] now] c] steps IH];
    intros s st t s' st' pre post mi vapid r0 Hs Ht.
  { injection Hs as <- _ _. by destruct pre. }
  cbn [page_session] in Hs. cbv zeta in Hs.
  destruct (apply_page_effects now (trace (operate c e writeText s st)) s)
    as [s1|] eqn:H1; [|discriminate].
  destruct (page_session steps s1 (final (operate c e writeText s st)))
    as [[[t1 s2] st2]|] eqn:Hrest; [|discriminate].
  injection Hs as <- _ _.
  pose proof (messaging_tracks now _ s s1 H1) as Hheld.
  symmetry in Ht. apply app_eq_app in Ht as [l [[Hpre Hl]|[Hh Hl]]].
  - rewrite Hpre, (held_app s s1 _ l Hheld).
    exact (IH s1 _ t1 s2 st2 l post mi vapid r0 Hrest Hl).
  - destruct l as [|x l]; simpl in Hl.
    + rewrite app_nil_r in Hh. rewrite <- Hh, <- Hheld.
      exact (IH s1 _ t1 s2 st2 [] post mi vapid r0 Hrest (eq_sym Hl)).
    + injection Hl as <- _.
      destruct (token_in_listener c e writeText s st pre l mi vapid r0 Hh) as [Hm Hno].
      unfold held_messaging. by rewrite Hno.
Qed.

(** X22.  In a session on the page, whatever controls are operated,
    [getToken] is only ever called with the messaging instance the page
    holds at that moment: the one [setMessaging] was last given, by an
    initialisation that no reset has followed, or the one the session
    started with.  In a session that starts without one it has been
    stored earlier in the session. *)
Theorem token_requires_initialisation
  (steps : list (env * (string -> answer unit) * Z * control))
  (s s' : State) (st st' : Storage) (t pre post : list page_effect)
  (m : Messaging) (vapid : string) (registration : ServiceWorkerRegistration) :
  page_session steps s st = Some (t, s', st') ->
  t = pre ++ Core (GetToken m vapid registration) :: post ->
  held_messaging s pre = Some m
  /\ (messaging s = None -> In (Core (SetState (SetMessaging (Some m)))) pre).
Proof.
  intros Hs Ht.
  pose proof (session_held steps s st t s' st' pre post m vapid registration Hs Ht)
    as Hheld.
  split; [exact Hheld|]. intros Hnone.
  unfold held_messaging in Hheld. rewrite Hnone in Hheld.
  destruct (last (stored_messaging pre)) as [x|] eqn:Hlast; [|discriminate]. subst x.
  apply stored_In. apply list_elem_of_In. by apply last_Some_elem_of.
Qed.

End Page.

Lemma reload_restores_settings_witness :
  exists s',
    apply_page_effects 0%Z
      (trace (mountEffect (H := Reference.platform)
                (final (handleInitializeFirebase (H := Reference.platform)
                          (Examples.with_registration (Raises (Error "SecurityError"))
                             Examples.env0)
                          Examples.configured Examples.storage0))))
      initialState = Some s'
    /\ firebaseConfig s' = Examples.config1
    /\ vapidKey s' = "BBO-vapid"
    /\ serverKey s' = "".
Proof.
  destruct (reload_restores_settings (H := Reference.platform)
              (Examples.with_registration (Raises (Error "SecurityError")) Examples.env0)
              Examples.configured Examples.storage0 0%Z initialState)
    as (_ & s' & Hs' & Hc & Hv & Hk).
  - vm_compute. reflexivity.
  - vm_compute. discriminate.
  - reflexivity.
  - reflexivity.
  - exists s'. by repeat split.
Defined.

Lemma reset_disables_token_request_witness :
  exists s',
    apply_page_effects 5%Z
      (trace (resetFirebase Examples.env0 Examples.initialised Examples.storage0))
      Examples.initialised = Some s'
    /\ trace (handleRequestPermissionAndToken (H := Reference.platform) Examples.env0
                s' Examples.storage0)
       = [SetState (AppendStatus error
                      "Firebase 메시징이 초기화되지 않았습니다. 먼저 초기화를 진행해주세요.")].
Proof.
  eexists. split; [vm_compute; reflexivity|].
  apply (reset_disables_token_request (H := Reference.platform)
           Examples.env0 Examples.env0 Examples.initialised
           Examples.storage0 Examples.storage0 5%Z {| options := Examples.config1 |}).
  - reflexivity.
  - vm_compute. reflexivity.
Defined.

Lemma token_requires_initialisation_witness :
  let steps :=
    [(Examples.env0, fun _ : string => Returns tt, 1%Z, ClickReset);
     (Examples.env0, fun _ : string => Returns tt, 2%Z, Handled ClickInitialize);
     (Examples.env0, fun _ : string => Returns tt, 3%Z, ChangePushPayload field_title "Hi");
     (Examples.env0, fun _ : string => Returns tt, 4%Z, Handled ClickRequestToken)] in
  let t :=
    match page_session (H := Reference.platform) steps Examples.configured
            Examples.storage0 with
    | Some (t, _, _) => t
    | None => []
    end in
  nth_error t 23
  = Some (Core (GetToken {| app := {| options := Examples.config1 |} |} "BBO-vapid"
                  {| registration_id := 7; slots := Examples.only_active |}))
  /\ held_messaging Examples.configured (firstn 23 t)
     = Some {| app := {| options := Examples.config1 |} |}
  /\ In (Core (SetState (SetMessaging (Some {| app := {| options := Examples.config1 |} |}))))
        (firstn 23 t).
Proof.
  intros steps t. split; [vm_compute; reflexivity|].
  destruct (token_requires_initialisation (H := Reference.platform) steps
              Examples.configured
              match page_session (H := Reference.platform) steps Examples.configured
                      Examples.storage0 with
              | Some (_, s', _) => s'
              | None => Examples.configured
              end
              Examples.storage0
              match page_session (H := Reference.platform) steps Examples.configured
                      Examples.storage0 with
              | Some (_, _, st') => st'
              | None => Examples.storage0
              end
              t (firstn 23 t) (skipn 24 t)
              {| app := {| options := Examples.config1 |} |}
              "BBO-vapid"
              {| registration_id := 7; slots := Examples.only_active |})
    as [Hheld Hin].
  - vm_compute. reflexivity.
  - vm_compute. reflexivity.
  - split; [exact Hheld | exact (Hin eq_refl)].
Defined.

End RestFacts.
